(** * TaskManagerCore.js: a spreadsheet-backed task manager

    A shallow embedding of [src/TaskManagerCore.js].  The script keeps its
    tasks as the rows of one sheet of the active spreadsheet (row 1 is the
    header), memoises the task list in the script cache, and calls the
    host for dialogs and the clock.  Every script function is a
    computation over an explicit [world] that may throw.

    What is modelled and what is not:
    - JavaScript numbers are integers ([Z]); the two ratios of
      [getTaskAnalytics] are computed on binary64 floats.
    - Strings are sequences of 8-bit code units.
    - The sheet is an unbounded grid of cells.  A cell keeps the number,
      boolean, valid date or string written to it; the reading of a string
      as a number, a date or a formula that a spreadsheet may apply on
      entry is not modelled.  Data-validation rules, conditional
      formatting, fonts and colours are not part of the state; the calls
      that only set them leave the world as it is.
    - The script cache has no expiry and no size limit.
    - Conversions whose tables live in the host (string to number, date
      parsing and printing, ...) are the methods of the class [Host]; no
      theorem assumes anything about them.

    The file declares [addTask] (and [onOpen]) twice.  A later function
    declaration replaces an earlier one of the same name, so the
    declaration of line 435 is the [addTask] of the script; the one of
    line 133 is kept here as [addTask_133]. *)

From Stdlib Require Import ZArith String Ascii List Floats Uint63 DecimalString Lia.
From stdpp Require Import base gmap strings list.

Set Warnings "-register-all".

(** ** JavaScript values *)

Inductive jsval :=
| JUndefined
| JNull
| JBool (b : bool)
| JNum (n : Z)
| JStr (s : string)
| JDate (t : option Z)          (* time value in ms; [None] is Invalid Date *)
| JArr (items : list jsval)
| JObj (props : list (string * jsval)).

#[global] Instance jsval_inhabited : Inhabited jsval := populate JUndefined.

(** What the host decides.  [StringToNumber s] is [None] when the string
    converts to NaN or to a number that is not an integer. *)
Class Host := {
  StringToNumber : string -> option Z;
  ObjectToString : jsval -> string;      (* ToPrimitive of a Date, array or object *)
  Date_parse : string -> option Z;
  Date_toISOString : Z -> string;
  Number_toString : float -> string;     (* Number::toString, used from 1e21 on *)
  inheritedText : string -> string;      (* Object.prototype[k] as [+] converts it *)
  coerceCell : jsval -> jsval            (* what a cell keeps of a value it cannot hold *)
}.

(** *** Exceptions and results *)

Inductive exn :=
| Error (message : string)
| TypeError (message : string).

Definition message (e : exn) : string :=
  match e with Error m | TypeError m => m end.

Inductive result (A : Type) :=
| Ok (a : A)
| Throw (e : exn).
Arguments Ok {A} a.
Arguments Throw {A} e.

(** *** Strings *)

(** WhiteSpace and LineTerminator code units below 256. *)
Definition is_ws (c : ascii) : bool :=
  let n := nat_of_ascii c in
  (n =? 9) || (n =? 10) || (n =? 11) || (n =? 12) || (n =? 13) || (n =? 32) || (n =? 160).

Fixpoint trimStart (s : string) : string :=
  match s with
  | EmptyString => EmptyString
  | String c s' => if is_ws c then trimStart s' else s
  end.

Fixpoint trimEnd (s : string) : string :=
  match s with
  | EmptyString => EmptyString
  | String c s' =>
      match trimEnd s' with
      | EmptyString => if is_ws c then EmptyString else String c EmptyString
      | r => String c r
      end
  end.

(** [String.prototype.trim]. *)
Definition trim (s : string) : string := trimEnd (trimStart s).

(** [s.split(sep)] for a separator of one code unit. *)
Fixpoint split (sep : ascii) (s : string) : list string :=
  match s with
  | EmptyString => [EmptyString]
  | String c s' =>
      if Ascii.eqb c sep then EmptyString :: split sep s'
      else match split sep s' with
           | tok :: toks => String c tok :: toks
           | [] => [String c EmptyString]
           end
  end.

Definition decimal (n : Z) : string :=
  match n with
  | Z0 => "0"
  | Zpos p => NilZero.string_of_uint (Pos.to_uint p)
  | Zneg p => "-" ++ NilZero.string_of_uint (Pos.to_uint p)
  end.

(** The nearest binary64 float. *)
Definition Z2float (z : Z) : float := SF2Prim (binary_normalize prec emax z 0 false).

(** Number::toString on an integer.  A safe integer prints as its decimal
    digits.  Beyond 2^53 the number is the nearest float [x], and what
    prints is the integer of the fewest significant digits that still
    reads back as [x] (the closest to [x] of these, and of two equally
    close ones the even one): as its digits below 1e21, in exponent form
    from there on. *)
Fixpoint stripZeros (s : string) : string :=
  match s with
  | EmptyString => EmptyString
  | String c s' =>
      match stripZeros s' with
      | EmptyString => if Ascii.eqb c "0" then EmptyString else String c EmptyString
      | r => String c r
      end
  end.

Definition exponentForm (d : Z) : string :=
  let digits := decimal d in
  let exponent := "e+" +:+ decimal (Z.of_nat (String.length digits - 1)) in
  match stripZeros digits with
  | EmptyString => "0"
  | String c EmptyString => String c exponent
  | String c rest => String c ("." +:+ rest +:+ exponent)
  end.

(** The integer with [k] significant digits (or more, when there is none
    with [k]) that prints for [x], a float's value of [n] digits. *)
Fixpoint shortestFrom (fuel k n : nat) (x : Z) : Z :=
  match fuel with
  | 0 => x
  | S fuel' =>
      let scale := (10 ^ Z.of_nat (n - k))%Z in
      let lo := (x / scale * scale)%Z in
      let hi := (lo + scale)%Z in
      let reads d := PrimFloat.eqb (Z2float d) (Z2float x) in
      if reads lo && reads hi then
        if (x - lo <? hi - x)%Z then lo
        else if (hi - x <? x - lo)%Z then hi
        else if Z.even (lo / scale) then lo else hi
      else if reads lo then lo
      else if reads hi then hi
      else shortestFrom fuel' (S k) n x
  end.

Definition numberText (n : Z) : string :=
  if (Z.abs n <=? 2 ^ 53)%Z then decimal n
  else
    match Prim2SF (Z2float n) with
    | S754_finite s m e =>
        let x := (Zpos m * 2 ^ e)%Z in
        let d := shortestFrom 17 1 (String.length (decimal x)) x in
        (if s then "-" else "") +:+ (if (d <? 10 ^ 21)%Z then decimal d else exponentForm d)
    | S754_infinity s => if s then "-Infinity" else "Infinity"
    | _ => decimal n
    end.

(** *** Conversions and comparisons *)

Definition truthy (v : jsval) : bool :=
  match v with
  | JUndefined | JNull => false
  | JBool b => b
  | JNum n => negb (n =? 0)%Z
  | JStr s => negb (String.eqb s "")
  | JDate _ | JArr _ | JObj _ => true
  end.

Definition isObject (v : jsval) : bool :=
  match v with JDate _ | JArr _ | JObj _ => true | _ => false end.

(** [x === y].  Two objects are equal when they are the same object; the
    script never compares an object with itself, so objects are unequal. *)
Definition strict_eq (x y : jsval) : bool :=
  match x, y with
  | JUndefined, JUndefined | JNull, JNull => true
  | JBool a, JBool b => Bool.eqb a b
  | JNum a, JNum b => (a =? b)%Z
  | JStr a, JStr b => String.eqb a b
  | _, _ => false
  end.

(** [Array.isArray(v)]. *)
Definition isArray (v : jsval) : bool :=
  match v with JArr _ => true | _ => false end.

(** [arr.includes(v)] for an array of strings. *)
Definition includes (arr : list string) (v : jsval) : bool :=
  existsb (fun s => strict_eq (JStr s) v) arr.

(** A default parameter value applies when the argument is [undefined]. *)
Definition default (d v : jsval) : jsval :=
  match v with JUndefined => d | _ => v end.

(** [obj.k]: reading a property of [undefined] or [null] throws.  The
    first entry of [props] for [k] is the property. *)
Fixpoint assoc (k : string) (ps : list (string * jsval)) : jsval :=
  match ps with
  | [] => JUndefined
  | (k', v) :: ps' => if String.eqb k k' then v else assoc k ps'
  end.

Definition getProp (expr : string) (v : jsval) (k : string) : result jsval :=
  match v with
  | JUndefined => Throw (TypeError ("Cannot read properties of undefined (reading '" ++ k ++ "')"))
  | JNull => Throw (TypeError ("Cannot read properties of null (reading '" ++ k ++ "')"))
  | JObj ps => Ok (assoc k ps)
  | _ => Ok JUndefined
  end.

(** [expr.trim()]: only strings have the method. *)
Definition callTrim (expr : string) (v : jsval) : result jsval :=
  match v with
  | JStr s => Ok (JStr (trim s))
  | JUndefined => Throw (TypeError "Cannot read properties of undefined (reading 'trim')")
  | JNull => Throw (TypeError "Cannot read properties of null (reading 'trim')")
  | _ => Throw (TypeError (expr ++ ".trim is not a function"))
  end.

(** [expr.split(',')]: only strings have the method. *)
Definition callSplit (expr : string) (v : jsval) : result (list string) :=
  match v with
  | JStr s => Ok (split "," s)
  | JUndefined => Throw (TypeError "Cannot read properties of undefined (reading 'split')")
  | JNull => Throw (TypeError "Cannot read properties of null (reading 'split')")
  | _ => Throw (TypeError (expr ++ ".split is not a function"))
  end.

Section Conversions.
Context `{Host}.

(** ToPrimitive followed by the boolean-to-number step of [==]. *)
Definition toPrim (v : jsval) : jsval :=
  match v with
  | JBool b => JNum (Z.b2z b)
  | JDate _ | JArr _ | JObj _ => JStr (ObjectToString v)
  | _ => v
  end.

Definition prim_eq (x y : jsval) : bool :=
  match x, y with
  | JNum a, JNum b => (a =? b)%Z
  | JStr a, JStr b => String.eqb a b
  | JNum a, JStr s | JStr s, JNum a =>
      match StringToNumber s with Some b => (a =? b)%Z | None => false end
  | _, _ => false
  end.

(** [x == y], for operands that are not one and the same object. *)
Definition loose_eq (x y : jsval) : bool :=
  if isObject x && isObject y then false
  else match x, y with
       | (JUndefined | JNull), (JUndefined | JNull) => true
       | (JUndefined | JNull), _ | _, (JUndefined | JNull) => false
       | _, _ => prim_eq (toPrim x) (toPrim y)
       end.

(** TimeClip. *)
Definition timeClip (n : Z) : option Z :=
  if (Z.abs n <=? 8640000000000000)%Z then Some n else None.

(** The time value of [new Date(v)]. *)
Definition dateValue (v : jsval) : option Z :=
  match v with
  | JDate t => t
  | JNum n => timeClip n
  | JBool b => Some (Z.b2z b)
  | JNull => Some 0%Z
  | JUndefined => None
  | JStr s => Date_parse s
  | JArr _ | JObj _ => Date_parse (ObjectToString v)
  end.

(** ToPropertyKey. *)
Definition propKey (v : jsval) : string :=
  match v with
  | JStr s => s
  | JNum n => numberText n
  | JBool true => "true"
  | JBool false => "false"
  | JUndefined => "undefined"
  | JNull => "null"
  | JDate _ | JArr _ | JObj _ => ObjectToString v
  end.

(** The text of [v] in a template literal: ToString, which ToPropertyKey
    applies as well. *)
Definition templateText (v : jsval) : string := propKey v.

(** [JSON.parse(JSON.stringify(v))]: a date comes back as its ISO string,
    an invalid one as [null]; an [undefined] property is dropped (and reads
    as [undefined] again), an [undefined] array element becomes [null]. *)
Fixpoint jsonRoundTrip (v : jsval) : jsval :=
  match v with
  | JDate (Some t) => JStr (Date_toISOString t)
  | JDate None => JNull
  | JArr items =>
      JArr (map (fun x => match jsonRoundTrip x with JUndefined => JNull | y => y end) items)
  | JObj props =>
      JObj (List.filter (fun p => match snd p with JUndefined => false | _ => true end)
              (map (fun p => (fst p, jsonRoundTrip (snd p))) props))
  | _ => v
  end.

(** What a cell holds after [v] is written to it. *)
Definition cellValue (v : jsval) : jsval :=
  match v with
  | JNum _ | JStr _ | JBool _ | JDate (Some _) => v
  | _ => coerceCell v
  end.

End Conversions.

(** ** The sheet *)

(** A row is the list of its cells from column A on, a sheet the list of
    its rows from row 1 on; whatever lies beyond either list is blank. *)
Definition row := list jsval.
Definition sheet := list row.

Definition blank : jsval := JStr "".

Definition isBlank (v : jsval) : bool :=
  match v with JStr s => String.eqb s "" | _ => false end.

(** Column number of the last cell of the row that has content. *)
Fixpoint contentWidth (r : row) : nat :=
  match r with
  | [] => 0
  | c :: r' =>
      match contentWidth r' with
      | 0 => if isBlank c then 0 else 1
      | S n => S (S n)
      end
  end.

(** [sheet.getLastRow()]: the position of the last row that has content. *)
Fixpoint lastRowOf (sh : sheet) : nat :=
  match sh with
  | [] => 0
  | r :: sh' =>
      match lastRowOf sh' with
      | 0 => if contentWidth r =? 0 then 0 else 1
      | S n => S (S n)
      end
  end.

(** [sheet.getLastColumn()]. *)
Definition lastColumnOf (sh : sheet) : nat :=
  foldr (fun r m => Nat.max (contentWidth r) m) 0 sh.

Definition padRow (width : nat) (r : row) : row :=
  take width (r ++ replicate width blank).

(** [sheet.getDataRange().getValues()]: the rectangle from A1 to the last
    row and column with content, a blank cell read as the empty string; a
    sheet with no content reads as one blank cell. *)
Definition dataValues (sh : sheet) : list row :=
  if lastRowOf sh =? 0 then [[blank]]
  else map (padRow (lastColumnOf sh)) (take (lastRowOf sh) sh).

(** Row [i] (counted from 0) gets [vals] in its first columns. *)
Definition writeRow (i : nat) (vals : row) (sh : sheet) : sheet :=
  alter (fun old => vals ++ drop (length vals) old) i
        (sh ++ replicate (S i - length sh) []).

Fixpoint writeRows (i : nat) (vals : list row) (sh : sheet) : sheet :=
  match vals with
  | [] => sh
  | v :: vs => writeRows (S i) vs (writeRow i v sh)
  end.

(** Cell [k] of row [i] (both counted from 0) gets [v]. *)
Definition writeCell (i k : nat) (v : jsval) (sh : sheet) : sheet :=
  alter (fun old => <[k := v]> (old ++ replicate (S k - length old) blank)) i
        (sh ++ replicate (S i - length sh) []).

(** [arr[k]] on a row returned by [getValues]. *)
Definition at_ (r : row) (k : nat) : jsval := nth k r JUndefined.

(** ** The world and the script monad *)

(** The parsed form of a task object: the nine properties [getAllTasks]
    gives it.  The objects [getTasks] builds have no [tags] and no
    [assignee]; these read as [undefined]. *)
Record Task := mkTask {
  tk_id : jsval;
  tk_task : jsval;
  tk_status : jsval;
  tk_priority : jsval;
  tk_createdDate : jsval;
  tk_dueDate : jsval;
  tk_notes : jsval;
  tk_tags : jsval;
  tk_assignee : jsval
}.

Inductive logEntry :=
| ConsoleLog (text : string)
| ConsoleWarn (text : string) (arg : jsval)
| ConsoleError (text : string) (e : exn).

Record world := mkWorld {
  sheets : gmap string sheet;            (* the active spreadsheet, by sheet name *)
  cache : gmap string (list Task);       (* the script cache, values parsed *)
  clock : Z;                             (* the time [new Date()] reads, in ms *)
  alerts : list string;                  (* dialogs shown, latest first *)
  console : list logEntry                (* console output, latest first *)
}.

Definition M (A : Type) : Type := world -> result A * world.

Definition ret {A} (a : A) : M A := fun w => (Ok a, w).

Definition bind {A B} (m : M A) (k : A -> M B) : M B :=
  fun w => match m w with
           | (Ok a, w') => k a w'
           | (Throw e, w') => (Throw e, w')
           end.

Definition throw {A} (e : exn) : M A := fun w => (Throw e, w).

(** [try { body } catch (error) { handler }]: what [body] did to the world
    before it threw stays done. *)
Definition try_catch {A} (body : M A) (handler : exn -> M A) : M A :=
  fun w => match body w with
           | (Ok a, w') => (Ok a, w')
           | (Throw e, w') => handler e w'
           end.

Definition lift {A} (r : result A) : M A := fun w => (r, w).

Notation "'let!' x ':=' c 'in' k" := (bind c (fun x => k))
  (at level 10, x name, c at level 100, k at level 200).
Notation "'do!' c 'in' k" := (bind c (fun _ => k))
  (at level 10, c at level 100, k at level 200).

Fixpoint mapM {A B} (f : A -> M B) (l : list A) : M (list B) :=
  match l with
  | [] => ret []
  | x :: l' => let! y := f x in let! ys := mapM f l' in ret (y :: ys)
  end.

Definition set_sheets (f : gmap string sheet -> gmap string sheet) (w : world) : world :=
  mkWorld (f (sheets w)) (cache w) (clock w) (alerts w) (console w).
Definition set_cache (f : gmap string (list Task) -> gmap string (list Task)) (w : world) : world :=
  mkWorld (sheets w) (f (cache w)) (clock w) (alerts w) (console w).

(** *** Host services *)

(** [new Date()]. *)
Definition Date_now : M jsval := fun w => (Ok (JDate (Some (clock w))), w).

(** [Utilities.sleep(ms)]: at least [ms] milliseconds pass. *)
Definition sleep (ms : Z) : M unit :=
  fun w => (Ok tt, mkWorld (sheets w) (cache w) (clock w + ms)%Z (alerts w) (console w)).

(** [SpreadsheetApp.getUi().alert(text)]. *)
Definition alert (text : string) : M unit :=
  fun w => (Ok tt, mkWorld (sheets w) (cache w) (clock w) (text :: alerts w) (console w)).

Definition consoleWrite (e : logEntry) : M unit :=
  fun w => (Ok tt, mkWorld (sheets w) (cache w) (clock w) (alerts w) (e :: console w)).

(** [CacheService.getScriptCache()]: [get], [put] and [remove]. *)
Definition cache_get (key : string) : M (option (list Task)) :=
  fun w => (Ok (cache w !! key), w).
Definition cache_put (key : string) (v : list Task) : M unit :=
  fun w => (Ok tt, set_cache (insert key v) w).
Definition cache_remove (key : string) : M unit :=
  fun w => (Ok tt, set_cache (delete key) w).

(** [ss.getSheetByName(name)]: a handle on the sheet (its name), or [null]. *)
Definition getSheetByName (name : string) : M (option string) :=
  fun w => (Ok (match sheets w !! name with Some _ => Some name | None => None end), w).

(** [ss.insertSheet(name)]. *)
Definition insertSheet (name : string) : M string :=
  fun w => match sheets w !! name with
           | Some _ => (Throw (Error ("A sheet with the name " ++ name ++ " already exists.")), w)
           | None => (Ok name, set_sheets (insert name []) w)
           end.

(** An operation on the sheet behind a handle. *)
Definition onSheet {A} (h : string) (f : sheet -> result A * sheet) : M A :=
  fun w => match sheets w !! h with
           | Some sh => let '(r, sh') := f sh in (r, set_sheets (insert h sh') w)
           | None => (Throw (Error "Sheet not found"), w)
           end.

Definition readSheet {A} (h : string) (f : sheet -> A) : M A :=
  fun w => match sheets w !! h with
           | Some sh => (Ok (f sh), w)
           | None => (Throw (Error "Sheet not found"), w)
           end.

Definition getLastRow (h : string) : M nat := readSheet h lastRowOf.
Definition getValues (h : string) : M (list row) := readSheet h dataValues.
Definition clear (h : string) : M unit := onSheet h (fun _ => (Ok tt, [])).

(** [sheet.getRange(row, column, numRows, numColumns)] refuses a range
    that starts before row 1 or column 1 or that is empty. *)
Definition validRange (r c numRows numColumns : nat) : bool :=
  (1 <=? r) && (1 <=? c) && (1 <=? numRows) && (1 <=? numColumns).

Section SheetWrites.
Context `{Host}.

(** [sheet.getRange(r, 1, numRows, numColumns).setValues(vals)]: the data
    must have the dimensions of the range. *)
Definition setValues (h : string) (r numRows numColumns : nat) (vals : list row) : M unit :=
  onSheet h (fun sh =>
    if negb (validRange r 1 numRows numColumns) then
      (Throw (Error "The coordinates of the range are outside the dimensions of the sheet."), sh)
    else if negb (length vals =? numRows) then
      (Throw (Error "The number of rows in the data does not match the number of rows in the range."), sh)
    else if negb (forallb (fun v => length v =? numColumns) vals) then
      (Throw (Error "The number of columns in the data does not match the number of columns in the range."), sh)
    else (Ok tt, writeRows (r - 1) (map (map cellValue) vals) sh)).

(** [sheet.getRange(r, c).setValue(v)]. *)
Definition setValue (h : string) (r c : nat) (v : jsval) : M unit :=
  onSheet h (fun sh =>
    if negb (validRange r c 1 1) then
      (Throw (Error "The coordinates of the range are outside the dimensions of the sheet."), sh)
    else (Ok tt, writeCell (r - 1) (c - 1) (cellValue v) sh)).

End SheetWrites.

(** [sheet.getRange(r, 1, numRows, numColumns).setBackground(colour)]:
    only the range is checked, colours are not part of the state. *)
Definition setBackground (h : string) (r numRows numColumns : nat) : M unit :=
  onSheet h (fun sh =>
    if negb (validRange r 1 numRows numColumns) then
      (Throw (Error "The coordinates of the range are outside the dimensions of the sheet."), sh)
    else (Ok tt, sh)).

(** [sheet.deleteRow(r)]: the rows below move up. *)
Definition deleteRow (h : string) (r : nat) : M unit :=
  onSheet h (fun sh =>
    if r =? 0 then (Throw (Error "Those rows are out of bounds."), sh)
    else (Ok tt, delete (r - 1) sh)).

(** ** Configuration *)

Module CONFIG.
Definition SHEET_NAME : string := "Tasks".
Definition HEADERS : list string :=
  ["ID"; "Task"; "Status"; "Priority"; "Created Date"; "Due Date"; "Notes"; "Tags"; "Assignee"].
Definition STATUS_OPTIONS : list string := ["Pending"; "In Progress"; "Completed"; "Blocked"].
Definition PRIORITY_OPTIONS : list string := ["Low"; "Medium"; "High"; "Critical"].
Definition BATCH_SIZE : nat := 100.
Definition CACHE_DURATION : nat := 300.
End CONFIG.

(** Modelled from the spec: the functions of lines 432-621 name the globals
    [SHEET_NAME] and [HEADERS], which the source file does not declare.
    The spec has one sheet binding for the whole script and gives the
    simpler variant a layout of 7 columns, without Tags and Assignee. *)
Definition SHEET_NAME : string := CONFIG.SHEET_NAME.
Definition HEADERS : list string := take 7 CONFIG.HEADERS.

(** ** The advanced variant (lines 19-430) *)

Section Script.
Context `{Host}.

(** Lines 49-72.  Only the first two statements touch the cells. *)
Definition setupSheetStructure (sheet : string) : M unit :=
  do! clear sheet in
  setValues sheet 1 1 (length CONFIG.HEADERS) [map JStr CONFIG.HEADERS].

(** Lines 77-100 and 105-128 set validation and formatting rules only. *)
Definition setupDataValidation (sheet : string) : M unit := ret tt.
Definition setupConditionalFormatting (sheet : string) : M unit := ret tt.

(** Lines 345-351. *)
Definition getTaskSheet : M string :=
  let! sheet := getSheetByName CONFIG.SHEET_NAME in
  match sheet with
  | None => throw (Error "Task sheet not found. Please initialize the Task Manager first.")
  | Some sheet => ret sheet
  end.

(** Lines 353-355. *)
Definition clearTaskCache : M unit := cache_remove "all_tasks".

(** Lines 158-189.  [new Date(dueDate)] does not throw on the values of
    [jsval], so the [catch] of lines 173-175 is never entered. *)
Definition buildTaskData (taskName priority dueDate notes tags assignee : jsval) : M row :=
  let! sheet := getTaskSheet in
  let! lastRow := getLastRow sheet in
  let newId := if 1 <? lastRow then lastRow else 1 in
  let priority := if includes CONFIG.PRIORITY_OPTIONS priority then priority else JStr "Medium" in
  let parsedDueDate := if truthy dueDate then JDate (dateValue dueDate) else JStr "" in
  let! taskName' := lift (callTrim "taskName" taskName) in
  let! created := Date_now in
  let! notes' := lift (callTrim "notes" notes) in
  let! tags' := lift (callTrim "tags" tags) in
  let! assignee' := lift (callTrim "assignee" assignee) in
  ret [JNum (Z.of_nat newId); taskName'; JStr "Pending"; priority; created;
       parsedDueDate; notes'; tags'; assignee'].

(** Lines 133-153: the first declaration of [addTask].  The declaration of
    line 435 has the same name and comes later, so a call of [addTask]
    runs that one ([addTask] below) and never this one. *)
Definition addTask_133 (taskName priority dueDate notes tags assignee : jsval) : M jsval :=
  let priority := default (JStr "Medium") priority in
  let dueDate := default (JStr "") dueDate in
  let notes := default (JStr "") notes in
  let tags := default (JStr "") tags in
  let assignee := default (JStr "") assignee in
  let! noName :=
    (if negb (truthy taskName) then ret true
     else let! t := lift (callTrim "taskName" taskName) in ret (strict_eq t (JStr ""))) in
  if noName : bool then throw (Error "Task name is required")
  else
    let! sheet := getTaskSheet in
    let! taskData := buildTaskData taskName priority dueDate notes tags assignee in
    try_catch
      (let! lastRow := getLastRow sheet in
       do! setValues sheet (lastRow + 1) 1 (length CONFIG.HEADERS) [taskData] in
       do! clearTaskCache in
       ret (at_ taskData 0))
      (fun error =>
         do! consoleWrite (ConsoleError "Failed to add task:" error) in
         throw (Error ("Failed to add task: " ++ message error))).

(** Lines 203-205: [slice(i, i + BATCH_SIZE)] for [i = 0, BATCH_SIZE, ...]
    while [i < tasksArray.length].  The loop runs at most once per element,
    since [BATCH_SIZE] is positive; [fuel] counts the runs that are left. *)
Fixpoint splitFrom (fuel i : nat) (tasksArray : list jsval) : list (list jsval) :=
  match fuel with
  | 0 => []
  | S fuel' =>
      if i <? length tasksArray
      then take CONFIG.BATCH_SIZE (drop i tasksArray)
             :: splitFrom fuel' (i + CONFIG.BATCH_SIZE) tasksArray
      else []
  end.

Definition splitBatches (tasksArray : list jsval) : list (list jsval) :=
  splitFrom (length tasksArray) 0 tasksArray.

(** Lines 211-213: the callback of [batch.map]. *)
Definition buildFromTask (task : jsval) : M row :=
  let! name := lift (getProp "task" task "name") in
  let! priority := lift (getProp "task" task "priority") in
  let! dueDate := lift (getProp "task" task "dueDate") in
  let! notes := lift (getProp "task" task "notes") in
  let! tags := lift (getProp "task" task "tags") in
  let! assignee := lift (getProp "task" task "assignee") in
  buildTaskData name priority dueDate notes tags assignee.

(** Lines 210-228: the callback of [batches.forEach], [count] being
    [batches.length]; it returns the new value of [totalAdded].  Nothing
    after the update of [totalAdded] throws, so a batch that fails leaves
    [totalAdded] as it found it. *)
Definition processBatch (sheet : string) (count totalAdded : nat) (batch : list jsval)
    (index : nat) : M nat :=
  try_catch
    (let! taskDataBatch := mapM buildFromTask batch in
     let! lastRow := getLastRow sheet in
     let startRow := lastRow + 1 in
     do! setValues sheet startRow (length taskDataBatch) (length CONFIG.HEADERS)
           taskDataBatch in
     do! (if index <? count - 1 then sleep 100 else ret tt) in
     ret (totalAdded + length taskDataBatch))
    (fun error =>
       do! consoleWrite
             (ConsoleError ("Batch " ++ decimal (Z.of_nat (index + 1)) ++ " failed:") error) in
       ret totalAdded).

(** Lines 209-229: [batches.forEach((batch, index) => ...)]. *)
Fixpoint forEachBatch (sheet : string) (count index : nat) (batches : list (list jsval))
    (totalAdded : nat) : M nat :=
  match batches with
  | [] => ret totalAdded
  | batch :: rest =>
      let! totalAdded' := processBatch sheet count totalAdded batch index in
      forEachBatch sheet count (S index) rest totalAdded'
  end.

(** Lines 194-233. *)
Definition addTasksBatch (tasksArray : jsval) : M nat :=
  match tasksArray with
  | JArr tasks =>
      if length tasks =? 0 then throw (Error "Invalid tasks array provided")
      else
        let! sheet := getTaskSheet in
        let batches := splitBatches tasks in
        let! totalAdded := forEachBatch sheet (length batches) 0 batches 0 in
        do! clearTaskCache in
        ret totalAdded
  | _ => throw (Error "Invalid tasks array provided")
  end.

(** The task object of lines 321-331. *)
Definition taskOfRow (r : row) : Task :=
  mkTask (at_ r 0) (at_ r 1) (at_ r 2) (at_ r 3) (at_ r 4) (at_ r 5) (at_ r 6) (at_ r 7) (at_ r 8).

Definition jsonTask (t : Task) : Task :=
  mkTask (jsonRoundTrip (tk_id t)) (jsonRoundTrip (tk_task t)) (jsonRoundTrip (tk_status t))
         (jsonRoundTrip (tk_priority t)) (jsonRoundTrip (tk_createdDate t))
         (jsonRoundTrip (tk_dueDate t)) (jsonRoundTrip (tk_notes t))
         (jsonRoundTrip (tk_tags t)) (jsonRoundTrip (tk_assignee t)).

(** Lines 306-340.  The cache keeps the JSON text of the list; the model
    keeps what parsing that text gives back. *)
Definition getAllTasks (useCache : bool) : M (list Task) :=
  let! cached := (if useCache then cache_get "all_tasks" else ret None) in
  match cached with
  | Some tasks => ret tasks
  | None =>
      let! sheet := getTaskSheet in
      let! data := getValues sheet in
      let tasks := map taskOfRow (drop 1 data) in
      do! (if useCache then cache_put "all_tasks" (map jsonTask tasks) else ret tt) in
      ret tasks
  end.

(** Lines 401-430; the clock gives [Date.now()]. *)
Definition addSampleData : M unit :=
  let! now := Date_now in
  let due (days : Z) : jsval :=
    JDate (match now with JDate (Some t) => timeClip (t + days * 24 * 60 * 60 * 1000) | _ => None end) in
  let sampleTasks := JArr [
    JObj [("name", JStr "Implement advanced GitHub workflow"); ("priority", JStr "Critical");
          ("dueDate", due 3%Z); ("notes", JStr "Set up CI/CD pipeline with automated testing");
          ("tags", JStr "devops, github, automation"); ("assignee", JStr "dev.team@company.com")];
    JObj [("name", JStr "AI code review integration"); ("priority", JStr "High");
          ("dueDate", due 7%Z); ("notes", JStr "Integrate AI tools for automated code review");
          ("tags", JStr "ai, code-review, automation"); ("assignee", JStr "ai.team@company.com")];
    JObj [("name", JStr "Performance optimization analysis"); ("priority", JStr "Medium");
          ("dueDate", due 14%Z); ("notes", JStr "Analyze and optimize application performance");
          ("tags", JStr "performance, optimization, monitoring");
          ("assignee", JStr "performance.team@company.com")]] in
  do! addTasksBatch sampleTasks in
  ret tt.

(** Lines 22-44. *)
Definition initializeTaskManager : M unit :=
  try_catch
    (let! found := getSheetByName CONFIG.SHEET_NAME in
     let! sheet := (match found with Some sheet => ret sheet | None => insertSheet CONFIG.SHEET_NAME end) in
     do! setupSheetStructure sheet in
     do! setupDataValidation sheet in
     do! setupConditionalFormatting sheet in
     do! addSampleData in
     let! now := Date_now in
     do! consoleWrite (ConsoleLog ("Task Manager initialized at " ++ ObjectToString now)) in
     alert "Advanced Task Manager initialized successfully!")
    (fun error =>
       do! consoleWrite (ConsoleError "Initialization failed:" error) in
       alert ("Initialization failed: " ++ message error)).

End Script.

(** ** Analytics (lines 238-301) *)

(** The value of a counter that [++] maintains: a number or NaN. *)
Inductive count :=
| Count (n : nat)
| NaN.

(** The value of a counter that [(x || 0) + 1] maintains: a number, or the
    text that [+] builds once the old value was not a number. *)
Inductive tally :=
| Num (n : nat)
| Text (s : string).

(** The properties every object literal inherits from [Object.prototype]. *)
Definition inherited : list string :=
  ["constructor"; "__defineGetter__"; "__defineSetter__"; "hasOwnProperty";
   "__lookupGetter__"; "__lookupSetter__"; "isPrototypeOf"; "propertyIsEnumerable";
   "toString"; "valueOf"; "__proto__"; "toLocaleString"].

Definition isInherited (k : string) : bool := existsb (String.eqb k) inherited.

(** [obj[k]++] on an object literal whose own values are counts.  A value
    that is missing or inherited counts as NaN; assigning a number to
    [__proto__] creates no property. *)
Definition increment (k : string) (obj : gmap string count) : gmap string count :=
  match obj !! k with
  | Some (Count n) => <[k := Count (S n)]> obj
  | Some NaN => obj
  | None => if String.eqb k "__proto__" then obj else <[k := NaN]> obj
  end.

Section Analytics.
Context `{Host}.

(** [obj[k] = (obj[k] || 0) + 1] on an object literal. *)
Definition bump (k : string) (obj : gmap string tally) : gmap string tally :=
  match obj !! k with
  | Some (Num n) => <[k := Num (S n)]> obj
  | Some (Text s) => if String.eqb s "" then <[k := Num 1]> obj else <[k := Text (s ++ "1")]> obj
  | None =>
      if isInherited k then
        if String.eqb k "__proto__" then obj else <[k := Text (inheritedText k ++ "1")]> obj
      else <[k := Num 1]> obj
  end.

(** [n] written with two digits after the point. *)
Definition fixed2 (n : Z) : string :=
  let d := decimal n in
  let d := if String.length d <? 3
           then String.concat "" (replicate (3 - String.length d) "0") +:+ d else d in
  substring 0 (String.length d - 2) d +:+ "." +:+ substring (String.length d - 2) 2 d.

(** [x.toFixed(2)]: the integer [n] whose hundredth is nearest to [|x|],
    the larger one of two. *)
Definition toFixed2 (x : float) : string :=
  match Prim2SF x with
  | S754_nan => "NaN"
  | S754_infinity s => if s then "-Infinity" else "Infinity"
  | S754_zero _ => "0.00"
  | S754_finite s m e =>
      let sign := if s then "-" else "" in
      if (0 <=? e)%Z then
        (if (10 ^ 21 <=? Zpos m * 2 ^ e)%Z then sign +:+ Number_toString (abs x)
         else sign +:+ fixed2 (Zpos m * 2 ^ e * 100))
      else
        let d := (2 ^ (- e))%Z in
        if (10 ^ 21 * d <=? Zpos m)%Z then sign +:+ Number_toString (abs x)
        else
          let q := (Zpos m * 100 / d)%Z in
          let r := (Zpos m * 100 mod d)%Z in
          sign +:+ fixed2 (if (d <=? 2 * r)%Z then q + 1 else q)%Z
  end.

Record Analytics := mkAnalytics {
  total : nat;
  byStatus : gmap string count;
  byPriority : gmap string count;
  overdue : nat;
  completionRate : jsval;
  averageAge : jsval;
  topAssignees : gmap string tally;
  tagDistribution : gmap string tally
}.

(** The variables the callback of [tasks.forEach] updates. *)
Record tallies := mkTallies {
  analytics : Analytics;
  totalAge : float;
  completedTasks : nat
}.

(** Lines 241-258. *)
Definition tallies0 (tasks : list Task) : tallies :=
  mkTallies
    (mkAnalytics (length tasks)
       (foldl (fun obj status => <[status := Count 0]> obj) ∅ CONFIG.STATUS_OPTIONS)
       (foldl (fun obj priority => <[priority := Count 0]> obj) ∅ CONFIG.PRIORITY_OPTIONS)
       0 (JNum 0) (JNum 0) ∅ ∅)
    0%float 0.

(** Lines 289-293: the callback of [taskTags.forEach]. *)
Definition countTag (obj : gmap string tally) (tag : string) : gmap string tally :=
  if truthy (JStr tag) then bump tag obj else obj.

(** Lines 260-295: the callback of [tasks.forEach]. *)
Definition visit (now : Z) (st : tallies) (task : Task) : result tallies :=
  let a := analytics st in
  let byStatus' := increment (propKey (tk_status task)) (byStatus a) in
  let byPriority' := increment (propKey (tk_priority task)) (byPriority a) in
  let isOverdue :=
    truthy (tk_dueDate task)
    && match dateValue (tk_dueDate task) with Some t => (t <? now)%Z | None => false end
    && negb (strict_eq (tk_status task) (JStr "Completed")) in
  let overdue' := if isOverdue then S (overdue a) else overdue a in
  let completedTasks' :=
    if strict_eq (tk_status task) (JStr "Completed") then S (completedTasks st)
    else completedTasks st in
  let age :=
    match dateValue (tk_createdDate task) with
    | Some t => (Z2float (now - t) / Z2float (1000 * 60 * 60 * 24))%float
    | None => nan
    end in
  let totalAge' := (totalAge st + age)%float in
  let topAssignees' :=
    if truthy (tk_assignee task) then bump (propKey (tk_assignee task)) (topAssignees a)
    else topAssignees a in
  let finish tagDistribution' :=
    mkTallies
      (mkAnalytics (total a) byStatus' byPriority' overdue' (completionRate a) (averageAge a)
         topAssignees' tagDistribution')
      totalAge' completedTasks' in
  if truthy (tk_tags task) then
    match callSplit "task.tags" (tk_tags task) with
    | Ok parts => Ok (finish (foldl countTag (tagDistribution a) (map trim parts)))
    | Throw e => Throw e
    end
  else Ok (finish (tagDistribution a)).

(** [tasks.forEach]: an exception in the callback ends the loop. *)
Fixpoint forEachTask (now : Z) (st : tallies) (tasks : list Task) : result tallies :=
  match tasks with
  | [] => Ok st
  | task :: rest =>
      match visit now st task with
      | Ok st' => forEachTask now st' rest
      | Throw e => Throw e
      end
  end.

(** Lines 297-298. *)
Definition ratios (tasks : list Task) (st : tallies) : Analytics :=
  let a := analytics st in
  let n := Z2float (Z.of_nat (length tasks)) in
  mkAnalytics (total a) (byStatus a) (byPriority a) (overdue a)
    (if 0 <? length tasks
     then JStr (toFixed2 (Z2float (Z.of_nat (completedTasks st)) / n * 100)%float)
     else JNum 0)
    (if 0 <? length tasks then JStr (toFixed2 (totalAge st / n)%float) else JNum 0)
    (topAssignees a) (tagDistribution a).

(** Lines 241-300: the function after it has read the task list and the
    clock. *)
Definition analyse (now : Z) (tasks : list Task) : result Analytics :=
  match forEachTask now (tallies0 tasks) tasks with
  | Ok st => Ok (ratios tasks st)
  | Throw e => Throw e
  end.

(** Lines 238-301. *)
Definition getTaskAnalytics : M Analytics :=
  let! tasks := getAllTasks true in
  fun w => (analyse (clock w) tasks, w).

End Analytics.

(** ** The simple variant (lines 432-621) *)

Section Simple.
Context `{Host}.

(** Lines 435-460: the declaration of [addTask] that is in force. *)
Definition addTask (taskName priority dueDate notes : jsval) : M jsval :=
  let priority := default (JStr "Medium") priority in
  let dueDate := default (JStr "") dueDate in
  let notes := default (JStr "") notes in
  let! sheet := getSheetByName SHEET_NAME in
  match sheet with
  | None =>
      do! alert "Please initialize the Task Manager first!" in
      ret JUndefined
  | Some sheet =>
      let! lastRow := getLastRow sheet in
      let newId := if 1 <? lastRow then lastRow else 1 in
      let! createdDate := Date_now in
      let newTask := [JNum (Z.of_nat newId); taskName; JStr "Pending"; priority; createdDate;
                      dueDate; notes] in
      do! setValues sheet (lastRow + 1) 1 (length HEADERS) [newTask] in
      ret (JNum (Z.of_nat newId))
  end.

(** The loop of lines 475-482 and 498-503 up to its [break]: the first
    index [i >= from] with [data[i][0] == taskId]. *)
Fixpoint findRow (taskId : jsval) (i : nat) (data : list row) : option nat :=
  match data with
  | [] => None
  | r :: rest => if loose_eq (at_ r 0) taskId then Some i else findRow taskId (S i) rest
  end.

(** Lines 465-483. *)
Definition completeTask (taskId : jsval) : M unit :=
  let! sheet := getSheetByName SHEET_NAME in
  match sheet with
  | None => alert "Please initialize the Task Manager first!"
  | Some sheet =>
      let! data := getValues sheet in
      match findRow taskId 1 (drop 1 data) with
      | Some i =>
          do! setValue sheet (i + 1) 3 (JStr "Completed") in
          setBackground sheet (i + 1) 1 (length HEADERS)
      | None => ret tt
      end
  end.

(** Lines 488-504. *)
Definition deleteTask (taskId : jsval) : M unit :=
  let! sheet := getSheetByName SHEET_NAME in
  match sheet with
  | None => alert "Please initialize the Task Manager first!"
  | Some sheet =>
      let! data := getValues sheet in
      match findRow taskId 1 (drop 1 data) with
      | Some i => deleteRow sheet (i + 1)
      | None => ret tt
      end
  end.

(** The task object of lines 520-528. *)
Definition simpleTaskOfRow (r : row) : Task :=
  mkTask (at_ r 0) (at_ r 1) (at_ r 2) (at_ r 3) (at_ r 4) (at_ r 5) (at_ r 6)
         JUndefined JUndefined.

(** Lines 509-536. *)
Definition getTasks (statusFilter : jsval) : M (list Task) :=
  let statusFilter := default (JStr "") statusFilter in
  let! sheet := getSheetByName SHEET_NAME in
  match sheet with
  | None => ret []
  | Some sheet =>
      let! data := getValues sheet in
      ret (List.filter
             (fun task => strict_eq statusFilter (JStr "") || strict_eq (tk_status task) statusFilter)
             (map simpleTaskOfRow (drop 1 data)))
  end.

(** The line feed of the messages. *)
Definition LF : string := String (ascii_of_nat 10) EmptyString.

(** [SpreadsheetApp.getUi().alert(title, message, ButtonSet.OK)]: the
    dialog is recorded as its title, a line feed and its message. *)
Definition alertTitled (title message : string) : M unit :=
  alert (title +:+ LF +:+ message).

(** Lines 541-546: four calls of the [addTask] in force, each with a due
    date counted from [Date.now()]. *)
Definition addSampleTasks : M unit :=
  let inDays (days : Z) : M jsval :=
    fun w => (Ok (JDate (timeClip (clock w + days * 24 * 60 * 60 * 1000))), w) in
  let! due := inDays 7%Z in
  do! addTask (JStr "Set up Google Apps Script project") (JStr "High") due
        (JStr "Initial project setup") in
  let! due := inDays 5%Z in
  do! addTask (JStr "Create README documentation") (JStr "Medium") due
        (JStr "Document the project") in
  let! due := inDays 3%Z in
  do! addTask (JStr "Test task management functions") (JStr "High") due
        (JStr "Verify all functions work") in
  let! due := inDays 14%Z in
  do! addTask (JStr "Prepare tutorial video script") (JStr "Low") due
        (JStr "Script for recording") in
  ret tt.

(** Lines 590-592: the callback of [tasks.forEach] in [displayTaskSummary]. *)
Definition summaryLine (message : string) (task : Task) : string :=
  message +:+ "ID: " +:+ templateText (tk_id task) +:+ " - " +:+ templateText (tk_task task)
  +:+ " (" +:+ templateText (tk_status task) +:+ ")" +:+ LF.

(** Lines 584-596. *)
Definition displayTaskSummary (tasks : list Task) (title : string) : M unit :=
  let message :=
    title +:+ " (" +:+ decimal (Z.of_nat (length tasks)) +:+ " total):" +:+ LF +:+ LF in
  let message :=
    if length tasks =? 0 then message +:+ "No tasks found."
    else foldl summaryLine message tasks in
  alertTitled title message.

(** Lines 566-579. *)
Definition showAllTasks : M unit :=
  let! tasks := getTasks JUndefined in displayTaskSummary tasks "All Tasks".
Definition showPendingTasks : M unit :=
  let! tasks := getTasks (JStr "Pending") in displayTaskSummary tasks "Pending Tasks".
Definition showCompletedTasks : M unit :=
  let! tasks := getTasks (JStr "Completed") in displayTaskSummary tasks "Completed Tasks".

(** Line 607: [task.dueDate && new Date(task.dueDate) <= today]. *)
Definition isDue (today : Z) (task : Task) : bool :=
  truthy (tk_dueDate task)
  && match dateValue (tk_dueDate task) with Some t => (t <=? today)%Z | None => false end.

(** Lines 614-616: the callback of [dueTasks.forEach]. *)
Definition dueLine (message : string) (task : Task) : string :=
  message +:+ "- " +:+ templateText (tk_task task) +:+ " (Due: "
  +:+ templateText (tk_dueDate task) +:+ ")" +:+ LF.

(** Lines 601-621. *)
Definition checkDueTasks : M unit :=
  let! tasks := getTasks (JStr "Pending") in
  let! today := (fun w => (Ok (clock w), w)) in
  let dueTasks := List.filter (isDue today) tasks in
  if 0 <? length dueTasks then
    let message :=
      "You have " +:+ decimal (Z.of_nat (length dueTasks)) +:+ " overdue or due tasks:"
      +:+ LF +:+ LF in
    consoleWrite (ConsoleLog (foldl dueLine message dueTasks))
  else ret tt.

End Simple.

(** * The vocabulary of the statements *)

(** A host to run the script on concrete inputs.  It converts a string of
    decimal digits to its number and prints every object the same way. *)
Fixpoint digitsValue (acc : Z) (s : string) : option Z :=
  match s with
  | EmptyString => Some acc
  | String c s' =>
      let n := nat_of_ascii c in
      if (48 <=? n) && (n <=? 57) then digitsValue (10 * acc + Z.of_nat (n - 48)) s'
      else None
  end.

Definition plainHost : Host := {|
  StringToNumber := fun s => digitsValue 0 (trim s);
  ObjectToString := fun _ => "[object Object]";
  Date_parse := fun _ => None;
  Date_toISOString := fun t => decimal t;
  Number_toString := fun _ => "1e+21";
  inheritedText := fun _ => "function () { [native code] }";
  coerceCell := fun _ => blank
|}.

(** The world with no sheet, and the one whose sheet has the header only. *)
Definition noSheet : world := mkWorld ∅ ∅ 1750000000000 [] [].
Definition headerOnly : world :=
  mkWorld {[ CONFIG.SHEET_NAME := [map JStr CONFIG.HEADERS] ]} ∅ 1750000000000 [] [].

(** The sheet of tasks and the IDs of its data rows. *)
Definition taskRows (w : world) : list row :=
  match sheets w !! CONFIG.SHEET_NAME with
  | Some sh => drop 1 sh
  | None => []
  end.
Definition taskIds (w : world) : list jsval := map (fun r => at_ r 0) (taskRows w).

(** A string of white space only (the empty string is one). *)
Fixpoint allWhitespace (s : string) : bool :=
  match s with
  | EmptyString => true
  | String c s' => is_ws c && allWhitespace s'
  end.

(** A task input that [buildFromTask] accepts: [name], [notes], [tags] and
    [assignee] are strings. *)
Definition isString (v : jsval) : bool :=
  match v with JStr _ => true | _ => false end.
Definition wellFormed (task : jsval) : bool :=
  match task with
  | JObj props =>
      isString (assoc "name" props) && isString (assoc "notes" props)
      && isString (assoc "tags" props) && isString (assoc "assignee" props)
  | _ => false
  end.

(** [tags] values that the analytics loop gets through: falsy or a string. *)
Definition splittable (v : jsval) : bool := negb (truthy v) || isString v.

(** [task.status === 'Completed']. *)
Definition isCompleted (t : Task) : bool := strict_eq (tk_status t) (JStr "Completed").

(** Runs the reads of a sheet that hypothesis [Hsh] says is there. *)
Ltac run_on Hsh := repeat first [rewrite Hsh | progress cbv beta iota].

(** The ID cell of a row as [getValues] shows it. *)
Definition idCell (r : row) : jsval := nth 0 r blank.

(** The row after [setValue] wrote "Completed" to its third cell. *)
Definition completed (r : row) : row :=
  <[2 := JStr "Completed"]> (r ++ replicate (3 - length r) blank).

(** The sizes of the chunks of an array of [n] elements, by the loop of
    lines 203-205 run on the indices alone. *)
Fixpoint chunkSizes (fuel i n : nat) : list nat :=
  match fuel with
  | 0 => []
  | S fuel' =>
      if i <? n then Nat.min CONFIG.BATCH_SIZE (n - i) :: chunkSizes fuel' (i + CONFIG.BATCH_SIZE) n
      else []
  end.

(** The number of rows [forEachBatch] adds: those of the chunks all of
    whose task inputs are well formed. *)
Definition rowsAdded (batches : list (list jsval)) : nat :=
  list_sum (map (fun batch => if forallb wellFormed batch then length batch else 0) batches).

(** The number of Completed tasks of a list. *)
Definition completedCount (tasks : list Task) : nat := length (List.filter isCompleted tasks).

(** The tags of one task as the loop counts them: the pieces between the
    commas, trimmed, the empty ones left out. *)
Definition tokens (task : Task) : list string :=
  match tk_tags task with
  | JStr s => List.filter (fun tag => truthy (JStr tag)) (map trim (split "," s))
  | _ => []
  end.

(** How often [k] occurs in [l]. *)
Definition occurrences (k : string) (l : list string) : nat :=
  length (List.filter (String.eqb k) l).

(** A key that was counted [n] times: absent, or the number [n]. *)
Definition tallyOf (n : nat) : option tally :=
  match n with 0 => None | S _ => Some (Num n) end.

(** A task input for [addTasksBatch] with every property set. *)
Definition input (name : string) : jsval :=
  JObj [("name", JStr name); ("priority", JStr "Low"); ("dueDate", JStr "");
        ("notes", JStr ""); ("tags", JStr ""); ("assignee", JStr "")].

(** Stores for the examples: a row as [buildTaskData] lays it out, and the
    world whose sheet has the header and the given rows. *)
Definition rowOf (id : Z) (title status tags : string) : row :=
  [JNum id; JStr title; JStr status; JStr "Medium"; JDate (Some 1750000000000%Z);
   JStr ""; JStr ""; JStr tags; JStr ""].

Definition storeOf (rows : list row) : world :=
  mkWorld {[ CONFIG.SHEET_NAME := (map JStr CONFIG.HEADERS :: rows : sheet) ]} ∅
          1750000000000 [] [].

(** Two rows with the ID 1, as [addTasksBatch] leaves them. *)
Definition duplicated : world :=
  storeOf [rowOf 1 "first" "Pending" ""; rowOf 1 "second" "Pending" ""].

(** Two rows with the IDs 1 and 2. *)
Definition distinct : world :=
  storeOf [rowOf 1 "first" "Pending" ""; rowOf 2 "second" "Pending" ""].

(** Four tasks, one of them Completed. *)
Definition quartet : world :=
  storeOf [rowOf 1 "plan" "Pending" ""; rowOf 2 "draft" "Completed" "";
           rowOf 3 "review" "In Progress" ""; rowOf 4 "ship" "Blocked" ""].

(** The two tasks of the tag example. *)
Definition tagged : world :=
  storeOf [rowOf 1 "first" "Pending" "a, b"; rowOf 2 "second" "Pending" "b,c"].

(** A row with no content. *)
Definition blankRow (r : row) : Prop := contentWidth r = 0.

(** Two more stores for the examples: a task with a status that is not
    one of the configured options, and one whose tags cell holds a
    number. *)
Definition oddStatus : world := storeOf [rowOf 1 "first" "Done" ""].

Definition numericTags : world :=
  storeOf [[JNum 1; JStr "first"; JStr "Pending"; JStr "Medium"; JDate (Some 1750000000000%Z);
            JStr ""; JStr ""; JNum 5; JStr ""]].

(** The text of a string value. *)
Definition textOf (v : jsval) : string := match v with JStr s => s | _ => EmptyString end.

(** The three inputs of [addSampleData] when the clock reads [now]. *)
Definition sampleTasks (now : Z) : list jsval :=
  let due (days : Z) : jsval := JDate (timeClip (now + days * 24 * 60 * 60 * 1000)) in
  [JObj [("name", JStr "Implement advanced GitHub workflow"); ("priority", JStr "Critical");
         ("dueDate", due 3%Z); ("notes", JStr "Set up CI/CD pipeline with automated testing");
         ("tags", JStr "devops, github, automation"); ("assignee", JStr "dev.team@company.com")];
   JObj [("name", JStr "AI code review integration"); ("priority", JStr "High");
         ("dueDate", due 7%Z); ("notes", JStr "Integrate AI tools for automated code review");
         ("tags", JStr "ai, code-review, automation"); ("assignee", JStr "ai.team@company.com")];
   JObj [("name", JStr "Performance optimization analysis"); ("priority", JStr "Medium");
         ("dueDate", due 14%Z); ("notes", JStr "Analyze and optimize application performance");
         ("tags", JStr "performance, optimization, monitoring");
         ("assignee", JStr "performance.team@company.com")]].

(** The world after a console line or a dialog was added. *)
Definition logged (text : string) (w : world) : world :=
  mkWorld (sheets w) (cache w) (clock w) (alerts w) (ConsoleLog text :: console w).
Definition alerted (text : string) (w : world) : world :=
  mkWorld (sheets w) (cache w) (clock w) (text :: alerts w) (console w).

(** The task [getTasks] and [getAllTasks] make of a stored row. *)
Definition listedTask (r : row) : Task :=
  mkTask (nth 0 r blank) (nth 1 r blank) (nth 2 r blank) (nth 3 r blank) (nth 4 r blank)
         (nth 5 r blank) (nth 6 r blank) (nth 7 r blank) (nth 8 r blank).

(** A task as [getTasks] shows it, without tags and assignee, and a task
    with another status. *)
Definition withoutTags (t : Task) : Task :=
  mkTask (tk_id t) (tk_task t) (tk_status t) (tk_priority t) (tk_createdDate t) (tk_dueDate t)
         (tk_notes t) JUndefined JUndefined.

Definition withStatus (status : jsval) (t : Task) : Task :=
  mkTask (tk_id t) (tk_task t) status (tk_priority t) (tk_createdDate t) (tk_dueDate t)
         (tk_notes t) (tk_tags t) (tk_assignee t).

(** The rows below the header up to the last row with content. *)
Definition contentRows (sh : sheet) : list row := drop 1 (take (lastRowOf sh) sh).

(** What [getValues] shows of cell [k] of a row when the content of the
    sheet is [width] columns wide: a blank cell reads as the empty string,
    and there is nothing beyond the last column. *)
Definition cellRead (width : nat) (r : row) (k : nat) : jsval :=
  if k <? width then nth k r blank else JUndefined.

(** The task [getTasks] makes of a row. *)
Definition taskRead (width : nat) (r : row) : Task :=
  mkTask (cellRead width r 0) (cellRead width r 1) (cellRead width r 2) (cellRead width r 3)
         (cellRead width r 4) (cellRead width r 5) (cellRead width r 6) JUndefined JUndefined.

(** The lines of a message put together. *)
Definition joined (lines : list string) : string := foldr String.append EmptyString lines.

Section Vocabulary.
Context `{Host}.

(** What lines 286-294 do to [tagDistribution] for one task with text (or
    no) tags. *)
Definition tagStep (obj : gmap string tally) (task : Task) : gmap string tally :=
  foldl (fun obj tag => bump tag obj) obj (tokens task).

(** [addTask(name)], the other arguments left out. *)
Definition add (name : string) : M jsval := addTask (JStr name) JUndefined JUndefined JUndefined.

(** The row that the [addTask] in force writes. *)
Definition simpleRow (lastRow : nat) (now : Z) (taskName priority dueDate notes : jsval) : row :=
  map cellValue
    [JNum (Z.of_nat (if 1 <? lastRow then lastRow else 1)); taskName; JStr "Pending";
     default (JStr "Medium") priority; JDate (Some now); default (JStr "") dueDate;
     default (JStr "") notes].

(** The record [buildFromTask] builds from a well-formed task input when
    the last row with content is [lastRow] and the clock reads [now]. *)
Definition recordOf (lastRow : nat) (now : Z) (task : jsval) : row :=
  match task with
  | JObj props =>
      let priority := assoc "priority" props in
      let dueDate := assoc "dueDate" props in
      [JNum (Z.of_nat (Nat.max lastRow 1));
       JStr (trim (textOf (assoc "name" props)));
       JStr "Pending";
       (if includes CONFIG.PRIORITY_OPTIONS priority then priority else JStr "Medium");
       JDate (Some now);
       (if truthy dueDate then JDate (dateValue dueDate) else JStr "");
       JStr (trim (textOf (assoc "notes" props)));
       JStr (trim (textOf (assoc "tags" props)));
       JStr (trim (textOf (assoc "assignee" props)))]
  | _ => []
  end.

(** The keys the loop counts a task under, and the test of line 267. *)
Definition statusOf (task : Task) : string := propKey (tk_status task).
Definition priorityOf (task : Task) : string := propKey (tk_priority task).
Definition assigneesOf (task : Task) : list string :=
  if truthy (tk_assignee task) then [propKey (tk_assignee task)] else [].
Definition isOverdue (now : Z) (task : Task) : bool :=
  truthy (tk_dueDate task)
  && match dateValue (tk_dueDate task) with Some t => (t <? now)%Z | None => false end
  && negb (isCompleted task).

(** The rows [addSampleTasks] writes when the last row with content is
    [lastRow] and the clock reads [now]. *)
Definition sampleRows (lastRow : nat) (now : Z) : list row :=
  let due (days : Z) := JDate (timeClip (now + days * 24 * 60 * 60 * 1000)) in
  [simpleRow lastRow now (JStr "Set up Google Apps Script project") (JStr "High") (due 7%Z)
     (JStr "Initial project setup");
   simpleRow (lastRow + 1) now (JStr "Create README documentation") (JStr "Medium") (due 5%Z)
     (JStr "Document the project");
   simpleRow (lastRow + 2) now (JStr "Test task management functions") (JStr "High") (due 3%Z)
     (JStr "Verify all functions work");
   simpleRow (lastRow + 3) now (JStr "Prepare tutorial video script") (JStr "Low") (due 14%Z)
     (JStr "Script for recording")].

(** The records of a chunk, as the cells keep them. *)
Definition recordsOf (lastRow : nat) (now : Z) (batch : list jsval) : list row :=
  map (fun task => map cellValue (recordOf lastRow now task)) batch.

(** The dialog text of a listing. *)
Definition taskLine (task : Task) : string :=
  "ID: " +:+ templateText (tk_id task) +:+ " - " +:+ templateText (tk_task task)
  +:+ " (" +:+ templateText (tk_status task) +:+ ")" +:+ LF.

Definition summaryText (title : string) (tasks : list Task) : string :=
  title +:+ " (" +:+ decimal (Z.of_nat (length tasks)) +:+ " total):" +:+ LF +:+ LF
  +:+ match tasks with
      | [] => "No tasks found."
      | _ => joined (map taskLine tasks)
      end.

(** A task that is due at [today]: it has a due date, and the date is a
    valid one at or before [today]. *)
Definition dueBy (today : Z) (task : Task) : bool :=
  match dateValue (tk_dueDate task) with
  | Some t => truthy (tk_dueDate task) && (t <=? today)%Z
  | None => false
  end.

(** The console message of [checkDueTasks]. *)
Definition dueNotice (dueTasks : list Task) : string :=
  "You have " +:+ decimal (Z.of_nat (length dueTasks)) +:+ " overdue or due tasks:"
  +:+ LF +:+ LF
  +:+ joined (map (fun task => "- " +:+ templateText (tk_task task) +:+ " (Due: "
                               +:+ templateText (tk_dueDate task) +:+ ")" +:+ LF) dueTasks).

End Vocabulary.

(** * Properties *)

(** ** Strings *)

Lemma trimStart_allWhitespace s : allWhitespace s = true -> trimStart s = EmptyString.
Proof.
  induction s as [|c s IH]; simpl; [reflexivity|].
  intros Hs. apply andb_prop in Hs as [Hc Hs]. rewrite Hc. auto.
Qed.

Lemma trim_allWhitespace s : allWhitespace s = true -> trim s = EmptyString.
Proof. intros Hs. unfold trim. now rewrite trimStart_allWhitespace. Qed.

Lemma trimEnd_empty s : trimEnd s = EmptyString -> allWhitespace s = true.
Proof.
  induction s as [|c s IH]; simpl; [reflexivity|].
  destruct (trimEnd s) eqn:E; [|discriminate].
  destruct (is_ws c); [intros _; simpl; auto | discriminate].
Qed.

Lemma trimStart_suffix s : allWhitespace (trimStart s) = true -> allWhitespace s = true.
Proof.
  induction s as [|c s IH]; simpl; [reflexivity|].
  destruct (is_ws c) eqn:E; simpl; [auto | now rewrite E].
Qed.

Lemma trim_empty_iff s : trim s = EmptyString <-> allWhitespace s = true.
Proof.
  split; [|apply trim_allWhitespace].
  intros Ht. apply trimStart_suffix, trimEnd_empty, Ht.
Qed.

Section Properties.
Context `{Host}.

(** ** Input validation *)

(** The first declaration of [addTask] refuses a title that is empty or
    white space only, before it looks at the store. *)
Lemma addTask_133_blank_title (s : string) (priority dueDate notes tags assignee : jsval)
    (w : world) :
  allWhitespace s = true ->
  addTask_133 (JStr s) priority dueDate notes tags assignee w
  = (Throw (Error "Task name is required"), w).
Proof.
  intros Hs. unfold addTask_133, bind, ret, lift, throw. simpl.
  destruct (String.eqb s "") eqn:E; simpl; [reflexivity|].
  now rewrite (trim_allWhitespace s Hs).
Qed.

(** The declaration of [addTask] in force checks nothing: whatever the
    title, with the sheet in place it writes a row after the last one. *)
Lemma addTask_appends (taskName priority dueDate notes : jsval) (w : world) (sh : sheet) :
  sheets w !! SHEET_NAME = Some sh ->
  let newId := JNum (Z.of_nat (if 1 <? lastRowOf sh then lastRowOf sh else 1)) in
  addTask taskName priority dueDate notes w
  = (Ok newId,
     set_sheets (insert SHEET_NAME
       (writeRow (lastRowOf sh)
          (map cellValue [newId; taskName; JStr "Pending"; default (JStr "Medium") priority;
                          JDate (Some (clock w)); default (JStr "") dueDate;
                          default (JStr "") notes]) sh)) w).
Proof.
  intros Hsh newId.
  unfold addTask, bind, getSheetByName, getLastRow, readSheet, Date_now, setValues, onSheet, ret.
  change (length HEADERS) with 7.
  rewrite Hsh. cbn [clock sheets]. rewrite Hsh.
  replace (validRange (lastRowOf sh + 1) 1 1 7) with true
    by (unfold validRange; now replace (1 <=? lastRowOf sh + 1) with true
          by (symmetry; apply Nat.leb_le; lia)).
  cbn [negb length Nat.eqb forallb andb].
  now rewrite Hsh, Nat.add_sub.
Qed.

Lemma validRange_true (r c numRows numColumns : nat) :
  1 <= r -> 1 <= c -> 1 <= numRows -> 1 <= numColumns ->
  validRange r c numRows numColumns = true.
Proof.
  intros Hr Hc Hn Hm. unfold validRange.
  now rewrite !(proj2 (Nat.leb_le 1 _)) by assumption.
Qed.

(** ** What the scans of [completeTask], [deleteTask] and [getTasks] read *)

Lemma lastColumnOf_pos (sh : sheet) : 1 <= lastRowOf sh -> 1 <= lastColumnOf sh.
Proof.
  induction sh as [|r sh IH]; simpl; [lia|].
  unfold lastColumnOf in *. simpl. destruct (lastRowOf sh) as [|n].
  - destruct (contentWidth r) as [|c]; simpl; lia.
  - intros _. specialize (IH ltac:(lia)). lia.
Qed.

Lemma lastRowOf_le (sh : sheet) : lastRowOf sh <= length sh.
Proof.
  induction sh as [|r sh IH]; simpl; [lia|].
  destruct (lastRowOf sh); [destruct (contentWidth r =? 0); lia | lia].
Qed.

Lemma at_padRow (width : nat) (r : row) : 1 <= width -> at_ (padRow width r) 0 = idCell r.
Proof.
  destruct width as [|n]; [lia|]. intros _. now destruct r.
Qed.

Lemma dataValues_rows (sh : sheet) :
  drop 1 (dataValues sh) = map (padRow (lastColumnOf sh)) (drop 1 (take (lastRowOf sh) sh)).
Proof.
  unfold dataValues. destruct (lastRowOf sh) as [|n] eqn:E; simpl.
  - reflexivity.
  - now rewrite skipn_map.
Qed.

Lemma findRow_none (taskId : jsval) (i : nat) (data : list row) :
  Forall (fun d => loose_eq (at_ d 0) taskId = false) data -> findRow taskId i data = None.
Proof.
  intros Hd. revert i. induction Hd as [|d data Hd _ IH]; intros i; simpl; [reflexivity|].
  now rewrite Hd.
Qed.

Lemma findRow_first (taskId : jsval) (i : nat) (before : list row) (d : row) (after : list row) :
  Forall (fun d' => loose_eq (at_ d' 0) taskId = false) before ->
  loose_eq (at_ d 0) taskId = true ->
  findRow taskId i (before ++ d :: after) = Some (i + length before).
Proof.
  intros Hb Hd. revert i. induction Hb as [|b before Hb _ IH]; intros i; simpl.
  - rewrite Hd. f_equal. lia.
  - rewrite Hb, IH. f_equal. lia.
Qed.

(** The ID cells the scans see are those of the rows below the header, up
    to the last row with content. *)
Lemma scanned_ids (P : jsval -> Prop) (sh : sheet) :
  Forall (fun r => P (idCell r)) (drop 1 sh) ->
  Forall (fun d => P (at_ d 0)) (drop 1 (dataValues sh)).
Proof.
  intros Hsh. rewrite dataValues_rows. apply Forall_map.
  destruct (lastRowOf sh) as [|n] eqn:E; [constructor|].
  assert (Hw : 1 <= lastColumnOf sh) by (apply lastColumnOf_pos; lia).
  destruct sh as [|hdr rows]; [constructor|]. simpl in *.
  apply Forall_take. eapply Forall_impl; [exact Hsh|].
  intros r Hr. simpl. now rewrite at_padRow.
Qed.

(** The rows the scans see when the sheet is [hdr :: before ++ r :: after]
    and [r] is not below the last row with content. *)
Lemma scanned_split (hdr : row) (before : list row) (r : row) (after : list row) :
  let sh : sheet := hdr :: before ++ r :: after in
  S (length before) < lastRowOf sh ->
  drop 1 (dataValues sh)
  = map (padRow (lastColumnOf sh)) before
    ++ padRow (lastColumnOf sh) r
    :: map (padRow (lastColumnOf sh)) (take (lastRowOf sh - S (S (length before))) after).
Proof.
  intros sh Hr. rewrite dataValues_rows.
  destruct (lastRowOf sh) as [|n] eqn:E; [lia|].
  subst sh. rewrite firstn_cons. simpl drop.
  rewrite firstn_app, firstn_all2 by lia.
  replace (n - length before) with (S (n - S (length before))) by lia.
  rewrite firstn_cons, drop_0, map_app. cbn [map].
  repeat f_equal; lia.
Qed.

Lemma findRow_in_sheet (taskId : jsval) (hdr : row) (before : list row) (r : row)
    (after : list row) :
  let sh : sheet := hdr :: before ++ r :: after in
  S (length before) < lastRowOf sh ->
  Forall (fun r' => loose_eq (idCell r') taskId = false) before ->
  loose_eq (idCell r) taskId = true ->
  findRow taskId 1 (drop 1 (dataValues sh)) = Some (S (length before)).
Proof.
  intros sh Hin Hb Hr.
  assert (Hw : 1 <= lastColumnOf sh) by (apply lastColumnOf_pos; lia).
  subst sh. rewrite (scanned_split hdr before r after Hin).
  rewrite findRow_first.
  - now rewrite length_map.
  - apply Forall_map. eapply Forall_impl; [exact Hb|].
    intros r' Hr'. simpl. now rewrite at_padRow.
  - now rewrite at_padRow.
Qed.

Lemma findRow_not_in_sheet (taskId : jsval) (sh : sheet) :
  Forall (fun r => loose_eq (idCell r) taskId = false) (drop 1 sh) ->
  findRow taskId 1 (drop 1 (dataValues sh)) = None.
Proof.
  intros Hsh. apply findRow_none.
  now apply (scanned_ids (fun v => loose_eq v taskId = false)).
Qed.

Lemma delete_below_header (hdr : row) (before : list row) (r : row) (after : list row) :
  delete (S (length before)) (hdr :: before ++ r :: after) = hdr :: before ++ after.
Proof.
  change (delete (S (length before)) (hdr :: before ++ r :: after))
    with (hdr :: delete (length before) (before ++ r :: after)).
  now rewrite delete_middle.
Qed.

Lemma alter_below_header (f : row -> row) (hdr : row) (before : list row) (r : row)
    (after : list row) :
  alter f (S (length before)) (hdr :: before ++ r :: after) = hdr :: before ++ f r :: after.
Proof.
  change (alter f (S (length before)) (hdr :: before ++ r :: after))
    with (hdr :: alter f (length before) (before ++ r :: after)).
  rewrite (alter_app_r_alt f before (r :: after) (length before)) by lia.
  now rewrite Nat.sub_diag.
Qed.

Lemma set_sheets_twice (name : string) (sh1 sh2 : sheet) (w : world) :
  set_sheets (insert name sh2) (set_sheets (insert name sh1) w)
  = set_sheets (insert name sh2) w.
Proof. unfold set_sheets. simpl. now rewrite insert_insert_eq. Qed.

Lemma set_sheets_same (name : string) (sh : sheet) (w : world) :
  sheets w !! name = Some sh -> set_sheets (insert name sh) w = w.
Proof. intros Hsh. destruct w. unfold set_sheets. simpl in *. now rewrite insert_id. Qed.

(** [deleteTask] removes the first row below the header whose ID cell
    equals [taskId], and nothing else. *)
Lemma deleteTask_first (taskId : jsval) (w : world) (hdr : row) (before : list row) (r : row)
    (after : list row) :
  let sh : sheet := hdr :: before ++ r :: after in
  sheets w !! SHEET_NAME = Some sh ->
  S (length before) < lastRowOf sh ->
  Forall (fun r' => loose_eq (idCell r') taskId = false) before ->
  loose_eq (idCell r) taskId = true ->
  deleteTask taskId w
  = (Ok tt, set_sheets (insert SHEET_NAME (hdr :: before ++ after)) w).
Proof.
  intros sh Hsh Hin Hb Hr. subst sh.
  unfold deleteTask, bind, getSheetByName, getValues, readSheet.
  run_on Hsh.
  rewrite (findRow_in_sheet taskId hdr before r after Hin Hb Hr).
  unfold deleteRow, onSheet. rewrite Hsh.
  replace (S (length before) + 1 =? 0) with false by (symmetry; apply Nat.eqb_neq; lia).
  replace (S (length before) + 1 - 1) with (S (length before)) by lia.
  now rewrite delete_below_header.
Qed.

(** [completeTask] writes "Completed" to the status cell of the first row
    below the header whose ID cell equals [taskId], and nothing else. *)
Lemma completeTask_first (taskId : jsval) (w : world) (hdr : row) (before : list row) (r : row)
    (after : list row) :
  let sh : sheet := hdr :: before ++ r :: after in
  sheets w !! SHEET_NAME = Some sh ->
  S (length before) < lastRowOf sh ->
  Forall (fun r' => loose_eq (idCell r') taskId = false) before ->
  loose_eq (idCell r) taskId = true ->
  completeTask taskId w
  = (Ok tt, set_sheets (insert SHEET_NAME (hdr :: before ++ completed r :: after)) w).
Proof.
  intros sh Hsh Hin Hb Hr. subst sh.
  unfold completeTask, bind, getSheetByName, getValues, readSheet.
  run_on Hsh.
  rewrite (findRow_in_sheet taskId hdr before r after Hin Hb Hr).
  unfold setValue, setBackground, onSheet. rewrite Hsh.
  change (length HEADERS) with 7.
  replace (validRange (S (length before) + 1) 3 1 1) with true
    by (unfold validRange; now replace (1 <=? S (length before) + 1) with true
          by (symmetry; apply Nat.leb_le; lia)).
  replace (validRange (S (length before) + 1) 1 1 7) with true
    by (unfold validRange; now replace (1 <=? S (length before) + 1) with true
          by (symmetry; apply Nat.leb_le; lia)).
  cbn [negb sheets set_sheets]. rewrite lookup_insert_eq. cbn [negb].
  rewrite set_sheets_twice.
  replace (S (length before) + 1 - 1) with (S (length before)) by lia.
  unfold writeCell.
  replace (S (S (length before)) - length (hdr :: before ++ r :: after)) with 0
    by (simpl; rewrite length_app; simpl; lia).
  cbn [replicate]. rewrite app_nil_r. now rewrite alter_below_header.
Qed.

(** Neither does anything when no row below the header has that ID. *)
Lemma deleteTask_absent (taskId : jsval) (w : world) (sh : sheet) :
  sheets w !! SHEET_NAME = Some sh ->
  Forall (fun r => loose_eq (idCell r) taskId = false) (drop 1 sh) ->
  deleteTask taskId w = (Ok tt, w).
Proof.
  intros Hsh Hno.
  unfold deleteTask, bind, getSheetByName, getValues, readSheet.
  run_on Hsh.
  now rewrite (findRow_not_in_sheet taskId sh Hno).
Qed.

Lemma completeTask_absent (taskId : jsval) (w : world) (sh : sheet) :
  sheets w !! SHEET_NAME = Some sh ->
  Forall (fun r => loose_eq (idCell r) taskId = false) (drop 1 sh) ->
  completeTask taskId w = (Ok tt, w).
Proof.
  intros Hsh Hno.
  unfold completeTask, bind, getSheetByName, getValues, readSheet.
  run_on Hsh.
  now rewrite (findRow_not_in_sheet taskId sh Hno).
Qed.

Lemma getTasks_ids (P : jsval -> Prop) (statusFilter : jsval) (w : world) (sh : sheet) :
  sheets w !! SHEET_NAME = Some sh ->
  Forall (fun r => P (idCell r)) (drop 1 sh) ->
  exists tasks, getTasks statusFilter w = (Ok tasks, w) /\ Forall (fun t => P (tk_id t)) tasks.
Proof.
  intros Hsh Hids.
  unfold getTasks, bind, getSheetByName, getValues, readSheet, ret.
  run_on Hsh. eexists. split; [reflexivity|].
  apply List.Forall_forall. intros t Ht. apply filter_In in Ht as [Ht _].
  apply in_map_iff in Ht as (d & <- & Hd).
  pose proof (scanned_ids P sh Hids) as Hscan.
  rewrite List.Forall_forall in Hscan. exact (Hscan d Hd).
Qed.

(** [deleteTask] and [completeTask] leave the script cache alone, and
    [getAllTasks] answers from the cache when it holds a list: a list
    cached before a deletion is still returned after it. *)
Lemma deleteTask_cache (taskId : jsval) (w : world) :
  cache (snd (deleteTask taskId w)) = cache w.
Proof.
  unfold deleteTask, bind, getSheetByName, getValues, readSheet, alert, deleteRow, onSheet, ret.
  destruct (sheets w !! SHEET_NAME) as [sh|] eqn:Hsh; [|reflexivity].
  run_on Hsh. destruct (findRow taskId 1 (drop 1 (dataValues sh))) as [i|]; [|reflexivity].
  rewrite Hsh. now destruct (i + 1 =? 0).
Qed.

Lemma completeTask_cache (taskId : jsval) (w : world) :
  cache (snd (completeTask taskId w)) = cache w.
Proof.
  unfold completeTask, bind, getSheetByName, getValues, readSheet, alert, setValue,
    setBackground, onSheet, ret.
  destruct (sheets w !! SHEET_NAME) as [sh|] eqn:Hsh; [|reflexivity].
  run_on Hsh. destruct (findRow taskId 1 (drop 1 (dataValues sh))) as [i|]; [|reflexivity].
  rewrite Hsh. destruct (validRange (i + 1) 3 1 1); [|reflexivity].
  cbn [negb sheets set_sheets]. rewrite lookup_insert_eq.
  now destruct (validRange (i + 1) 1 1 (length HEADERS)).
Qed.

Lemma getAllTasks_cached (tasks : list Task) (w : world) :
  cache w !! "all_tasks" = Some tasks -> getAllTasks true w = (Ok tasks, w).
Proof. intros Hc. unfold getAllTasks, bind, cache_get. now rewrite Hc. Qed.

(** ** The claims about [completeTask], [deleteTask] and [getTasks] *)

(** C9.  With the sheet [hdr :: before ++ r :: after], where [r] is the
    first row below the header whose ID cell equals [taskId] (and lies
    within the rows that have content), [deleteTask] removes [r] and
    [completeTask] sets the status cell of [r]; the rows of [after], among
    them every later row with the same ID, stay as they are. *)
Theorem first_match_only (taskId : jsval) (w : world) (hdr : row) (before : list row) (r : row)
    (after : list row) :
  let sh : sheet := hdr :: before ++ r :: after in
  sheets w !! SHEET_NAME = Some sh ->
  S (length before) < lastRowOf sh ->
  Forall (fun r' => loose_eq (idCell r') taskId = false) before ->
  loose_eq (idCell r) taskId = true ->
  deleteTask taskId w
  = (Ok tt, set_sheets (insert SHEET_NAME (hdr :: before ++ after)) w)
  /\ completeTask taskId w
     = (Ok tt, set_sheets (insert SHEET_NAME (hdr :: before ++ completed r :: after)) w).
Proof.
  intros sh Hsh Hin Hb Hr. split.
  - exact (deleteTask_first taskId w hdr before r after Hsh Hin Hb Hr).
  - exact (completeTask_first taskId w hdr before r after Hsh Hin Hb Hr).
Qed.

(** C3, amended.  When exactly one row below the header has an ID cell
    equal to [taskId], [deleteTask] removes it; the list [getTasks] then
    returns has no task with that ID, and [completeTask] on the same ID
    returns normally and leaves the world as it is. *)
Theorem delete_then_list_then_complete (taskId statusFilter : jsval) (w : world) (hdr : row)
    (before : list row) (r : row) (after : list row) :
  let sh : sheet := hdr :: before ++ r :: after in
  sheets w !! SHEET_NAME = Some sh ->
  S (length before) < lastRowOf sh ->
  Forall (fun r' => loose_eq (idCell r') taskId = false) before ->
  loose_eq (idCell r) taskId = true ->
  Forall (fun r' => loose_eq (idCell r') taskId = false) after ->
  exists w1,
    deleteTask taskId w = (Ok tt, w1)
    /\ (exists tasks, getTasks statusFilter w1 = (Ok tasks, w1)
                      /\ Forall (fun t => loose_eq (tk_id t) taskId = false) tasks)
    /\ completeTask taskId w1 = (Ok tt, w1).
Proof.
  intros sh Hsh Hin Hb Hr Ha.
  exists (set_sheets (insert SHEET_NAME (hdr :: before ++ after)) w).
  assert (Hsh1 : sheets (set_sheets (insert SHEET_NAME (hdr :: before ++ after)) w)
                 !! SHEET_NAME = Some (hdr :: before ++ after : sheet))
    by apply lookup_insert_eq.
  assert (Hrest : Forall (fun r' => loose_eq (idCell r') taskId = false)
                    (drop 1 (hdr :: before ++ after)))
    by (simpl; now apply Forall_app).
  split; [exact (deleteTask_first taskId w hdr before r after Hsh Hin Hb Hr)|]. split.
  - exact (getTasks_ids (fun v => loose_eq v taskId = false) statusFilter _ _ Hsh1 Hrest).
  - exact (completeTask_absent taskId _ _ Hsh1 Hrest).
Qed.

(** C10.  Without the sheet [getTasks] returns the empty list, whatever
    the filter, and touches nothing; it answers the same on a sheet that
    has its header row only. *)
Theorem getTasks_without_sheet (statusFilter : jsval) (w : world) :
  sheets w !! SHEET_NAME = None ->
  getTasks statusFilter w = (Ok [], w)
  /\ forall hdr : row,
       let w' := set_sheets (insert SHEET_NAME [hdr]) w in
       getTasks statusFilter w' = (Ok [], w').
Proof.
  intros Hno. split.
  - unfold getTasks, bind, getSheetByName, ret. now rewrite Hno.
  - intros hdr w'.
    assert (Hsh : sheets w' !! SHEET_NAME = Some ([hdr] : sheet)) by apply lookup_insert_eq.
    unfold getTasks, bind, getSheetByName, getValues, readSheet, ret.
    run_on Hsh. rewrite dataValues_rows.
    now destruct (lastRowOf [hdr]) as [|[|n]].
Qed.

(** C8.  [addTasksBatch] throws its "Invalid tasks array provided" error
    on the empty array and on every value that is not an array, and leaves
    the world as it found it. *)
Theorem addTasksBatch_invalid_input (tasksArray : jsval) (w : world) :
  tasksArray = JArr [] \/ isArray tasksArray = false ->
  addTasksBatch tasksArray w = (Throw (Error "Invalid tasks array provided"), w).
Proof.
  intros [-> | Hna]; [reflexivity|].
  destruct tasksArray; try reflexivity. discriminate Hna.
Qed.

(** ** Batches *)

Lemma splitFrom_lengths (fuel i : nat) (tasks : list jsval) :
  map length (splitFrom fuel i tasks) = chunkSizes fuel i (length tasks).
Proof.
  revert i. induction fuel as [|fuel IH]; intros i; simpl; [reflexivity|].
  destruct (i <? length tasks); [|reflexivity].
  cbn [map]. now rewrite IH, length_take, length_drop.
Qed.

(** The loop stops because it has passed the end of the array, not
    because the fuel ran out: the chunks put together are the array. *)
Lemma splitFrom_concat (fuel i : nat) (tasks : list jsval) :
  length tasks - i <= fuel -> concat (splitFrom fuel i tasks) = drop i tasks.
Proof.
  revert i. induction fuel as [|fuel IH]; intros i Hfuel; simpl.
  - symmetry. apply drop_ge. lia.
  - destruct (i <? length tasks) eqn:E.
    + cbn [concat]. rewrite IH by (unfold CONFIG.BATCH_SIZE; lia).
      rewrite <- drop_drop. apply take_drop.
    + symmetry. apply drop_ge. apply Nat.ltb_ge in E. lia.
Qed.

Lemma splitBatches_concat (tasks : list jsval) : concat (splitBatches tasks) = tasks.
Proof. unfold splitBatches. rewrite splitFrom_concat by lia. apply drop_0. Qed.

Lemma forallb_Forall {A} (f : A -> bool) (l : list A) :
  forallb f l = true <-> Forall (fun x => f x = true) l.
Proof.
  induction l as [|x l IH]; simpl.
  - split; [constructor | reflexivity].
  - rewrite andb_true_iff, IH. split.
    + intros [Hx Hl]. now constructor.
    + intros Hxl. now inversion Hxl.
Qed.

Lemma splitFrom_wellFormed (fuel i : nat) (tasks : list jsval) :
  forallb wellFormed tasks = true ->
  Forall (fun batch => forallb wellFormed batch = true) (splitFrom fuel i tasks).
Proof.
  intros Hall. revert i. induction fuel as [|fuel IH]; intros i; simpl; [constructor|].
  destruct (i <? length tasks); constructor; [|apply IH].
  apply forallb_Forall, Forall_take, Forall_drop, forallb_Forall, Hall.
Qed.

Lemma rowsAdded_all (batches : list (list jsval)) :
  Forall (fun batch => forallb wellFormed batch = true) batches ->
  rowsAdded batches = length (concat batches).
Proof.
  unfold rowsAdded. induction 1 as [|batch batches Hb _ IH]; simpl; [reflexivity|].
  now rewrite Hb, IH, length_app.
Qed.

Lemma buildFromTask_wellFormed (task : jsval) (w : world) (sh : sheet) :
  sheets w !! CONFIG.SHEET_NAME = Some sh ->
  wellFormed task = true ->
  exists r, buildFromTask task w = (Ok r, w) /\ length r = 9.
Proof.
  intros Hsh Hwf. destruct task as [| | | | | | |props]; try discriminate Hwf.
  unfold wellFormed in Hwf.
  destruct (assoc "name" props) as [| | | |name| | |] eqn:E1; try discriminate Hwf.
  destruct (assoc "notes" props) as [| | | |notes| | |] eqn:E2; try discriminate Hwf.
  destruct (assoc "tags" props) as [| | | |tags| | |] eqn:E3; try discriminate Hwf.
  destruct (assoc "assignee" props) as [| | | |assignee| | |] eqn:E4; try discriminate Hwf.
  unfold buildFromTask, buildTaskData, getTaskSheet, bind, lift, getProp, getSheetByName,
    getLastRow, readSheet, Date_now, ret.
  rewrite E1, E2, E3, E4. run_on Hsh. cbn [callTrim]. run_on Hsh.
  eexists. split; reflexivity.
Qed.

Lemma buildFromTask_illFormed (task : jsval) (w : world) (sh : sheet) :
  sheets w !! CONFIG.SHEET_NAME = Some sh ->
  wellFormed task = false ->
  exists e, buildFromTask task w = (Throw e, w).
Proof.
  intros Hsh Hwf.
  unfold buildFromTask, buildTaskData, getTaskSheet, bind, lift, getSheetByName,
    getLastRow, readSheet, Date_now, ret.
  destruct task as [| | | | | | |props]; cbn [getProp]; run_on Hsh; cbn [callTrim];
    try (eexists; reflexivity).
  unfold wellFormed in Hwf.
  destruct (assoc "name" props); cbn [callTrim]; try (eexists; reflexivity).
  destruct (assoc "notes" props); cbn [callTrim]; try (eexists; reflexivity).
  destruct (assoc "tags" props); cbn [callTrim]; try (eexists; reflexivity).
  destruct (assoc "assignee" props); cbn [callTrim]; try (eexists; reflexivity).
  discriminate Hwf.
Qed.

Lemma mapM_build_wellFormed (batch : list jsval) (w : world) (sh : sheet) :
  sheets w !! CONFIG.SHEET_NAME = Some sh ->
  forallb wellFormed batch = true ->
  exists rows, mapM buildFromTask batch w = (Ok rows, w)
               /\ length rows = length batch
               /\ forallb (fun r => length r =? 9) rows = true.
Proof.
  intros Hsh. induction batch as [|task batch IH]; simpl; intros Hwf.
  - exists []. now split.
  - apply andb_prop in Hwf as [Ht Hb].
    destruct (buildFromTask_wellFormed task w sh Hsh Ht) as (r & Hr & Hlen).
    destruct (IH Hb) as (rows & Hrows & Hlens & Hcols).
    exists (r :: rows). unfold bind, ret. rewrite Hr, Hrows.
    split; [reflexivity|]. split; simpl; [now rewrite Hlens | now rewrite Hlen, Hcols].
Qed.

Lemma mapM_build_illFormed (batch : list jsval) (w : world) (sh : sheet) :
  sheets w !! CONFIG.SHEET_NAME = Some sh ->
  forallb wellFormed batch = false ->
  exists e, mapM buildFromTask batch w = (Throw e, w).
Proof.
  intros Hsh. induction batch as [|task batch IH]; simpl; intros Hwf; [discriminate|].
  unfold bind, ret. destruct (wellFormed task) eqn:Ht.
  - destruct (buildFromTask_wellFormed task w sh Hsh Ht) as (r & Hr & _).
    destruct (IH Hwf) as (e & He). exists e. now rewrite Hr, He.
  - destruct (buildFromTask_illFormed task w sh Hsh Ht) as (e & He).
    exists e. now rewrite He.
Qed.

(** One chunk: all its rows are written, or (one input is ill formed, or
    the chunk is empty) none is and the failure is logged; the sheet stays
    in place either way. *)
Lemma processBatch_count (count totalAdded : nat) (batch : list jsval) (index : nat)
    (w : world) (sh : sheet) :
  sheets w !! CONFIG.SHEET_NAME = Some sh ->
  exists w' sh',
    processBatch CONFIG.SHEET_NAME count totalAdded batch index w
    = (Ok (totalAdded + (if forallb wellFormed batch then length batch else 0)), w')
    /\ sheets w' !! CONFIG.SHEET_NAME = Some sh'.
Proof.
  intros Hsh. unfold processBatch, try_catch.
  destruct (forallb wellFormed batch) eqn:Hwf.
  - destruct (mapM_build_wellFormed batch w sh Hsh Hwf) as (rows & Hrows & Hlen & Hcols).
    unfold bind at 1. rewrite Hrows.
    unfold bind at 1. unfold getLastRow, readSheet. rewrite Hsh.
    unfold bind at 1. unfold setValues, onSheet. rewrite Hsh.
    change (length CONFIG.HEADERS) with 9. rewrite Hcols, Nat.eqb_refl.
    destruct rows as [|r rows].
    + replace (validRange (lastRowOf sh + 1) 1 (length (@nil row)) 9) with false
        by (unfold validRange; simpl; now rewrite !andb_false_r).
      cbn [negb]. unfold bind, consoleWrite, ret. cbn [sheets set_sheets].
      eexists _, sh. split.
      * f_equal. f_equal. simpl in Hlen. lia.
      * apply lookup_insert_eq.
    + rewrite validRange_true by (simpl; lia).
      cbn [negb]. unfold bind, ret.
      destruct (index <? count - 1); unfold sleep; cbn [sheets set_sheets];
        (eexists _, _; split; [rewrite Hlen; reflexivity | apply lookup_insert_eq]).
  - destruct (mapM_build_illFormed batch w sh Hsh Hwf) as (e & He).
    unfold bind at 1. rewrite He. unfold bind, consoleWrite, ret.
    eexists _, sh. split; [now rewrite Nat.add_0_r | exact Hsh].
Qed.

Lemma forEachBatch_count (batches : list (list jsval)) (count index totalAdded : nat)
    (w : world) (sh : sheet) :
  sheets w !! CONFIG.SHEET_NAME = Some sh ->
  exists w' sh',
    forEachBatch CONFIG.SHEET_NAME count index batches totalAdded w
    = (Ok (totalAdded + rowsAdded batches), w')
    /\ sheets w' !! CONFIG.SHEET_NAME = Some sh'.
Proof.
  revert index totalAdded w sh.
  induction batches as [|batch batches IH]; intros index totalAdded w sh Hsh; simpl.
  - exists w, sh. unfold ret, rowsAdded. simpl. now rewrite Nat.add_0_r.
  - destruct (processBatch_count count totalAdded batch index w sh Hsh)
      as (w1 & sh1 & Hstep & Hsh1).
    unfold bind. rewrite Hstep.
    destruct (IH (S index) (totalAdded + (if forallb wellFormed batch then length batch else 0))
                w1 sh1 Hsh1) as (w2 & sh2 & Hrest & Hsh2).
    exists w2, sh2. split; [|exact Hsh2].
    rewrite Hrest. unfold rowsAdded. simpl. now rewrite Nat.add_assoc.
Qed.

(** [addTasksBatch] on a non-empty array returns the number of rows of the
    chunks it could build, and raises nothing. *)
Lemma addTasksBatch_count (tasks : list jsval) (w : world) (sh : sheet) :
  sheets w !! CONFIG.SHEET_NAME = Some sh ->
  tasks <> [] ->
  exists w', addTasksBatch (JArr tasks) w = (Ok (rowsAdded (splitBatches tasks)), w').
Proof.
  intros Hsh Hne. unfold addTasksBatch.
  destruct tasks as [|t tasks]; [contradiction|]. cbn [length Nat.eqb].
  unfold bind at 1. unfold getTaskSheet, bind at 1. unfold getSheetByName, ret.
  rewrite Hsh.
  destruct (forEachBatch_count (splitBatches (t :: tasks))
              (length (splitBatches (t :: tasks))) 0 0 w sh Hsh) as (w1 & sh1 & Hrun & _).
  unfold bind. rewrite Hrun. eexists. reflexivity.
Qed.

(** ** Analytics *)

Lemma foldl_countTag (obj : gmap string tally) (tags : list string) :
  foldl countTag obj tags
  = foldl (fun obj tag => bump tag obj) obj (List.filter (fun tag => truthy (JStr tag)) tags).
Proof.
  revert obj. induction tags as [|tag tags IH]; intros obj; simpl; [reflexivity|].
  unfold countTag at 2. simpl. destruct (negb (String.eqb tag "")); simpl; apply IH.
Qed.

Lemma visit_splittable (now : Z) (st : tallies) (task : Task) :
  splittable (tk_tags task) = true ->
  exists st',
    visit now st task = Ok st'
    /\ completedTasks st' = completedTasks st + (if isCompleted task then 1 else 0)
    /\ tagDistribution (analytics st') = tagStep (tagDistribution (analytics st)) task.
Proof.
  intros Hs. unfold visit, tagStep, tokens, isCompleted.
  destruct (tk_tags task) as [| |b|n|s| | |] eqn:E; try discriminate Hs;
    try (destruct b; try discriminate Hs);
    try (unfold splittable in Hs; simpl in Hs; destruct (n =? 0)%Z eqn:En; try discriminate Hs);
    cbn [truthy callSplit]; try rewrite En; cbn [negb];
    try (eexists; split; [reflexivity|]; split;
         [cbn [completedTasks]; destruct (strict_eq (tk_status task) (JStr "Completed")); lia
         | reflexivity]).
  destruct (String.eqb s "") eqn:Es; cbn [negb].
  - apply String.eqb_eq in Es. subst s.
    eexists; split; [reflexivity|]; split;
      [cbn [completedTasks]; destruct (strict_eq (tk_status task) (JStr "Completed")); lia
      | reflexivity].
  - eexists; split; [reflexivity|]; split;
      [cbn [completedTasks]; destruct (strict_eq (tk_status task) (JStr "Completed")); lia
      | cbn [analytics tagDistribution]; apply foldl_countTag].
Qed.

Lemma forEachTask_splittable (now : Z) (tasks : list Task) (st : tallies) :
  Forall (fun task => splittable (tk_tags task) = true) tasks ->
  exists st',
    forEachTask now st tasks = Ok st'
    /\ completedTasks st' = completedTasks st + completedCount tasks
    /\ tagDistribution (analytics st') = foldl tagStep (tagDistribution (analytics st)) tasks.
Proof.
  intros Hall. revert st. induction Hall as [|task tasks Ht _ IH]; intros st; simpl.
  - exists st. unfold completedCount. simpl. now rewrite Nat.add_0_r.
  - destruct (visit_splittable now st task Ht) as (st1 & Hv & Hc & Hd).
    destruct (IH st1) as (st2 & Hrun & Hc2 & Hd2).
    exists st2. rewrite Hv. split; [exact Hrun|]. split.
    + rewrite Hc2, Hc. unfold completedCount. simpl.
      destruct (isCompleted task); simpl; lia.
    + now rewrite Hd2, Hd.
Qed.

(** With text (or no) tags on every task [analyse] returns, and its two
    fields of interest are these. *)
Lemma analyse_splittable (now : Z) (tasks : list Task) :
  Forall (fun task => splittable (tk_tags task) = true) tasks ->
  exists a,
    analyse now tasks = Ok a
    /\ completionRate a
       = (if 0 <? length tasks
          then JStr (toFixed2 (Z2float (Z.of_nat (completedCount tasks))
                               / Z2float (Z.of_nat (length tasks)) * 100)%float)
          else JNum 0)
    /\ tagDistribution a = foldl tagStep ∅ tasks.
Proof.
  intros Hall.
  destruct (forEachTask_splittable now tasks (tallies0 tasks) Hall) as (st & Hrun & Hc & Hd).
  unfold analyse. rewrite Hrun. eexists. split; [reflexivity|].
  unfold ratios. cbn [completionRate tagDistribution]. rewrite Hc, Hd. now split.
Qed.

Lemma getTaskAnalytics_analyse (w w' : world) (tasks : list Task) :
  getAllTasks true w = (Ok tasks, w') ->
  getTaskAnalytics w = (analyse (clock w') tasks, w').
Proof. intros Hget. unfold getTaskAnalytics, bind. now rewrite Hget. Qed.

(** C4.  On the empty task list [getTaskAnalytics] returns the number 0
    for [completionRate] and for [averageAge]; on a list of four tasks, one
    of them Completed (and all with text tags), it returns the text "25.00"
    for [completionRate]. *)
Theorem completion_rate (w w' : world) (tasks : list Task) :
  getAllTasks true w = (Ok tasks, w') ->
  (tasks = [] ->
   exists a, getTaskAnalytics w = (Ok a, w')
             /\ completionRate a = JNum 0 /\ averageAge a = JNum 0)
  /\ (length tasks = 4 -> completedCount tasks = 1 ->
      Forall (fun task => splittable (tk_tags task) = true) tasks ->
      exists a, getTaskAnalytics w = (Ok a, w') /\ completionRate a = JStr "25.00").
Proof.
  intros Hget. rewrite (getTaskAnalytics_analyse w w' tasks Hget). split.
  - intros ->. eexists. split; [reflexivity|]. now split.
  - intros Hlen Hdone Hall.
    destruct (analyse_splittable (clock w') tasks Hall) as (a & Hrun & Hrate & _).
    exists a. rewrite Hrun. split; [reflexivity|].
    rewrite Hrate, Hlen, Hdone. reflexivity.
Qed.

Lemma bump_same (k : string) (obj : gmap string tally) (n : nat) :
  isInherited k = false -> obj !! k = tallyOf n -> bump k obj !! k = tallyOf (S n).
Proof.
  intros Hk Hn. unfold bump. rewrite Hn, Hk.
  destruct n; simpl; now rewrite lookup_insert_eq.
Qed.

Lemma bump_other (k tag : string) (obj : gmap string tally) :
  k <> tag -> bump tag obj !! k = obj !! k.
Proof.
  intros Hne. unfold bump.
  destruct (obj !! tag) as [[n|s]|];
    repeat match goal with |- context [if ?b then _ else _] => destruct b end;
    try reflexivity; now apply lookup_insert_ne.
Qed.

Lemma occurrences_app (k : string) (l1 l2 : list string) :
  occurrences k (l1 ++ l2) = occurrences k l1 + occurrences k l2.
Proof. unfold occurrences. now rewrite List.filter_app, length_app. Qed.

Lemma foldl_bump (k : string) (tags : list string) (obj : gmap string tally) (n : nat) :
  isInherited k = false -> obj !! k = tallyOf n ->
  foldl (fun obj tag => bump tag obj) obj tags !! k = tallyOf (n + occurrences k tags).
Proof.
  intros Hk. revert obj n. induction tags as [|tag tags IH]; intros obj n Hn; simpl.
  - unfold occurrences. simpl. now rewrite Nat.add_0_r.
  - change (tag :: tags) with ([tag] ++ tags). rewrite occurrences_app, Nat.add_assoc.
    apply IH. unfold occurrences. simpl. destruct (String.eqb k tag) eqn:E; simpl.
    + apply String.eqb_eq in E. subst tag. rewrite Nat.add_1_r. now apply bump_same.
    + apply String.eqb_neq in E. rewrite Nat.add_0_r, bump_other; assumption.
Qed.

Lemma foldl_tagStep (k : string) (tasks : list Task) (obj : gmap string tally) (n : nat) :
  isInherited k = false -> obj !! k = tallyOf n ->
  foldl tagStep obj tasks !! k = tallyOf (n + occurrences k (concat (map tokens tasks))).
Proof.
  intros Hk. revert obj n. induction tasks as [|task tasks IH]; intros obj n Hn; simpl.
  - unfold occurrences. simpl. now rewrite Nat.add_0_r.
  - rewrite occurrences_app, Nat.add_assoc. apply IH. now apply foldl_bump.
Qed.

(** C7.  [tagDistribution] counts, for every task, the pieces of its
    [tags] between the commas, trimmed, the empty ones left out: a tag
    (that is not the name of a property every object inherits) is mapped to
    the number of its occurrences among them, and a tag that does not occur
    is not a key.  For the two tasks with tags "a, b" and "b,c" the result
    is {a: 1, b: 2, c: 1}. *)
Theorem tag_distribution (w w' : world) (tasks : list Task) :
  getAllTasks true w = (Ok tasks, w') ->
  Forall (fun task => splittable (tk_tags task) = true) tasks ->
  exists a,
    getTaskAnalytics w = (Ok a, w')
    /\ (forall k, isInherited k = false ->
          tagDistribution a !! k = tallyOf (occurrences k (concat (map tokens tasks))))
    /\ (forall t1 t2, tasks = [t1; t2] ->
          tk_tags t1 = JStr "a, b" -> tk_tags t2 = JStr "b,c" ->
          tagDistribution a = {[ "a" := Num 1; "b" := Num 2; "c" := Num 1 ]}).
Proof.
  intros Hget Hall. rewrite (getTaskAnalytics_analyse w w' tasks Hget).
  destruct (analyse_splittable (clock w') tasks Hall) as (a & Hrun & _ & Htags).
  exists a. rewrite Hrun. split; [reflexivity|]. rewrite Htags. split.
  - intros k Hk. now apply (foldl_tagStep k tasks ∅ 0).
  - intros t1 t2 -> H1 H2. simpl. unfold tagStep, tokens. rewrite H1, H2.
    vm_compute. reflexivity.
Qed.

(** ** The two declarations of [addTask] *)

(** The first declaration replaces a priority that is not one of the four
    options by "Medium" before it writes the row. *)
Lemma addTask_133_unknown_priority (s : string) (priority dueDate : jsval)
    (notes tags assignee : string) (w : world) (sh : sheet) :
  sheets w !! CONFIG.SHEET_NAME = Some sh ->
  allWhitespace s = false ->
  includes CONFIG.PRIORITY_OPTIONS (default (JStr "Medium") priority) = false ->
  let newId := JNum (Z.of_nat (if 1 <? lastRowOf sh then lastRowOf sh else 1)) in
  let due := default (JStr "") dueDate in
  exists w',
    addTask_133 (JStr s) priority dueDate (JStr notes) (JStr tags) (JStr assignee) w
    = (Ok newId, w')
    /\ sheets w' !! CONFIG.SHEET_NAME
       = Some (writeRow (lastRowOf sh)
                 [newId; JStr (trim s); JStr "Pending"; JStr "Medium"; JDate (Some (clock w));
                  cellValue (if truthy due then JDate (dateValue due) else JStr "");
                  JStr (trim notes); JStr (trim tags); JStr (trim assignee)] sh).
Proof.
  intros Hsh Hs Hp newId due.
  assert (Hne : String.eqb s "" = false).
  { destruct s; [discriminate Hs | reflexivity]. }
  assert (Htrim : String.eqb (trim s) "" = false).
  { apply String.eqb_neq. intros Ht. apply trim_empty_iff in Ht. congruence. }
  unfold addTask_133, buildTaskData, getTaskSheet, bind, lift, ret, throw, try_catch,
    getSheetByName, getLastRow, readSheet, Date_now, setValues, onSheet, clearTaskCache,
    cache_remove.
  cbn [truthy callTrim default strict_eq negb]. rewrite Hne, Htrim. cbn [negb].
  run_on Hsh. rewrite Hp. run_on Hsh.
  change (length CONFIG.HEADERS) with 9.
  rewrite validRange_true by lia. cbn [negb length Nat.eqb forallb andb]. run_on Hsh.
  eexists. split; [reflexivity|].
  cbn [sheets set_cache set_sheets]. rewrite lookup_insert_eq, Nat.add_sub. reflexivity.
Qed.

(** C2 at its failing input: the declaration of [addTask] in force takes
    a title of three spaces, writes the row and returns its ID. *)
Theorem blank_title_is_stored :
  let '(id, w') := addTask (JStr "   ") JUndefined JUndefined JUndefined headerOnly in
  id = Ok (JNum 1)
  /\ taskRows w'
     = [[JNum 1; JStr "   "; JStr "Pending"; JStr "Medium"; JDate (Some (clock headerOnly));
         JStr ""; JStr ""]].
Proof. vm_compute. split; reflexivity. Qed.

(** C6 at its failing input: the declaration of [addTask] in force stores
    the priority "Bogus" as it is given. *)
Theorem unknown_priority_is_stored :
  let '(id, w') :=
    addTask (JStr "Write report") (JStr "Bogus") JUndefined JUndefined headerOnly in
  id = Ok (JNum 1) /\ map (fun r => at_ r 3) (taskRows w') = [JStr "Bogus"].
Proof. vm_compute. split; reflexivity. Qed.

(** ** Task IDs *)

(** C1 at its failing inputs.  The three sample tasks that
    [initializeTaskManager] adds all get the ID 1, as do two tasks added in
    one batch to a sheet with its header only; and after the task with ID 2
    is deleted, the next task gets the ID 2 again. *)
Theorem ids_repeat :
  taskIds (snd (initializeTaskManager noSheet)) = [JNum 1; JNum 1; JNum 1]
  /\ taskIds (snd (addTasksBatch (JArr [input "first"; input "second"]) headerOnly))
     = [JNum 1; JNum 1]
  /\ (let '(id, w) :=
        (do! add "first" in do! add "second" in do! deleteTask (JNum 2) in add "third")
          headerOnly in
      id = Ok (JNum 2) /\ taskIds w = [JNum 1; JNum 2])
  /\ (let '(id, w) :=
        (do! add "first" in do! add "second" in do! deleteTask (JNum 1) in add "third")
          headerOnly in
      id = Ok (JNum 2) /\ taskIds w = [JNum 2; JNum 2]).
Proof. repeat split; vm_compute; reflexivity. Qed.

End Properties.

(** * More of the script *)

Section Coverage.
Context `{Host}.

Lemma lastRowOf_blank (sh : sheet) : Forall blankRow sh -> lastRowOf sh = 0.
Proof.
  induction 1 as [|r sh Hr _ IH]; simpl; [reflexivity|].
  rewrite IH. unfold blankRow in Hr. now rewrite Hr.
Qed.

Lemma lastRowOf_app_content (pre : list row) (r : row) (rest : list row) :
  contentWidth r <> 0 -> Forall blankRow rest -> lastRowOf (pre ++ r :: rest) = S (length pre).
Proof.
  intros Hr Hrest. induction pre as [|p pre IH]; simpl.
  - rewrite (lastRowOf_blank rest Hrest). now destruct (contentWidth r).
  - now rewrite IH.
Qed.

Lemma lastRowOf_tail_blank (sh : sheet) : Forall blankRow (drop (lastRowOf sh) sh).
Proof.
  induction sh as [|r sh IH]; simpl; [constructor|].
  destruct (lastRowOf sh) as [|n] eqn:E.
  - destruct (contentWidth r) eqn:Er; simpl.
    + constructor; [exact Er | now rewrite drop_0 in IH].
    + now rewrite drop_0 in IH.
  - exact IH.
Qed.

Lemma contentWidth_app (r x : row) : contentWidth r <> 0 -> contentWidth (r ++ x) <> 0.
Proof.
  induction r as [|c r IH]; simpl; [congruence|].
  destruct (contentWidth r) eqn:E.
  - destruct (isBlank c); [congruence|]. intros _. now destruct (contentWidth (r ++ x)).
  - intros _. specialize (IH ltac:(lia)). now destruct (contentWidth (r ++ x)).
Qed.

(** Writing a row with content just below the last row. *)
Lemma writeRow_at_lastRow (vals : row) (sh : sheet) :
  contentWidth vals <> 0 ->
  exists old rest,
    writeRow (lastRowOf sh) vals sh
    = take (lastRowOf sh) sh ++ (vals ++ drop (length vals) old) :: rest
    /\ blankRow old /\ Forall blankRow rest.
Proof.
  intros Hv. unfold writeRow.
  pose proof (lastRowOf_le sh) as Hle. pose proof (lastRowOf_tail_blank sh) as Hb.
  pose proof (length_drop sh (lastRowOf sh)) as Hlen.
  pose proof (take_drop (lastRowOf sh) sh) as Hsplit.
  pose proof (length_take sh (lastRowOf sh)) as Htake.
  destruct (drop (lastRowOf sh) sh) as [|old rest].
  - simpl in Hlen. exists [], [].
    replace (S (lastRowOf sh) - length sh) with 1 by lia.
    rewrite app_nil_r in Hsplit. rewrite Hsplit.
    replace (lastRowOf sh) with (length sh + 0) at 1 by lia.
    simpl replicate. rewrite alter_app_r. simpl.
    split; [reflexivity|]. split; [reflexivity | constructor].
  - simpl in Hlen. exists old, rest.
    replace (S (lastRowOf sh) - length sh) with 0 by lia. simpl. rewrite app_nil_r.
    rewrite <- Hsplit at 2.
    replace (lastRowOf sh) with (length (take (lastRowOf sh) sh) + 0) at 1 by lia.
    rewrite alter_app_r. simpl.
    inversion Hb; subst. split; [reflexivity|]. now split.
Qed.

Lemma lastRowOf_writeRow (vals : row) (sh : sheet) :
  contentWidth vals <> 0 ->
  lastRowOf (writeRow (lastRowOf sh) vals sh) = S (lastRowOf sh).
Proof.
  intros Hv. destruct (writeRow_at_lastRow vals sh Hv) as (old & rest & -> & _ & Hrest).
  rewrite lastRowOf_app_content; [|now apply contentWidth_app|assumption].
  rewrite length_take. pose proof (lastRowOf_le sh). lia.
Qed.

Lemma lastRowOf_writeRows (rows : list row) (sh : sheet) :
  Forall (fun r => contentWidth r <> 0) rows ->
  lastRowOf (writeRows (lastRowOf sh) rows sh) = lastRowOf sh + length rows.
Proof.
  intros Hrows. revert sh. induction Hrows as [|r rows Hr _ IH]; intros sh; simpl; [lia|].
  rewrite <- (lastRowOf_writeRow r sh Hr), IH, lastRowOf_writeRow by assumption. lia.
Qed.

Lemma bind_Ok {A B} (m : M A) (k : A -> M B) (w w' : world) (b : B) :
  bind m k w = (Ok b, w') -> exists a w1, m w = (Ok a, w1) /\ k a w1 = (Ok b, w').
Proof.
  unfold bind. destruct (m w) as [[a|e] w1]; [eauto | discriminate].
Qed.

Lemma ret_Ok {A} (a b : A) (w w' : world) : ret a w = (Ok b, w') -> b = a /\ w' = w.
Proof. unfold ret. intros Heq. split; congruence. Qed.

Lemma lift_Ok {A} (r : result A) (w w' : world) (a : A) :
  lift r w = (Ok a, w') -> r = Ok a /\ w' = w.
Proof. unfold lift. intros [= -> ->]. now split. Qed.

Lemma callTrim_Ok (expr : string) (v a : jsval) :
  callTrim expr v = Ok a -> exists s, v = JStr s /\ a = JStr (trim s).
Proof. destruct v; try discriminate. intros [= <-]. eauto. Qed.

Lemma buildTaskData_shape (taskName priority dueDate notes tags assignee : jsval)
    (w w' : world) (r : row) :
  buildTaskData taskName priority dueDate notes tags assignee w = (Ok r, w') ->
  w' = w
  /\ length r = 9
  /\ (exists n, at_ r 0 = JNum (Z.of_nat n) /\ 1 <= n)
  /\ at_ r 2 = JStr "Pending"
  /\ includes CONFIG.PRIORITY_OPTIONS (at_ r 3) = true
  /\ Forall (fun v => isString v = true) [taskName; notes; tags; assignee]
  /\ sheets w !! CONFIG.SHEET_NAME <> None.
Proof.
  unfold buildTaskData. intros Hrun.
  apply bind_Ok in Hrun as (sheet & w1 & Hsheet & Hrun).
  apply bind_Ok in Hrun as (lastRow & w2 & Hlast & Hrun).
  apply bind_Ok in Hrun as (t & w3 & Ht & Hrun). apply lift_Ok in Ht as [Ht ->].
  apply bind_Ok in Hrun as (created & w4 & Hc & Hrun).
  assert (created = JDate (Some (clock w2)) /\ w4 = w2) as [-> ->]
    by (unfold Date_now in Hc; split; congruence).
  apply bind_Ok in Hrun as (n' & w5 & Hn & Hrun). apply lift_Ok in Hn as [Hn ->].
  apply bind_Ok in Hrun as (g' & w6 & Hg & Hrun). apply lift_Ok in Hg as [Hg ->].
  apply bind_Ok in Hrun as (a' & w7 & Ha & Hrun). apply lift_Ok in Ha as [Ha ->].
  apply ret_Ok in Hrun as [-> ->].
  assert (w2 = w1) as ->.
  { unfold getLastRow, readSheet in Hlast. destruct (sheets w1 !! sheet); congruence. }
  assert (w1 = w /\ sheets w !! CONFIG.SHEET_NAME <> None) as [-> Hthere].
  { unfold getTaskSheet, bind, getSheetByName, ret, throw in Hsheet.
    destruct (sheets w !! CONFIG.SHEET_NAME); split; congruence. }
  apply callTrim_Ok in Ht as (s1 & -> & ->). apply callTrim_Ok in Hn as (s2 & -> & ->).
  apply callTrim_Ok in Hg as (s3 & -> & ->). apply callTrim_Ok in Ha as (s4 & -> & ->).
  split; [reflexivity|]. split; [reflexivity|]. split.
  { eexists. split; [reflexivity|]. destruct (1 <? lastRow) eqn:E; [apply Nat.ltb_lt in E|]; lia. }
  split; [reflexivity|]. split; [|split; [repeat constructor | exact Hthere]].
  unfold at_. cbn [nth].
  destruct (includes CONFIG.PRIORITY_OPTIONS priority) eqn:E; [exact E | reflexivity].
Qed.

(** X1.  [buildTaskData] returns a record exactly when the sheet exists
    and the name, the notes, the tags and the assignee are strings.  The
    record has nine cells, a number of at least 1 as its ID, the status
    "Pending" and one of the four configured priorities; building it
    changes nothing. *)
Theorem buildTaskData_record (taskName priority dueDate notes tags assignee : jsval)
    (w : world) :
  ((exists r, buildTaskData taskName priority dueDate notes tags assignee w = (Ok r, w))
   <-> sheets w !! CONFIG.SHEET_NAME <> None
       /\ Forall (fun v => isString v = true) [taskName; notes; tags; assignee])
  /\ (forall r w',
        buildTaskData taskName priority dueDate notes tags assignee w = (Ok r, w') ->
        w' = w
        /\ length r = 9
        /\ (exists n, at_ r 0 = JNum (Z.of_nat n) /\ 1 <= n)
        /\ at_ r 2 = JStr "Pending"
        /\ includes CONFIG.PRIORITY_OPTIONS (at_ r 3) = true).
Proof.
  split; [split|].
  - intros (r & Hrun).
    destruct (buildTaskData_shape _ _ _ _ _ _ _ _ _ Hrun) as (_ & _ & _ & _ & _ & Hs & Hsh).
    now split.
  - intros [Hthere Hs].
    destruct (sheets w !! CONFIG.SHEET_NAME) as [sh|] eqn:Hsh; [|contradiction].
    inversion Hs as [|? ? H1 Hs1]; subst. inversion Hs1 as [|? ? H2 Hs2]; subst.
    inversion Hs2 as [|? ? H3 Hs3]; subst. inversion Hs3 as [|? ? H4 _]; subst.
    destruct taskName; try discriminate H1. destruct notes; try discriminate H2.
    destruct tags; try discriminate H3. destruct assignee; try discriminate H4.
    unfold buildTaskData, getTaskSheet, bind, lift, getSheetByName, getLastRow, readSheet,
      Date_now, ret.
    run_on Hsh. cbn [callTrim]. run_on Hsh. eauto.
  - intros r w' Hrun.
    destruct (buildTaskData_shape _ _ _ _ _ _ _ _ _ Hrun) as (Hw & Hl & Hid & Hst & Hp & _).
    now repeat split.
Qed.

Lemma contentWidth_cons (c : jsval) (r : row) : isBlank c = false -> contentWidth (c :: r) <> 0.
Proof. intros Hc. simpl. rewrite Hc. now destruct (contentWidth r). Qed.

Lemma simpleRow_content lastRow now taskName priority dueDate notes :
  contentWidth (simpleRow lastRow now taskName priority dueDate notes) <> 0.
Proof. now apply contentWidth_cons. Qed.

Lemma getLastRow_run (w : world) (sh : sheet) :
  sheets w !! SHEET_NAME = Some sh -> getLastRow SHEET_NAME w = (Ok (lastRowOf sh), w).
Proof. intros Hsh. unfold getLastRow, readSheet. now rewrite Hsh. Qed.

(** With the sheet in place the [addTask] in force never fails: it
    returns the number of the last row with content (1 on a sheet with
    none), the sheet has one more row with content afterwards, and the
    cache is left as it was. *)
Lemma addTask_grows (taskName priority dueDate notes : jsval) (w : world) (sh : sheet) :
  sheets w !! SHEET_NAME = Some sh ->
  exists w',
    addTask taskName priority dueDate notes w
    = (Ok (JNum (Z.of_nat (Nat.max (lastRowOf sh) 1))), w')
    /\ getLastRow SHEET_NAME w' = (Ok (S (lastRowOf sh)), w')
    /\ cache w' = cache w /\ alerts w' = alerts w.
Proof.
  intros Hsh. rewrite (addTask_appends taskName priority dueDate notes w sh Hsh).
  eexists. split.
  - do 3 f_equal. destruct (1 <? lastRowOf sh) eqn:E;
      [apply Nat.ltb_lt in E | apply Nat.ltb_ge in E]; lia.
  - split; [|now split].
    erewrite getLastRow_run by apply lookup_insert_eq.
    do 2 f_equal. apply (lastRowOf_writeRow (simpleRow _ _ _ _ _ _)), simpleRow_content.
Qed.

(** X2.  With the sheet in place the [addTask] in force never fails and
    takes the ID from the number of rows: two calls in a row return the
    number of the last row with content and that number plus one (1 and 1
    on a sheet with no content at all), the sheet has two more rows
    afterwards, and neither the cache nor the dialogs are touched. *)
Theorem addTask_twice (name1 priority1 dueDate1 notes1 name2 priority2 dueDate2 notes2 : jsval)
    (w : world) (sh : sheet) :
  sheets w !! SHEET_NAME = Some sh ->
  exists w1 w2,
    addTask name1 priority1 dueDate1 notes1 w
    = (Ok (JNum (Z.of_nat (Nat.max (lastRowOf sh) 1))), w1)
    /\ addTask name2 priority2 dueDate2 notes2 w1
       = (Ok (JNum (Z.of_nat (S (lastRowOf sh)))), w2)
    /\ getLastRow SHEET_NAME w2 = (Ok (lastRowOf sh + 2), w2)
    /\ cache w2 = cache w /\ alerts w2 = alerts w.
Proof.
  intros Hsh.
  destruct (addTask_grows name1 priority1 dueDate1 notes1 w sh Hsh)
    as (w1 & Hrun1 & Hlast1 & Hc1 & Ha1).
  exists w1. unfold getLastRow, readSheet in Hlast1.
  destruct (sheets w1 !! SHEET_NAME) as [sh1|] eqn:Hsh1; [|discriminate].
  assert (HL : lastRowOf sh1 = S (lastRowOf sh)) by congruence.
  destruct (addTask_grows name2 priority2 dueDate2 notes2 w1 sh1 Hsh1)
    as (w2 & Hrun2 & Hlast2 & Hc2 & Ha2).
  exists w2. split; [exact Hrun1|]. split.
  - rewrite Hrun2, HL. do 3 f_equal. lia.
  - split; [|split; congruence]. rewrite Hlast2, HL. do 2 f_equal. lia.
Qed.

Lemma nth_take_padded (k width m : nat) (r : row) :
  k < width -> width <= length r + m ->
  nth k (take width (r ++ replicate m blank)) JUndefined = nth k r blank.
Proof.
  revert width m r. induction k as [|k IH]; intros [|width] m r Hk Hm; try lia.
  - destruct r as [|c r]; [|reflexivity]. destruct m; [simpl in Hm; lia | reflexivity].
  - destruct r as [|c r].
    + destruct m as [|m]; [simpl in Hm; lia|].
      change (nth k (take width ([] ++ replicate m blank)) JUndefined = blank).
      rewrite (IH width m []) by (simpl in *; lia). now destruct k.
    + simpl. apply IH; simpl in *; lia.
Qed.

Lemma at_padRow_lt (width k : nat) (r : row) :
  k < width -> at_ (padRow width r) k = nth k r blank.
Proof. intros Hk. apply nth_take_padded; [assumption | lia]. Qed.

Lemma simpleTaskOfRow_padRow (width : nat) (r : row) :
  7 <= width ->
  simpleTaskOfRow (padRow width r)
  = mkTask (nth 0 r blank) (nth 1 r blank) (nth 2 r blank) (nth 3 r blank) (nth 4 r blank)
           (nth 5 r blank) (nth 6 r blank) JUndefined JUndefined.
Proof.
  intros Hw. unfold simpleTaskOfRow. now rewrite !at_padRow_lt by lia.
Qed.

Lemma lastColumnOf_app (a b : sheet) :
  lastColumnOf (a ++ b) = Nat.max (lastColumnOf a) (lastColumnOf b).
Proof.
  unfold lastColumnOf. induction a as [|r a IH]; simpl; [reflexivity|]. rewrite IH. lia.
Qed.

Lemma lastColumnOf_blank (sh : sheet) : Forall blankRow sh -> lastColumnOf sh = 0.
Proof.
  unfold lastColumnOf. induction 1 as [|r sh Hr _ IH]; simpl; [reflexivity|].
  unfold blankRow in Hr. rewrite IH, Hr. reflexivity.
Qed.

Lemma lastColumnOf_take (sh : sheet) : lastColumnOf (take (lastRowOf sh) sh) = lastColumnOf sh.
Proof.
  rewrite <- (take_drop (lastRowOf sh) sh) at 3.
  rewrite lastColumnOf_app, (lastColumnOf_blank _ (lastRowOf_tail_blank sh)). lia.
Qed.

Lemma lastRowOf_pos (sh : sheet) : 1 <= lastColumnOf sh -> 1 <= lastRowOf sh.
Proof.
  intros Hc. destruct (lastRowOf sh) eqn:E; [|lia].
  rewrite <- lastColumnOf_take, E in Hc. simpl in Hc. unfold lastColumnOf in Hc. simpl in Hc. lia.
Qed.

(** The tasks [getTasks()] lists on a sheet whose columns reach the
    seventh. *)
Lemma getTasks_all (w : world) (sh : sheet) :
  sheets w !! SHEET_NAME = Some sh -> 7 <= lastColumnOf sh ->
  getTasks JUndefined w
  = (Ok (map (fun r => simpleTaskOfRow (padRow 7 r)) (drop 1 (take (lastRowOf sh) sh))), w).
Proof.
  intros Hsh Hw. unfold getTasks, bind, getSheetByName, getValues, readSheet, ret.
  run_on Hsh. cbn [default strict_eq String.eqb orb].
  rewrite dataValues_rows, map_map. do 2 f_equal.
  match goal with |- List.filter ?f ?l = _ => replace (List.filter f l) with l end.
  - apply map_ext. intros r. now rewrite !simpleTaskOfRow_padRow by lia.
  - symmetry. apply forallb_filter_id. now apply forallb_forall.
Qed.

(** X3.  A task added by the [addTask] in force is the last one [getTasks]
    lists afterwards, with the ID returned, the status Pending and the
    other values as the cells keep them; the tasks listed before stay. *)
Theorem addTask_then_getTasks (taskName priority dueDate notes : jsval) (w : world) (sh : sheet) :
  sheets w !! SHEET_NAME = Some sh ->
  7 <= lastColumnOf sh ->
  exists listed id w',
    getTasks JUndefined w = (Ok listed, w)
    /\ addTask taskName priority dueDate notes w = (Ok id, w')
    /\ getTasks JUndefined w'
       = (Ok (listed ++ [mkTask id (cellValue taskName) (JStr "Pending")
                           (cellValue (default (JStr "Medium") priority))
                           (JDate (Some (clock w)))
                           (cellValue (default (JStr "") dueDate))
                           (cellValue (default (JStr "") notes)) JUndefined JUndefined]), w').
Proof.
  intros Hsh Hw.
  assert (HL : 1 <= lastRowOf sh) by (apply lastRowOf_pos; lia).
  rewrite (getTasks_all w sh Hsh Hw).
  rewrite (addTask_appends taskName priority dueDate notes w sh Hsh).
  set (vals := map cellValue _).
  destruct (writeRow_at_lastRow vals sh (simpleRow_content _ (clock w) taskName priority dueDate notes))
    as (old & rest & Hwrite & Hold & Hrest).
  do 3 eexists. split; [reflexivity|]. split; [reflexivity|].
  erewrite getTasks_all; [|apply lookup_insert_eq|].
  - rewrite lastRowOf_writeRow by apply simpleRow_content.
    rewrite Hwrite. do 2 f_equal.
    rewrite firstn_app, firstn_firstn, length_take.
    pose proof (lastRowOf_le sh) as Hle.
    replace (S (lastRowOf sh) `min` lastRowOf sh) with (lastRowOf sh) by lia.
    replace (S (lastRowOf sh) - lastRowOf sh `min` length sh) with 1 by lia.
    cbn [take]. rewrite skipn_app, length_take.
    replace (1 - lastRowOf sh `min` length sh) with 0 by lia.
    rewrite drop_0, map_app. reflexivity.
  - rewrite Hwrite, lastColumnOf_app. rewrite <- lastColumnOf_take in Hw. lia.
Qed.

Lemma buildFromTask_record (task : jsval) (w : world) (sh : sheet) :
  sheets w !! CONFIG.SHEET_NAME = Some sh ->
  wellFormed task = true ->
  buildFromTask task w = (Ok (recordOf (lastRowOf sh) (clock w) task), w).
Proof.
  intros Hsh Hwf. destruct task as [| | | | | | |props]; try discriminate Hwf.
  unfold wellFormed in Hwf.
  destruct (assoc "name" props) as [| | | |name| | |] eqn:E1; try discriminate Hwf.
  destruct (assoc "notes" props) as [| | | |notes| | |] eqn:E2; try discriminate Hwf.
  destruct (assoc "tags" props) as [| | | |tags| | |] eqn:E3; try discriminate Hwf.
  destruct (assoc "assignee" props) as [| | | |assignee| | |] eqn:E4; try discriminate Hwf.
  unfold buildFromTask, buildTaskData, getTaskSheet, bind, lift, getProp, getSheetByName,
    getLastRow, readSheet, Date_now, ret, recordOf.
  rewrite E1, E2, E3, E4. run_on Hsh. cbn [callTrim textOf]. run_on Hsh.
  do 4 f_equal. destruct (1 <? lastRowOf sh) eqn:E;
    [apply Nat.ltb_lt in E | apply Nat.ltb_ge in E]; lia.
Qed.

Lemma mapM_build_records (batch : list jsval) (w : world) (sh : sheet) :
  sheets w !! CONFIG.SHEET_NAME = Some sh ->
  forallb wellFormed batch = true ->
  mapM buildFromTask batch w = (Ok (map (recordOf (lastRowOf sh) (clock w)) batch), w).
Proof.
  intros Hsh. induction batch as [|task batch IH]; simpl; intros Hwf; [reflexivity|].
  apply andb_prop in Hwf as [Ht Hb].
  unfold bind, ret. now rewrite (buildFromTask_record task w sh Hsh Ht), (IH Hb).
Qed.

Lemma recordOf_shape (lastRow : nat) (now : Z) (task : jsval) :
  wellFormed task = true ->
  length (recordOf lastRow now task) = 9
  /\ contentWidth (map cellValue (recordOf lastRow now task)) <> 0.
Proof.
  destruct task; try discriminate. intros _. split; [reflexivity|].
  now apply contentWidth_cons.
Qed.

Lemma splitBatches_single (tasks : list jsval) :
  tasks <> [] -> length tasks <= CONFIG.BATCH_SIZE -> splitBatches tasks = [tasks].
Proof.
  intros Hne Hlen. unfold splitBatches. destruct tasks as [|t tasks]; [contradiction|].
  cbn [length splitFrom]. rewrite (proj2 (Nat.ltb_lt 0 _)) by (simpl; lia).
  rewrite drop_0, take_ge by exact Hlen. f_equal.
  destruct (length tasks) eqn:E; [reflexivity|]. cbn [splitFrom].
  now rewrite (proj2 (Nat.ltb_ge _ _)) by (simpl in *; lia).
Qed.

(** One chunk of well-formed inputs: its records, all built for the same
    last row, are written below that row. *)
Lemma processBatch_wellFormed (count totalAdded : nat) (batch : list jsval) (index : nat)
    (w : world) (sh : sheet) :
  sheets w !! CONFIG.SHEET_NAME = Some sh ->
  batch <> [] ->
  forallb wellFormed batch = true ->
  exists w',
    processBatch CONFIG.SHEET_NAME count totalAdded batch index w
    = (Ok (totalAdded + length batch), w')
    /\ sheets w'
       = <[CONFIG.SHEET_NAME :=
             writeRows (lastRowOf sh)
               (map (fun task => map cellValue (recordOf (lastRowOf sh) (clock w) task)) batch) sh]>
           (sheets w)
    /\ cache w' = cache w /\ console w' = console w /\ alerts w' = alerts w.
Proof.
  intros Hsh Hne Hwf. unfold processBatch, try_catch.
  unfold bind at 1. rewrite (mapM_build_records batch w sh Hsh Hwf).
  unfold bind at 1. unfold getLastRow, readSheet. rewrite Hsh.
  unfold bind at 1. unfold setValues, onSheet. rewrite Hsh.
  change (length CONFIG.HEADERS) with 9.
  rewrite validRange_true, length_map, Nat.eqb_refl
    by (rewrite ?length_map; destruct batch; [contradiction | simpl; lia]).
  assert (Hcols : forallb (fun v : list jsval => length v =? 9)
                    (map (recordOf (lastRowOf sh) (clock w)) batch) = true).
  { apply forallb_forall. intros r Hr. apply in_map_iff in Hr as (t & <- & Ht).
    rewrite forallb_forall in Hwf. now rewrite (proj1 (recordOf_shape _ _ t (Hwf t Ht))). }
  rewrite Hcols. cbn [negb]. rewrite Nat.add_sub, map_map. unfold bind, ret.
  destruct (index <? count - 1); unfold sleep; eexists; (split; [reflexivity|]);
    cbn [sheets cache console alerts set_sheets]; repeat split.
Qed.

(** One chunk with an ill-formed input: nothing is written; the failure is
    logged. *)
Lemma processBatch_illFormed (count totalAdded : nat) (batch : list jsval) (index : nat)
    (w : world) (sh : sheet) :
  sheets w !! CONFIG.SHEET_NAME = Some sh ->
  forallb wellFormed batch = false ->
  exists e,
    processBatch CONFIG.SHEET_NAME count totalAdded batch index w
    = (Ok totalAdded,
       mkWorld (sheets w) (cache w) (clock w) (alerts w)
         (ConsoleError ("Batch " ++ decimal (Z.of_nat (index + 1)) ++ " failed:") e :: console w)).
Proof.
  intros Hsh Hwf. unfold processBatch, try_catch.
  destruct (mapM_build_illFormed batch w sh Hsh Hwf) as (e & He).
  exists e. unfold bind at 1. now rewrite He.
Qed.

Lemma processBatch_rows (count totalAdded : nat) (batch : list jsval) (index : nat)
    (w : world) (sh : sheet) :
  sheets w !! CONFIG.SHEET_NAME = Some sh ->
  exists w' sh',
    processBatch CONFIG.SHEET_NAME count totalAdded batch index w
    = (Ok (totalAdded + (if forallb wellFormed batch then length batch else 0)), w')
    /\ sheets w' !! CONFIG.SHEET_NAME = Some sh'
    /\ lastRowOf sh' = lastRowOf sh + (if forallb wellFormed batch then length batch else 0).
Proof.
  intros Hsh. destruct (forallb wellFormed batch) eqn:Hwf.
  - destruct batch as [|t batch].
    + unfold processBatch, try_catch, bind, ret, getLastRow, readSheet, setValues, onSheet,
        consoleWrite.
      cbn [mapM]. unfold ret. rewrite Hsh.
      replace (validRange (lastRowOf sh + 1) 1 (length (@nil row)) (length CONFIG.HEADERS))
        with false by (unfold validRange; simpl; now rewrite !andb_false_r).
      cbn [negb]. rewrite Hsh. eexists _, sh. split; [now rewrite Nat.add_0_r|].
      split; [apply lookup_insert_eq | simpl; lia].
    + destruct (processBatch_wellFormed count totalAdded (t :: batch) index w sh Hsh)
        as (w' & Hrun & Hsheets & _); [discriminate | exact Hwf |].
      eexists w', _. split; [exact Hrun|]. rewrite Hsheets. split; [apply lookup_insert_eq|].
      rewrite lastRowOf_writeRows, length_map; [reflexivity|].
      apply Forall_map, List.Forall_forall. intros task Ht.
      rewrite forallb_forall in Hwf. apply recordOf_shape, Hwf, Ht.
  - destruct (processBatch_illFormed count totalAdded batch index w sh Hsh Hwf) as (e & Hrun).
    eexists _, sh. split; [rewrite Hrun, Nat.add_0_r; reflexivity|].
    split; [exact Hsh | lia].
Qed.

Lemma forEachBatch_rows (batches : list (list jsval)) (count index totalAdded : nat)
    (w : world) (sh : sheet) :
  sheets w !! CONFIG.SHEET_NAME = Some sh ->
  exists w' sh',
    forEachBatch CONFIG.SHEET_NAME count index batches totalAdded w
    = (Ok (totalAdded + rowsAdded batches), w')
    /\ sheets w' !! CONFIG.SHEET_NAME = Some sh'
    /\ lastRowOf sh' = lastRowOf sh + rowsAdded batches.
Proof.
  revert index totalAdded w sh.
  induction batches as [|batch batches IH]; intros index totalAdded w sh Hsh; simpl.
  - exists w, sh. unfold ret, rowsAdded. simpl. rewrite !Nat.add_0_r. now split.
  - destruct (processBatch_rows count totalAdded batch index w sh Hsh)
      as (w1 & sh1 & Hstep & Hsh1 & Hlast1).
    unfold bind. rewrite Hstep.
    destruct (IH (S index) (totalAdded + (if forallb wellFormed batch then length batch else 0))
                w1 sh1 Hsh1) as (w2 & sh2 & Hrest & Hsh2 & Hlast2).
    exists w2, sh2. split; [|split; [exact Hsh2|]].
    + rewrite Hrest. unfold rowsAdded. simpl. now rewrite Nat.add_assoc.
    + rewrite Hlast2, Hlast1. unfold rowsAdded. simpl. lia.
Qed.

Lemma rowsAdded_le (batches : list (list jsval)) :
  rowsAdded batches <= length (concat batches).
Proof.
  unfold rowsAdded. induction batches as [|b batches IH]; simpl; [lia|].
  rewrite length_app. destruct (forallb wellFormed b); lia.
Qed.

(** X4.  On a non-empty array, with the sheet in place, [addTasksBatch]
    raises nothing: it returns the number of inputs in the chunks that
    have well-formed inputs only, the sheet has exactly that many more rows
    with content afterwards, and no cached task list is left. *)
Theorem addTasksBatch_rows (tasks : list jsval) (w : world) (sh : sheet) :
  sheets w !! CONFIG.SHEET_NAME = Some sh ->
  tasks <> [] ->
  exists w',
    addTasksBatch (JArr tasks) w = (Ok (rowsAdded (splitBatches tasks)), w')
    /\ getLastRow CONFIG.SHEET_NAME w' = (Ok (lastRowOf sh + rowsAdded (splitBatches tasks)), w')
    /\ rowsAdded (splitBatches tasks) <= length tasks
    /\ cache w' !! "all_tasks" = None.
Proof.
  intros Hsh Hne. unfold addTasksBatch.
  destruct tasks as [|t tasks]; [contradiction|]. cbn [length Nat.eqb].
  unfold bind at 1. unfold getTaskSheet, bind at 1. unfold getSheetByName, ret.
  rewrite Hsh.
  destruct (forEachBatch_rows (splitBatches (t :: tasks))
              (length (splitBatches (t :: tasks))) 0 0 w sh Hsh)
    as (w1 & sh1 & Hrun & Hsh1 & Hlast).
  unfold bind. rewrite Hrun. unfold clearTaskCache, cache_remove.
  eexists. split; [reflexivity|]. split; [|split].
  - unfold getLastRow, readSheet. cbn [sheets set_cache]. now rewrite Hsh1, Hlast.
  - pose proof (rowsAdded_le (splitBatches (t :: tasks))) as Hle.
    now rewrite splitBatches_concat in Hle.
  - cbn [cache set_cache]. apply lookup_delete_eq.
Qed.

(** An array of at most 100 well-formed inputs is written as one block
    below the last row with content, every record built for that row. *)
Lemma addTasksBatch_single (tasks : list jsval) (w : world) (sh : sheet) :
  sheets w !! CONFIG.SHEET_NAME = Some sh ->
  tasks <> [] ->
  length tasks <= 100 ->
  forallb wellFormed tasks = true ->
  let records := map (fun task => map cellValue (recordOf (lastRowOf sh) (clock w) task)) tasks in
  exists w',
    addTasksBatch (JArr tasks) w = (Ok (length tasks), w')
    /\ sheets w' = <[CONFIG.SHEET_NAME := writeRows (lastRowOf sh) records sh]> (sheets w)
    /\ cache w' !! "all_tasks" = None
    /\ alerts w' = alerts w /\ console w' = console w.
Proof.
  intros Hsh Hne Hlen Hwf records. unfold addTasksBatch.
  destruct tasks as [|t tasks]; [contradiction|]. cbn [length Nat.eqb].
  unfold bind at 1. unfold getTaskSheet, bind at 1. unfold getSheetByName, ret.
  rewrite Hsh, splitBatches_single by (discriminate || exact Hlen).
  cbn [forEachBatch length].
  destruct (processBatch_wellFormed 1 0 (t :: tasks) 0 w sh Hsh)
    as (w1 & Hrun & Hsheets & _ & Hconsole & Halerts); [discriminate | exact Hwf |].
  unfold bind. rewrite Hrun. unfold clearTaskCache, cache_remove.
  eexists. split; [reflexivity|]. split; [|split; [|split]].
  - cbn [sheets set_cache]. exact Hsheets.
  - cbn [cache set_cache]. apply lookup_delete_eq.
  - exact Halerts.
  - exact Hconsole.
Qed.

Lemma setupSheetStructure_run (w : world) (sh : sheet) :
  sheets w !! CONFIG.SHEET_NAME = Some sh ->
  exists w',
    setupSheetStructure CONFIG.SHEET_NAME w = (Ok tt, w')
    /\ sheets w' !! CONFIG.SHEET_NAME = Some ([map JStr CONFIG.HEADERS] : sheet)
    /\ cache w' = cache w /\ clock w' = clock w /\ alerts w' = alerts w
    /\ console w' = console w.
Proof.
  intros Hsh. unfold setupSheetStructure, bind, clear, setValues, onSheet.
  rewrite Hsh. cbn [sheets set_sheets]. rewrite lookup_insert_eq.
  eexists. split; [reflexivity|]. split; [apply lookup_insert_eq | now repeat split].
Qed.

(** X5.  [initializeTaskManager] never throws.  Whatever the sheet held
    before (and whether it was there), afterwards it holds the header row
    and the three sample records, all three with the ID 1; no cached list
    is left and one dialog reports the success. *)
Theorem initializeTaskManager_resets (w : world) :
  exists w',
    initializeTaskManager w = (Ok tt, w')
    /\ sheets w' !! CONFIG.SHEET_NAME
       = Some (map JStr CONFIG.HEADERS
               :: map (fun task => map cellValue (recordOf 1 (clock w) task))
                    (sampleTasks (clock w)) : sheet)
    /\ cache w' !! "all_tasks" = None
    /\ alerts w' = "Advanced Task Manager initialized successfully!" :: alerts w.
Proof.
  assert (Hrest : forall w0 sh0,
            sheets w0 !! CONFIG.SHEET_NAME = Some sh0 ->
            exists w',
              (do! setupSheetStructure CONFIG.SHEET_NAME in
               do! setupDataValidation CONFIG.SHEET_NAME in
               do! setupConditionalFormatting CONFIG.SHEET_NAME in
               do! addSampleData in
               let! now := Date_now in
               do! consoleWrite (ConsoleLog ("Task Manager initialized at " ++ ObjectToString now)) in
               alert "Advanced Task Manager initialized successfully!") w0 = (Ok tt, w')
              /\ sheets w' !! CONFIG.SHEET_NAME
                 = Some (map JStr CONFIG.HEADERS
                         :: map (fun task => map cellValue (recordOf 1 (clock w0) task))
                              (sampleTasks (clock w0)) : sheet)
              /\ cache w' !! "all_tasks" = None
              /\ alerts w' = "Advanced Task Manager initialized successfully!" :: alerts w0).
  { intros w0 sh0 Hsh0.
    destruct (setupSheetStructure_run w0 sh0 Hsh0) as (w1 & Hsetup & Hsh1 & Hc1 & Hk1 & Ha1 & _).
    destruct (addTasksBatch_single (sampleTasks (clock w1)) w1 [map JStr CONFIG.HEADERS] Hsh1)
      as (w2 & Hbatch & Hsh2 & Hc2 & Ha2 & _);
      [discriminate | simpl; lia | reflexivity |].
    unfold bind at 1. rewrite Hsetup.
    unfold bind at 1. unfold bind at 1. unfold setupDataValidation, setupConditionalFormatting, ret.
    unfold bind at 1. unfold addSampleData. unfold bind at 1. unfold Date_now.
    unfold bind at 1. fold (sampleTasks (clock w1)). rewrite Hbatch.
    unfold bind, ret, consoleWrite, alert.
    eexists. split; [reflexivity|]. cbn [sheets cache alerts].
    split; [|split; [exact Hc2 | now rewrite Ha2, Ha1]].
    rewrite Hsh2, lookup_insert_eq, Hk1. reflexivity. }
  unfold initializeTaskManager, try_catch. unfold bind at 1. unfold getSheetByName.
  destruct (sheets w !! CONFIG.SHEET_NAME) as [sh|] eqn:Hsh.
  - unfold bind at 1. unfold ret at 1.
    destruct (Hrest w sh Hsh) as (w' & Hrun & Hprops). rewrite Hrun. now exists w'.
  - unfold bind at 1. unfold insertSheet. rewrite Hsh.
    destruct (Hrest (set_sheets (insert CONFIG.SHEET_NAME []) w) [])
      as (w' & Hrun & Hprops); [apply lookup_insert_eq|].
    rewrite Hrun. now exists w'.
Qed.

(** X6.  Before the sheet exists the functions of the advanced variant
    throw the error of [getTaskSheet] and change nothing; only a cached
    list, if there is one, is still served. *)
Theorem advanced_without_sheet (w : world) :
  sheets w !! CONFIG.SHEET_NAME = None ->
  let e := Error "Task sheet not found. Please initialize the Task Manager first." in
  (forall s priority dueDate notes tags assignee,
      allWhitespace s = false ->
      addTask_133 (JStr s) priority dueDate notes tags assignee w = (Throw e, w))
  /\ (forall tasks, tasks <> [] -> addTasksBatch (JArr tasks) w = (Throw e, w))
  /\ getAllTasks false w = (Throw e, w)
  /\ (cache w !! "all_tasks" = None ->
      getAllTasks true w = (Throw e, w) /\ getTaskAnalytics w = (Throw e, w)).
Proof.
  intros Hno e. repeat split.
  - intros s priority dueDate notes tags assignee Hs.
    assert (Hne : String.eqb s "" = false) by (destruct s; [discriminate Hs | reflexivity]).
    assert (Htrim : String.eqb (trim s) "" = false).
    { apply String.eqb_neq. intros Ht. apply trim_empty_iff in Ht. congruence. }
    unfold addTask_133, getTaskSheet, bind, lift, ret, throw, getSheetByName.
    cbn [truthy callTrim strict_eq negb]. rewrite Hne. cbn [negb]. rewrite Htrim.
    now rewrite Hno.
  - intros tasks Hne. unfold addTasksBatch, getTaskSheet, bind, getSheetByName, ret, throw.
    destruct tasks; [contradiction|]. cbn [length Nat.eqb]. now rewrite Hno.
  - unfold getAllTasks, getTaskSheet, bind, getSheetByName, ret, throw. now rewrite Hno.
  - unfold getAllTasks, getTaskSheet, bind, getSheetByName, cache_get, ret, throw.
    rewrite H0. now rewrite Hno.
  - unfold getTaskAnalytics, getAllTasks, getTaskSheet, bind, getSheetByName, cache_get, ret,
      throw.
    rewrite H0. now rewrite Hno.
Qed.

(** X7.  Before the sheet exists [addTask], [completeTask] and
    [deleteTask] show the dialog that asks to initialize, return without a
    value and change nothing else. *)
Theorem simple_without_sheet (w : world) :
  sheets w !! SHEET_NAME = None ->
  let w' := mkWorld (sheets w) (cache w) (clock w)
              ("Please initialize the Task Manager first!" :: alerts w) (console w) in
  (forall taskName priority dueDate notes,
      addTask taskName priority dueDate notes w = (Ok JUndefined, w'))
  /\ (forall taskId, completeTask taskId w = (Ok tt, w'))
  /\ (forall taskId, deleteTask taskId w = (Ok tt, w')).
Proof.
  intros Hno w'. repeat split; intros;
    unfold addTask, completeTask, deleteTask, bind, getSheetByName, alert, ret;
    now rewrite Hno.
Qed.

Lemma getTasks_total (statusFilter : jsval) (w : world) :
  exists listed, getTasks statusFilter w = (Ok listed, w).
Proof.
  unfold getTasks, bind, getSheetByName, getValues, readSheet, ret.
  destruct (sheets w !! SHEET_NAME) as [sh|] eqn:Hsh; [|eauto].
  run_on Hsh. eauto.
Qed.

Lemma getTasks_statuses (statusFilter : jsval) (w w' : world) (listed : list Task) :
  getTasks statusFilter w = (Ok listed, w') ->
  strict_eq (default (JStr "") statusFilter) (JStr "") = false ->
  Forall (fun task => strict_eq (tk_status task) (default (JStr "") statusFilter) = true) listed.
Proof.
  unfold getTasks, bind, getSheetByName, getValues, readSheet, ret.
  destruct (sheets w !! SHEET_NAME) as [sh|] eqn:Hsh.
  - run_on Hsh. intros [= <- <-] Hf. rewrite Hf. cbn [orb].
    apply List.Forall_forall. intros task Hin. now apply filter_In in Hin as [_ Hst].
  - intros [= <- <-] _. constructor.
Qed.

Lemma at_padRow_read (width k : nat) (r : row) : at_ (padRow width r) k = cellRead width r k.
Proof.
  unfold cellRead. destruct (k <? width) eqn:E.
  - apply Nat.ltb_lt in E. now apply at_padRow_lt.
  - apply Nat.ltb_ge in E. unfold at_. apply nth_overflow.
    unfold padRow. rewrite length_take, length_app, length_replicate. lia.
Qed.

Lemma getTasks_run (statusFilter : jsval) (w : world) (sh : sheet) :
  sheets w !! SHEET_NAME = Some sh ->
  getTasks statusFilter w
  = (Ok (List.filter
           (fun task => strict_eq (default (JStr "") statusFilter) (JStr "")
                        || strict_eq (tk_status task) (default (JStr "") statusFilter))
           (map (taskRead (lastColumnOf sh)) (contentRows sh))), w).
Proof.
  intros Hsh. unfold getTasks, bind, getSheetByName, getValues, readSheet, ret.
  run_on Hsh. rewrite dataValues_rows, map_map. do 3 f_equal.
  apply map_ext. intros r. unfold simpleTaskOfRow, taskRead. now rewrite !at_padRow_read.
Qed.

(** X8.  With the sheet in place [getTasks] never throws and never changes
    the world.  It reads the rows below the header up to the last row with
    content, and of each row the cells up to the last column with content.
    Without a filter, or with the empty one, it lists every one of these
    rows as a task, in the order of the sheet; with another filter it
    lists, in the same order, those whose status is that value. *)
Theorem getTasks_filters (statusFilter : jsval) (w : world) (sh : sheet) :
  sheets w !! SHEET_NAME = Some sh ->
  let all := map (taskRead (lastColumnOf sh)) (contentRows sh) in
  getTasks JUndefined w = (Ok all, w)
  /\ getTasks (JStr "") w = (Ok all, w)
  /\ (strict_eq (default (JStr "") statusFilter) (JStr "") = false ->
      getTasks statusFilter w
      = (Ok (List.filter (fun task => strict_eq (tk_status task) statusFilter) all), w)).
Proof.
  intros Hsh all.
  assert (Hall : forall l : list Task, List.filter (fun _ => true) l = l)
    by (intros l; apply forallb_filter_id; now apply forallb_forall).
  rewrite !(getTasks_run _ w sh Hsh). cbn [default strict_eq String.eqb orb].
  rewrite Hall. split; [reflexivity|]. split; [reflexivity|].
  intros Hf. rewrite Hf. cbn [orb]. now destruct statusFilter.
Qed.

(** X9.  An ID that no row below the header carries is ignored:
    [deleteTask] and [completeTask] return normally and change nothing.
    The header row is never a candidate. *)
Theorem unknown_id_is_ignored (taskId : jsval) (w : world) (sh : sheet) :
  sheets w !! SHEET_NAME = Some sh ->
  Forall (fun r => loose_eq (idCell r) taskId = false) (drop 1 sh) ->
  deleteTask taskId w = (Ok tt, w) /\ completeTask taskId w = (Ok tt, w).
Proof.
  intros Hsh Hno. split.
  - exact (deleteTask_absent taskId w sh Hsh Hno).
  - exact (completeTask_absent taskId w sh Hsh Hno).
Qed.

Lemma lastRowOf_ge_content (pre : list row) (r : row) (rest : list row) :
  contentWidth r <> 0 -> S (length pre) <= lastRowOf (pre ++ r :: rest).
Proof.
  intros Hr. induction pre as [|p pre IH]; simpl.
  - destruct (lastRowOf rest); [|lia]. destruct (contentWidth r); [congruence | simpl; lia].
  - destruct (lastRowOf (pre ++ r :: rest)); lia.
Qed.

Lemma contentWidth_insert (k : nat) (v : jsval) (r : row) :
  isBlank v = false -> k < length r -> contentWidth (<[k := v]> r) <> 0.
Proof.
  intros Hv. revert k. induction r as [|c r IH]; intros k Hk; simpl in Hk; [lia|].
  destruct k as [|k].
  - simpl. rewrite Hv. now destruct (contentWidth r).
  - specialize (IH k ltac:(lia)).
    change (<[S k := v]> (c :: r)) with (c :: <[k := v]> r). cbn [contentWidth].
    match goal with
    | |- match ?x with 0 => _ | S _ => _ end <> 0 =>
        assert (Hx : x <> 0) by exact IH; destruct x; [congruence | discriminate]
    end.
Qed.

Lemma completed_content (r : row) : contentWidth (completed r) <> 0.
Proof.
  apply contentWidth_insert; [reflexivity|]. rewrite length_app, length_replicate. lia.
Qed.

Lemma completed_idCell (r : row) : idCell (completed r) = idCell r.
Proof. now destruct r as [|c1 [|c2 [|c3 r]]]. Qed.

Lemma completed_completed (r : row) : completed (completed r) = completed r.
Proof.
  destruct r as [|c1 [|c2 [|c3 r]]]; try reflexivity.
  unfold completed. simpl. now rewrite !app_nil_r.
Qed.

Lemma completed_other_cells (r : row) (k : nat) :
  k <> 2 -> nth k (completed r) blank = nth k r blank.
Proof.
  intros Hk. destruct r as [|c1 [|c2 [|c3 r]]]; unfold completed; simpl;
    try rewrite app_nil_r; destruct k as [|[|[|k]]]; try reflexivity; try lia;
    now destruct k.
Qed.

(** X10.  [completeTask] changes one cell: the status of the first row
    with the given ID becomes "Completed", every other cell of that row and
    every other row stay as they are.  Completing the task a second time
    changes nothing. *)
Theorem completeTask_twice (taskId : jsval) (w : world) (hdr : row) (before : list row)
    (r : row) (after : list row) :
  let sh : sheet := hdr :: before ++ r :: after in
  sheets w !! SHEET_NAME = Some sh ->
  S (length before) < lastRowOf sh ->
  Forall (fun r' => loose_eq (idCell r') taskId = false) before ->
  loose_eq (idCell r) taskId = true ->
  exists (r' : row) (w' : world),
    completeTask taskId w = (Ok tt, w')
    /\ sheets w' !! SHEET_NAME = Some (hdr :: before ++ r' :: after)
    /\ nth 2 r' blank = JStr "Completed"
    /\ (forall k, k <> 2 -> nth k r' blank = nth k r blank)
    /\ completeTask taskId w' = (Ok tt, w').
Proof.
  intros sh Hsh Hin Hb Hr. exists (completed r).
  rewrite (completeTask_first taskId w hdr before r after Hsh Hin Hb Hr).
  eexists. split; [reflexivity|].
  split; [apply lookup_insert_eq|].
  split; [now destruct r as [|c1 [|c2 [|c3 r]]]|].
  split; [intros k Hk; now apply completed_other_cells|].
  rewrite (completeTask_first taskId _ hdr before (completed r) after).
  - rewrite set_sheets_twice, completed_completed. reflexivity.
  - apply lookup_insert_eq.
  - pose proof (lastRowOf_ge_content (hdr :: before) (completed r) after
                  (completed_content r)) as Hge.
    simpl length in Hge. exact Hge.
  - exact Hb.
  - now rewrite completed_idCell.
Qed.

Lemma addTask_cache (taskName priority dueDate notes : jsval) (w : world) :
  cache (snd (addTask taskName priority dueDate notes w)) = cache w.
Proof.
  destruct (sheets w !! SHEET_NAME) as [sh|] eqn:Hsh.
  - now rewrite (addTask_appends taskName priority dueDate notes w sh Hsh).
  - unfold addTask, bind, getSheetByName, alert, ret. now rewrite Hsh.
Qed.

(** X11.  Once [getAllTasks] has filled the cache, the functions of the
    simple variant do not clear it: after [addTask], [completeTask] or
    [deleteTask] the cached read still returns the list from before the
    change (in its JSON form), whatever the sheet now holds. *)
Theorem cached_list_outlives_changes (w w1 : world) (tasks : list Task) :
  cache w !! "all_tasks" = None ->
  getAllTasks true w = (Ok tasks, w1) ->
  getAllTasks true w1 = (Ok (map jsonTask tasks), w1)
  /\ (forall taskName priority dueDate notes,
      let w2 := snd (addTask taskName priority dueDate notes w1) in
      getAllTasks true w2 = (Ok (map jsonTask tasks), w2))
  /\ (forall taskId,
        let w2 := snd (completeTask taskId w1) in
        getAllTasks true w2 = (Ok (map jsonTask tasks), w2))
  /\ (forall taskId,
        let w2 := snd (deleteTask taskId w1) in
        getAllTasks true w2 = (Ok (map jsonTask tasks), w2)).
Proof.
  intros Hmiss Hrun.
  assert (Hc : cache w1 !! "all_tasks" = Some (map jsonTask tasks)).
  { revert Hrun. unfold getAllTasks, getTaskSheet, bind, cache_get, cache_put, getSheetByName,
      getValues, readSheet, ret, throw.
    rewrite Hmiss.
    destruct (sheets w !! CONFIG.SHEET_NAME) as [sh|] eqn:Hsh; [|discriminate].
    run_on Hsh. intros [= <- <-]. apply lookup_insert_eq. }
  split; [now apply getAllTasks_cached|].
  repeat split; intros; subst w2; apply getAllTasks_cached.
  - now rewrite addTask_cache.
  - now rewrite completeTask_cache.
  - now rewrite deleteTask_cache.
Qed.

Lemma chunkSizes_bounds (fuel i n : nat) :
  Forall (fun k => 1 <= k <= CONFIG.BATCH_SIZE) (chunkSizes fuel i n).
Proof.
  revert i. induction fuel as [|fuel IH]; intros i; cbn [chunkSizes]; [constructor|].
  destruct (i <? n) eqn:E; [|constructor].
  apply Nat.ltb_lt in E. constructor; [|apply IH]. unfold CONFIG.BATCH_SIZE. lia.
Qed.

Lemma chunkSizes_length (fuel i n : nat) :
  n - i <= fuel -> length (chunkSizes fuel i n) = (n - i + 99) / 100.
Proof.
  revert i. induction fuel as [|fuel IH]; intros i Hfuel; cbn [chunkSizes].
  - replace (n - i) with 0 by lia. reflexivity.
  - destruct (i <? n) eqn:E; [apply Nat.ltb_lt in E | apply Nat.ltb_ge in E].
    + cbn [length]. rewrite IH by (unfold CONFIG.BATCH_SIZE; lia). unfold CONFIG.BATCH_SIZE.
      destruct (Nat.le_gt_cases 100 (n - i)) as [Hbig | Hsmall].
      * replace (n - i + 99) with (n - (i + 100) + 99 + 1 * 100) by lia.
        rewrite Nat.div_add by lia. lia.
      * replace (n - (i + 100)) with 0 by lia.
        change ((0 + 99) / 100) with 0.
        apply (Nat.div_unique (n - i + 99) 100 1 (n - i - 1)); lia.
    + replace (n - i) with 0 by lia. reflexivity.
Qed.

(** X12.  The chunks [addTasksBatch] cuts the array into are the array,
    in order, in pieces of 1 to 100 tasks: put together they give the array
    back, none is empty or longer than [BATCH_SIZE], and there are
    ceil(length / 100) of them. *)
Theorem splitBatches_partition (tasks : list jsval) :
  concat (splitBatches tasks) = tasks
  /\ Forall (fun batch => 1 <= length batch <= CONFIG.BATCH_SIZE) (splitBatches tasks)
  /\ length (splitBatches tasks) = (length tasks + 99) / 100.
Proof.
  split; [apply splitBatches_concat|]. unfold splitBatches. split.
  - pose proof (chunkSizes_bounds (length tasks) 0 (length tasks)) as Hb.
    rewrite <- splitFrom_lengths in Hb. now apply Forall_map in Hb.
  - rewrite <- (length_map length), splitFrom_lengths, chunkSizes_length by lia.
    now rewrite Nat.sub_0_r.
Qed.

(** X13.  The first declaration of [addTask], given a title that is not
    blank and text for notes, tags and assignee, writes one record below
    the last row: the ID, the trimmed title, "Pending", the priority (or
    "Medium" when it is not one of the four options), the time of the call,
    the due date and the trimmed texts.  It returns the ID and clears the
    cached list. *)
Theorem addTask_133_stores (s : string) (priority dueDate : jsval)
    (notes tags assignee : string) (w : world) (sh : sheet) :
  sheets w !! CONFIG.SHEET_NAME = Some sh ->
  allWhitespace s = false ->
  let newId := JNum (Z.of_nat (if 1 <? lastRowOf sh then lastRowOf sh else 1)) in
  let wanted := default (JStr "Medium") priority in
  let stored := if includes CONFIG.PRIORITY_OPTIONS wanted then wanted else JStr "Medium" in
  let due := default (JStr "") dueDate in
  exists w',
    addTask_133 (JStr s) priority dueDate (JStr notes) (JStr tags) (JStr assignee) w
    = (Ok newId, w')
    /\ sheets w' !! CONFIG.SHEET_NAME
       = Some (writeRow (lastRowOf sh)
                 [newId; JStr (trim s); JStr "Pending"; cellValue stored; JDate (Some (clock w));
                  cellValue (if truthy due then JDate (dateValue due) else JStr "");
                  JStr (trim notes); JStr (trim tags); JStr (trim assignee)] sh)
    /\ getLastRow CONFIG.SHEET_NAME w' = (Ok (S (lastRowOf sh)), w')
    /\ cache w' !! "all_tasks" = None
    /\ alerts w' = alerts w /\ console w' = console w.
Proof.
  intros Hsh Hs newId wanted stored due.
  assert (Hne : String.eqb s "" = false).
  { destruct s; [discriminate Hs | reflexivity]. }
  assert (Htrim : String.eqb (trim s) "" = false).
  { apply String.eqb_neq. intros Ht. apply trim_empty_iff in Ht. congruence. }
  unfold addTask_133, buildTaskData, getTaskSheet, bind, lift, ret, throw, try_catch,
    getSheetByName, getLastRow, readSheet, Date_now, setValues, onSheet, clearTaskCache,
    cache_remove.
  cbn [truthy callTrim default strict_eq negb]. rewrite Hne, Htrim. cbn [negb].
  run_on Hsh.
  change (length CONFIG.HEADERS) with 9.
  rewrite validRange_true by lia. cbn [negb length Nat.eqb forallb andb]. run_on Hsh.
  eexists. split; [reflexivity|].
  cbn [sheets set_cache set_sheets cache alerts console].
  rewrite lookup_insert_eq, Nat.add_sub.
  split; [reflexivity|]. split; [|split; [apply lookup_delete_eq | now split]].
  do 2 f_equal. apply (lastRowOf_writeRow (_ :: _)). now apply contentWidth_cons.
Qed.

Lemma increment_same (k : string) (obj : gmap string count) (n : nat) :
  obj !! k = Some (Count n) -> increment k obj !! k = Some (Count (S n)).
Proof. intros Hn. unfold increment. rewrite Hn. apply lookup_insert_eq. Qed.

Lemma increment_other (k key : string) (obj : gmap string count) :
  k <> key -> increment key obj !! k = obj !! k.
Proof.
  intros Hne. unfold increment.
  destruct (obj !! key) as [[n|]|]; [now apply lookup_insert_ne | reflexivity |].
  destruct (String.eqb key "__proto__"); [reflexivity | now apply lookup_insert_ne].
Qed.

Lemma increment_NaN (k key : string) (obj : gmap string count) :
  obj !! k = Some NaN -> increment key obj !! k = Some NaN.
Proof.
  intros Hk. destruct (String.eqb_spec k key) as [<- | Hne].
  - unfold increment. now rewrite Hk.
  - now rewrite increment_other.
Qed.

Lemma foldl_increment (f : Task -> string) (k : string) (tasks : list Task)
    (obj : gmap string count) (n : nat) :
  obj !! k = Some (Count n) ->
  foldl (fun obj task => increment (f task) obj) obj tasks !! k
  = Some (Count (n + occurrences k (map f tasks))).
Proof.
  revert obj n. induction tasks as [|task tasks IH]; intros obj n Hn; simpl.
  - unfold occurrences. simpl. now rewrite Nat.add_0_r.
  - change (f task :: map f tasks) with ([f task] ++ map f tasks).
    rewrite occurrences_app, Nat.add_assoc. apply IH. unfold occurrences. simpl.
    destruct (String.eqb k (f task)) eqn:E; simpl.
    + apply String.eqb_eq in E. rewrite <- E, Nat.add_1_r. now apply increment_same.
    + apply String.eqb_neq in E. rewrite Nat.add_0_r, increment_other; assumption.
Qed.

Lemma foldl_increment_NaN (f : Task -> string) (k : string) (tasks : list Task)
    (obj : gmap string count) :
  obj !! k = Some NaN ->
  foldl (fun obj task => increment (f task) obj) obj tasks !! k = Some NaN.
Proof.
  revert obj. induction tasks as [|task tasks IH]; intros obj Hk; simpl; [exact Hk|].
  apply IH. now apply increment_NaN.
Qed.

Lemma foldl_increment_unknown (f : Task -> string) (k : string) (tasks : list Task)
    (obj : gmap string count) :
  obj !! k = None -> k <> "__proto__" -> In k (map f tasks) ->
  foldl (fun obj task => increment (f task) obj) obj tasks !! k = Some NaN.
Proof.
  intros Hk Hproto. revert obj Hk.
  induction tasks as [|task tasks IH]; intros obj Hk Hin; simpl in *; [contradiction|].
  destruct (String.eqb_spec k (f task)) as [E | Hne].
  - apply foldl_increment_NaN. rewrite <- E. unfold increment. rewrite Hk.
    apply String.eqb_neq in Hproto. rewrite Hproto. apply lookup_insert_eq.
  - apply IH; [now rewrite increment_other | destruct Hin; congruence].
Qed.

Lemma visit_counts (now : Z) (st st' : tallies) (task : Task) :
  visit now st task = Ok st' ->
  byStatus (analytics st') = increment (statusOf task) (byStatus (analytics st))
  /\ byPriority (analytics st') = increment (priorityOf task) (byPriority (analytics st))
  /\ overdue (analytics st')
     = overdue (analytics st) + (if isOverdue now task then 1 else 0)
  /\ total (analytics st') = total (analytics st)
  /\ topAssignees (analytics st')
     = foldl (fun obj k => bump k obj) (topAssignees (analytics st)) (assigneesOf task).
Proof.
  unfold visit, isOverdue, isCompleted, statusOf, priorityOf, assigneesOf.
  destruct (truthy (tk_tags task));
    [destruct (callSplit "task.tags" (tk_tags task)); [|discriminate]|];
    intros [= <-]; cbn [analytics byStatus byPriority overdue total topAssignees];
    (repeat split; [|now destruct (truthy (tk_assignee task))]);
    match goal with |- context [if ?b then S _ else _] => destruct b end; lia.
Qed.

Lemma forEachTask_counts (now : Z) (tasks : list Task) (st st' : tallies) :
  forEachTask now st tasks = Ok st' ->
  byStatus (analytics st')
  = foldl (fun obj task => increment (statusOf task) obj) (byStatus (analytics st)) tasks
  /\ byPriority (analytics st')
     = foldl (fun obj task => increment (priorityOf task) obj) (byPriority (analytics st)) tasks
  /\ overdue (analytics st')
     = overdue (analytics st) + length (List.filter (isOverdue now) tasks)
  /\ total (analytics st') = total (analytics st)
  /\ topAssignees (analytics st')
     = foldl (fun obj k => bump k obj) (topAssignees (analytics st))
         (concat (map assigneesOf tasks)).
Proof.
  revert st. induction tasks as [|task tasks IH]; intros st; simpl.
  - intros [= <-]. repeat split. lia.
  - destruct (visit now st task) as [st1|e] eqn:Hv; [|discriminate].
    intros Hrun. destruct (visit_counts now st st1 task Hv) as (Hs & Hp & Ho & Ht & Ha).
    destruct (IH st1 Hrun) as (Hs' & Hp' & Ho' & Ht' & Ha').
    rewrite Hs', Hp', Ho', Ht', Ha', Hs, Hp, Ho, Ht, Ha, foldl_app.
    repeat split. destruct (isOverdue now task); simpl; lia.
Qed.

Lemma analyse_counts (now : Z) (tasks : list Task) (a : Analytics) :
  analyse now tasks = Ok a ->
  byStatus a
  = foldl (fun obj task => increment (statusOf task) obj)
      (byStatus (analytics (tallies0 tasks))) tasks
  /\ byPriority a
     = foldl (fun obj task => increment (priorityOf task) obj)
         (byPriority (analytics (tallies0 tasks))) tasks
  /\ overdue a = length (List.filter (isOverdue now) tasks)
  /\ total a = length tasks
  /\ topAssignees a = foldl (fun obj k => bump k obj) ∅ (concat (map assigneesOf tasks)).
Proof.
  unfold analyse.
  destruct (forEachTask now (tallies0 tasks) tasks) as [st|e] eqn:Hrun; [|discriminate].
  intros [= <-]. destruct (forEachTask_counts now tasks _ st Hrun) as (Hs & Hp & Ho & Ht & Ha).
  unfold ratios. cbn [byStatus byPriority overdue total topAssignees].
  now rewrite Hs, Hp, Ho, Ht, Ha.
Qed.

Lemma status_counter_start (s : string) (tasks : list Task) :
  In s CONFIG.STATUS_OPTIONS -> byStatus (analytics (tallies0 tasks)) !! s = Some (Count 0).
Proof.
  intros Hin. simpl in Hin.
  destruct Hin as [<- | [<- | [<- | [<- | []]]]]; vm_compute; reflexivity.
Qed.

Lemma priority_counter_start (p : string) (tasks : list Task) :
  In p CONFIG.PRIORITY_OPTIONS -> byPriority (analytics (tallies0 tasks)) !! p = Some (Count 0).
Proof.
  intros Hin. simpl in Hin.
  destruct Hin as [<- | [<- | [<- | [<- | []]]]]; vm_compute; reflexivity.
Qed.

Lemma status_counter_unknown (s : string) (tasks : list Task) :
  ~ In s CONFIG.STATUS_OPTIONS -> byStatus (analytics (tallies0 tasks)) !! s = None.
Proof.
  intros Hin. cbn [tallies0 analytics byStatus CONFIG.STATUS_OPTIONS foldl].
  simpl in Hin.
  rewrite !lookup_insert_ne by (intros <-; apply Hin; tauto).
  apply lookup_empty.
Qed.

(** X14.  When every task has text (or no) tags, so that the analytics
    are returned, they count every task once: [total] is the number of
    tasks, [byStatus] and [byPriority] give, for each of the configured
    options, the number of tasks with that status or priority, [overdue] is
    the number of tasks that have a due date before now and are not
    Completed, and [topAssignees] maps an assignee (that is not the name of
    an inherited property) to the number of tasks assigned to it. *)
Theorem analytics_counts (w w' : world) (tasks : list Task) :
  getAllTasks true w = (Ok tasks, w') ->
  Forall (fun task => splittable (tk_tags task) = true) tasks ->
  exists a,
    getTaskAnalytics w = (Ok a, w')
    /\ total a = length tasks
    /\ (forall s, In s CONFIG.STATUS_OPTIONS ->
          byStatus a !! s = Some (Count (occurrences s (map statusOf tasks))))
    /\ (forall p, In p CONFIG.PRIORITY_OPTIONS ->
          byPriority a !! p = Some (Count (occurrences p (map priorityOf tasks))))
    /\ overdue a = length (List.filter (isOverdue (clock w')) tasks)
    /\ (forall k, isInherited k = false ->
          topAssignees a !! k = tallyOf (occurrences k (concat (map assigneesOf tasks)))).
Proof.
  intros Hget Hall. rewrite (getTaskAnalytics_analyse w w' tasks Hget).
  destruct (analyse_splittable (clock w') tasks Hall) as (a & Hrun & _).
  destruct (analyse_counts _ _ _ Hrun) as (Hs & Hp & Ho & Ht & Ha).
  exists a. rewrite Hrun. split; [reflexivity|]. split; [exact Ht|].
  split; [|split; [|split; [exact Ho|]]].
  - intros s Hin. rewrite Hs.
    now rewrite (foldl_increment statusOf s tasks _ 0 (status_counter_start s tasks Hin)).
  - intros p Hin. rewrite Hp.
    now rewrite (foldl_increment priorityOf p tasks _ 0 (priority_counter_start p tasks Hin)).
  - intros k Hk. rewrite Ha. now apply (foldl_bump k _ ∅ 0).
Qed.

Lemma foldl_increment_proto (f : Task -> string) (tasks : list Task)
    (obj : gmap string count) :
  obj !! "__proto__" = None ->
  foldl (fun obj task => increment (f task) obj) obj tasks !! "__proto__" = None.
Proof.
  revert obj. induction tasks as [|task tasks IH]; intros obj Hk; simpl; [exact Hk|].
  apply IH. destruct (String.eqb_spec "__proto__" (f task)) as [<- | Hne].
  - unfold increment. now rewrite Hk.
  - now rewrite increment_other.
Qed.

(** X15.  When every task has text (or no) tags, so that the analytics
    are returned, a status that is not one of the four configured options
    is not counted: [byStatus] gets the entry NaN for it, however many
    tasks have it.  The status "__proto__" is the one exception: no entry
    is made for it. *)
Theorem analytics_unknown_status (w w' : world) (tasks : list Task) (task : Task) :
  getAllTasks true w = (Ok tasks, w') ->
  Forall (fun task => splittable (tk_tags task) = true) tasks ->
  In task tasks ->
  ~ In (statusOf task) CONFIG.STATUS_OPTIONS ->
  exists a,
    getTaskAnalytics w = (Ok a, w')
    /\ byStatus a !! statusOf task
       = (if String.eqb (statusOf task) "__proto__" then None else Some NaN).
Proof.
  intros Hget Hall Hin Hno. rewrite (getTaskAnalytics_analyse w w' tasks Hget).
  destruct (analyse_splittable (clock w') tasks Hall) as (a & Hrun & _).
  destruct (analyse_counts _ _ _ Hrun) as (Hs & _).
  exists a. rewrite Hrun. split; [reflexivity|]. rewrite Hs.
  destruct (String.eqb_spec (statusOf task) "__proto__") as [E | Hproto].
  - rewrite E. apply foldl_increment_proto. apply status_counter_unknown. now rewrite <- E.
  - apply foldl_increment_unknown; [now apply status_counter_unknown | exact Hproto |].
    now apply in_map.
Qed.

Lemma visit_TypeError (now : Z) (st : tallies) (task : Task) :
  splittable (tk_tags task) = false -> exists msg, visit now st task = Throw (TypeError msg).
Proof.
  unfold splittable, visit. intros Hs. apply orb_false_elim in Hs as [Ht Hstr].
  apply negb_false_iff in Ht. rewrite Ht.
  destruct (tk_tags task); try discriminate Ht; try discriminate Hstr; simpl; eauto.
Qed.

Lemma visit_throws (now : Z) (st : tallies) (task : Task) (e : exn) :
  visit now st task = Throw e -> exists msg, e = TypeError msg.
Proof.
  unfold visit. destruct (truthy (tk_tags task)); [|discriminate].
  destruct (tk_tags task); simpl; try discriminate; intros [= <-]; eauto.
Qed.

Lemma forEachTask_TypeError (now : Z) (tasks : list Task) (st : tallies) :
  Exists (fun task => splittable (tk_tags task) = false) tasks ->
  exists msg, forEachTask now st tasks = Throw (TypeError msg).
Proof.
  intros Hex. revert st. induction tasks as [|task tasks IH]; intros st; [inversion Hex|].
  simpl. destruct (visit now st task) as [st1|e] eqn:Hv.
  - inversion Hex as [? ? Hbad | ? ? Hrest]; subst.
    + destruct (visit_TypeError now st task Hbad) as (msg & Hthrow). congruence.
    + apply IH, Hrest.
  - destruct (visit_throws _ _ _ _ Hv) as (msg & ->). eauto.
Qed.

(** X16.  One task whose tags cell holds something other than text or an
    empty value (a number, [true], a date) makes the whole analytics call
    fail with a TypeError; no analytics are returned. *)
Theorem analytics_rejects_other_tags (w w' : world) (tasks : list Task) :
  getAllTasks true w = (Ok tasks, w') ->
  Exists (fun task => splittable (tk_tags task) = false) tasks ->
  exists msg, getTaskAnalytics w = (Throw (TypeError msg), w').
Proof.
  intros Hget Hex. rewrite (getTaskAnalytics_analyse w w' tasks Hget). unfold analyse.
  destruct (forEachTask_TypeError (clock w') tasks (tallies0 tasks) Hex) as (msg & ->).
  eauto.
Qed.

Lemma strict_eq_text (v : jsval) (s : string) : strict_eq v (JStr s) = true -> v = JStr s.
Proof. destruct v; try discriminate. simpl. intros E. apply String.eqb_eq in E. now subst. Qed.

Lemma append_nil_r (s : string) : s +:+ "" = s.
Proof.
  induction s as [|c s IH]; [reflexivity|].
  change (String c (s +:+ "") = String c s). now f_equal.
Qed.

Lemma append_assoc (a b c : string) : (a +:+ b) +:+ c = a +:+ (b +:+ c).
Proof.
  induction a as [|x a IH]; [reflexivity|].
  change (String x ((a +:+ b) +:+ c) = String x (a +:+ (b +:+ c))). now f_equal.
Qed.

Lemma foldl_lines {A} (f : A -> string) (l : list A) (init : string) :
  foldl (fun message x => message +:+ f x) init l = init +:+ joined (map f l).
Proof.
  revert init. induction l as [|x l IH]; intros init; simpl.
  - now rewrite append_nil_r.
  - now rewrite IH, append_assoc.
Qed.

Lemma dueBy_spec (today : Z) (task : Task) :
  dueBy today task = true
  <-> truthy (tk_dueDate task) = true
      /\ exists t, dateValue (tk_dueDate task) = Some t /\ (t <= today)%Z.
Proof.
  unfold dueBy. destruct (dateValue (tk_dueDate task)) as [t|].
  - rewrite andb_true_iff, Z.leb_le. split.
    + intros [Ht Hle]. eauto.
    + intros (Ht & t' & [= <-] & Hle). now split.
  - split; [discriminate | intros (_ & t & Ht & _); discriminate].
Qed.

Lemma isDue_dueBy (today : Z) (task : Task) : isDue today task = dueBy today task.
Proof.
  unfold isDue, dueBy. destruct (dateValue (tk_dueDate task)); [reflexivity|].
  apply andb_false_r.
Qed.

(** X17.  [checkDueTasks] looks at the tasks whose status is "Pending"
    only, and of these at the ones that have a due date which is a valid
    date at or before the time of the call.  When there is none it does
    nothing at all; otherwise it writes one console message, which gives
    their number and then one line for each with its title and its due
    date, and changes nothing else: no dialog, no change to the sheet. *)
Theorem checkDueTasks_reports (w : world) :
  exists pending,
    getTasks (JStr "Pending") w = (Ok pending, w)
    /\ Forall (fun task => tk_status task = JStr "Pending") pending
    /\ let dueTasks := List.filter (dueBy (clock w)) pending in
       (forall task,
           In task dueTasks
           <-> In task pending
               /\ truthy (tk_dueDate task) = true
               /\ exists t, dateValue (tk_dueDate task) = Some t /\ (t <= clock w)%Z)
       /\ checkDueTasks w
          = (Ok tt, match dueTasks with [] => w | _ => logged (dueNotice dueTasks) w end).
Proof.
  destruct (getTasks_total (JStr "Pending") w) as (pending & Hf).
  exists pending. split; [exact Hf|]. split.
  - eapply Forall_impl; [exact (getTasks_statuses _ _ _ _ Hf eq_refl)|].
    intros task Hst. now apply strict_eq_text.
  - intros dueTasks. split.
    + intros task. subst dueTasks. rewrite filter_In, dueBy_spec. tauto.
    + unfold checkDueTasks, bind. rewrite Hf. cbv beta iota.
      rewrite (List.filter_ext (isDue (clock w)) (dueBy (clock w)) (isDue_dueBy (clock w))).
      fold dueTasks. destruct dueTasks as [|task rest] eqn:E; [reflexivity|].
      cbn [length Nat.ltb Nat.leb]. unfold consoleWrite, logged. do 3 f_equal.
      unfold dueNotice. f_equal.
      etransitivity;
        [exact (foldl_lines (fun task => "- " +:+ templateText (tk_task task) +:+ " (Due: "
                                         +:+ templateText (tk_dueDate task) +:+ ")" +:+ LF)
                  (task :: rest) _)|].
      now rewrite !append_assoc.
Qed.

Lemma summary_message (title : string) (tasks : list Task) :
  (if length tasks =? 0
   then (title +:+ " (" +:+ decimal (Z.of_nat (length tasks)) +:+ " total):" +:+ LF +:+ LF)
        +:+ "No tasks found."
   else foldl summaryLine
          (title +:+ " (" +:+ decimal (Z.of_nat (length tasks)) +:+ " total):" +:+ LF +:+ LF)
          tasks)
  = summaryText title tasks.
Proof.
  unfold summaryText. destruct tasks as [|task rest]; cbn [length Nat.eqb].
  - now rewrite !append_assoc.
  - etransitivity; [exact (foldl_lines taskLine (task :: rest) _)|].
    now rewrite !append_assoc.
Qed.

(** X18.  The three listings of the menu never fail and change neither
    the sheet nor the cache.  Each shows one dialog: its title, then the
    title again with the number of tasks listed, then one line per task
    with the ID, the title and the status of the task, in the order of the
    list, or "No tasks found." when the list is empty, as it always is
    before the sheet exists. *)
Theorem listings_only_show (w : world) :
  exists all pending done,
    getTasks JUndefined w = (Ok all, w)
    /\ getTasks (JStr "Pending") w = (Ok pending, w)
    /\ getTasks (JStr "Completed") w = (Ok done, w)
    /\ showAllTasks w
       = (Ok tt, alerted ("All Tasks" +:+ LF +:+ summaryText "All Tasks" all) w)
    /\ showPendingTasks w
       = (Ok tt, alerted ("Pending Tasks" +:+ LF +:+ summaryText "Pending Tasks" pending) w)
    /\ showCompletedTasks w
       = (Ok tt, alerted ("Completed Tasks" +:+ LF +:+ summaryText "Completed Tasks" done) w)
    /\ (sheets w !! SHEET_NAME = None -> all = [] /\ pending = [] /\ done = []).
Proof.
  assert (Hshow : forall (tasks : list Task) (title : string) (w0 : world),
             displayTaskSummary tasks title w0
             = (Ok tt, alerted (title +:+ LF +:+ summaryText title tasks) w0)).
  { intros tasks title w0. unfold displayTaskSummary, alertTitled, alert, alerted.
    now rewrite summary_message. }
  destruct (getTasks_total JUndefined w) as (all & Hall).
  destruct (getTasks_total (JStr "Pending") w) as (pending & Hpending).
  destruct (getTasks_total (JStr "Completed") w) as (done & Hdone).
  exists all, pending, done.
  split; [exact Hall|]. split; [exact Hpending|]. split; [exact Hdone|].
  split; [unfold showAllTasks, bind; rewrite Hall; apply Hshow|].
  split; [unfold showPendingTasks, bind; rewrite Hpending; apply Hshow|].
  split; [unfold showCompletedTasks, bind; rewrite Hdone; apply Hshow|].
  intros Hno. revert Hall Hpending Hdone.
  unfold getTasks, bind, getSheetByName, ret. rewrite Hno.
  intros [= <-] [= <-] [= <-]. now repeat split.
Qed.

Lemma addTask_run (taskName priority dueDate notes : jsval) (w : world) (sh : sheet) :
  sheets w !! SHEET_NAME = Some sh ->
  addTask taskName priority dueDate notes w
  = (Ok (JNum (Z.of_nat (if 1 <? lastRowOf sh then lastRowOf sh else 1))),
     set_sheets (insert SHEET_NAME
       (writeRow (lastRowOf sh)
          (simpleRow (lastRowOf sh) (clock w) taskName priority dueDate notes) sh)) w).
Proof. intros Hsh. exact (addTask_appends taskName priority dueDate notes w sh Hsh). Qed.

(** X19.  With the sheet in place [addSampleTasks] writes its four tasks
    below the last row, one after the other, and nothing else changes.
    Their IDs are the row counts before each write. *)
Theorem addSampleTasks_rows (w : world) (sh : sheet) :
  sheets w !! SHEET_NAME = Some sh ->
  exists w',
    addSampleTasks w = (Ok tt, w')
    /\ w' = set_sheets (insert SHEET_NAME
               (writeRows (lastRowOf sh) (sampleRows (lastRowOf sh) (clock w)) sh)) w
    /\ getLastRow SHEET_NAME w' = (Ok (lastRowOf sh + 4), w').
Proof.
  intros Hsh. unfold addSampleTasks, bind. cbv beta iota.
  rewrite (addTask_run _ _ _ _ w sh Hsh). cbv beta iota.
  set (r1 := simpleRow (lastRowOf sh) (clock w) _ _ _ _).
  assert (H1 : lastRowOf (writeRow (lastRowOf sh) r1 sh) = S (lastRowOf sh))
    by apply lastRowOf_writeRow, simpleRow_content.
  erewrite addTask_run by apply lookup_insert_eq. cbv beta iota.
  rewrite set_sheets_twice, H1. cbn [clock set_sheets].
  set (r2 := simpleRow (S (lastRowOf sh)) (clock w) _ _ _ _).
  set (sh1 := writeRow (lastRowOf sh) r1 sh) in *.
  assert (H2 : lastRowOf (writeRow (S (lastRowOf sh)) r2 sh1) = S (S (lastRowOf sh))).
  { rewrite <- H1 at 1. rewrite lastRowOf_writeRow by apply simpleRow_content. now rewrite H1. }
  erewrite addTask_run by apply lookup_insert_eq. cbv beta iota.
  rewrite set_sheets_twice, H2. cbn [clock set_sheets].
  set (r3 := simpleRow (S (S (lastRowOf sh))) (clock w) _ _ _ _).
  set (sh2 := writeRow (S (lastRowOf sh)) r2 sh1) in *.
  assert (H3 : lastRowOf (writeRow (S (S (lastRowOf sh))) r3 sh2) = S (S (S (lastRowOf sh)))).
  { rewrite <- H2 at 1. rewrite lastRowOf_writeRow by apply simpleRow_content. now rewrite H2. }
  erewrite addTask_run by apply lookup_insert_eq. cbv beta iota.
  rewrite set_sheets_twice, H3. cbn [clock set_sheets].
  set (r4 := simpleRow (S (S (S (lastRowOf sh)))) (clock w) _ _ _ _).
  set (sh3 := writeRow (S (S (lastRowOf sh))) r3 sh2) in *.
  assert (H4 : lastRowOf (writeRow (S (S (S (lastRowOf sh)))) r4 sh3)
               = S (S (S (S (lastRowOf sh))))).
  { rewrite <- H3 at 1. rewrite lastRowOf_writeRow by apply simpleRow_content. now rewrite H3. }
  eexists. split; [reflexivity|]. split.
  - unfold sampleRows. cbn [writeRows]. subst r1 r2 r3 r4 sh1 sh2 sh3.
    replace (lastRowOf sh + 1) with (S (lastRowOf sh)) by lia.
    replace (lastRowOf sh + 2) with (S (S (lastRowOf sh))) by lia.
    replace (lastRowOf sh + 3) with (S (S (S (lastRowOf sh)))) by lia.
    reflexivity.
  - unfold getLastRow, readSheet. cbn [sheets set_sheets]. rewrite lookup_insert_eq, H4.
    do 3 f_equal. lia.
Qed.

Lemma taskOfRow_padRow (width : nat) (r : row) :
  9 <= width -> taskOfRow (padRow width r) = listedTask r.
Proof. intros Hw. unfold taskOfRow, listedTask. now rewrite !at_padRow_lt by lia. Qed.

Lemma getAllTasks_all (w : world) (sh : sheet) :
  sheets w !! CONFIG.SHEET_NAME = Some sh -> 9 <= lastColumnOf sh ->
  getAllTasks false w = (Ok (map listedTask (drop 1 (take (lastRowOf sh) sh))), w).
Proof.
  intros Hsh Hw. unfold getAllTasks, getTaskSheet, bind, getSheetByName, getValues, readSheet, ret.
  run_on Hsh. rewrite dataValues_rows, map_map. do 2 f_equal.
  apply map_ext. intros r. now apply taskOfRow_padRow.
Qed.

Lemma getAllTasks_fresh (w : world) (sh : sheet) :
  sheets w !! CONFIG.SHEET_NAME = Some sh -> 9 <= lastColumnOf sh ->
  cache w !! "all_tasks" = None ->
  let tasks := map listedTask (drop 1 (take (lastRowOf sh) sh)) in
  getAllTasks true w = (Ok tasks, set_cache (insert "all_tasks" (map jsonTask tasks)) w).
Proof.
  intros Hsh Hw Hmiss tasks.
  pose proof (getAllTasks_all w sh Hsh Hw) as Hrun. revert Hrun.
  unfold getAllTasks, getTaskSheet, bind, getSheetByName, getValues, readSheet, ret,
    cache_get, cache_put.
  rewrite Hmiss. run_on Hsh. intros [= Hrun]. subst tasks. now rewrite Hrun.
Qed.

(** The rows listed after a row with content was written below the last
    one. *)
Lemma listed_after_writeRow (vals : row) (sh : sheet) :
  1 <= lastRowOf sh -> contentWidth vals <> 0 ->
  let sh' := writeRow (lastRowOf sh) vals sh in
  exists x,
    drop 1 (take (lastRowOf sh') sh') = drop 1 (take (lastRowOf sh) sh) ++ [vals ++ x]
    /\ lastColumnOf sh <= lastColumnOf sh'.
Proof.
  intros HL Hv sh'. subst sh'.
  destruct (writeRow_at_lastRow vals sh Hv) as (old & rest & Hwrite & Hold & Hrest).
  exists (drop (length vals) old). split.
  - rewrite lastRowOf_writeRow by exact Hv. rewrite Hwrite.
    rewrite firstn_app, firstn_firstn, length_take.
    pose proof (lastRowOf_le sh) as Hle.
    replace (S (lastRowOf sh) `min` lastRowOf sh) with (lastRowOf sh) by lia.
    replace (S (lastRowOf sh) - lastRowOf sh `min` length sh) with 1 by lia.
    cbn [take]. rewrite skipn_app, length_take.
    replace (1 - lastRowOf sh `min` length sh) with 0 by lia.
    now rewrite drop_0.
  - rewrite Hwrite, lastColumnOf_app, <- (lastColumnOf_take sh). lia.
Qed.

Lemma listed_after_writeRows (f : row -> Task) (rows : list row) (sh : sheet) :
  1 <= lastRowOf sh ->
  Forall (fun r => contentWidth r <> 0 /\ forall x, f (r ++ x) = f r) rows ->
  let sh' := writeRows (lastRowOf sh) rows sh in
  map f (drop 1 (take (lastRowOf sh') sh'))
  = map f (drop 1 (take (lastRowOf sh) sh)) ++ map f rows
  /\ lastColumnOf sh <= lastColumnOf sh'.
Proof.
  intros HL Hrows. revert sh HL.
  induction Hrows as [|r rows [Hr Hf] _ IH]; intros sh HL; cbn [writeRows map].
  - rewrite app_nil_r. split; [reflexivity | lia].
  - destruct (listed_after_writeRow r sh HL Hr) as (x & Hlist & Hcol).
    pose proof (lastRowOf_writeRow r sh Hr) as Hlast.
    specialize (IH (writeRow (lastRowOf sh) r sh) ltac:(lia)).
    rewrite Hlast in IH. cbv zeta in IH. destruct IH as [IH1 IH2].
    rewrite Hlast in Hlist. split; [|lia].
    rewrite IH1, Hlist, map_app. cbn [map]. rewrite Hf, <- app_assoc. reflexivity.
Qed.

(** X20.  Round trip of the advanced variant: after [addTasksBatch] has
    written up to 100 well-formed inputs to a sheet with the nine columns,
    the next cached read finds the cache empty, reads the sheet and lists
    the tasks from before followed by the new ones, in the order of the
    array: trimmed texts, status Pending, the priority or "Medium". *)
Theorem addTasksBatch_then_getAllTasks (tasks : list jsval) (w : world) (sh : sheet) :
  sheets w !! CONFIG.SHEET_NAME = Some sh ->
  9 <= lastColumnOf sh ->
  tasks <> [] ->
  length tasks <= 100 ->
  forallb wellFormed tasks = true ->
  exists listed w1 w2,
    getAllTasks false w = (Ok listed, w)
    /\ addTasksBatch (JArr tasks) w = (Ok (length tasks), w1)
    /\ getAllTasks true w1
       = (Ok (listed
              ++ map (fun task =>
                        listedTask (map cellValue (recordOf (lastRowOf sh) (clock w) task)))
                   tasks), w2).
Proof.
  intros Hsh Hw Hne Hlen Hwf.
  assert (HL : 1 <= lastRowOf sh) by (apply lastRowOf_pos; lia).
  destruct (addTasksBatch_single tasks w sh Hsh Hne Hlen Hwf) as (w1 & Hrun & Hsh1 & Hc1 & _).
  set (records := map (fun task => map cellValue (recordOf (lastRowOf sh) (clock w) task)) tasks)
    in *.
  assert (Hrows : Forall (fun r => contentWidth r <> 0
                                   /\ forall x, listedTask (r ++ x) = listedTask r) records).
  { subst records. apply Forall_map, List.Forall_forall. intros task Ht.
    rewrite forallb_forall in Hwf. specialize (Hwf task Ht).
    split; [apply recordOf_shape, Hwf|]. intros x. now destruct task. }
  destruct (listed_after_writeRows listedTask records sh HL Hrows) as [Hlist Hcol].
  exists (map listedTask (drop 1 (take (lastRowOf sh) sh))), w1. eexists.
  split; [now apply getAllTasks_all|]. split; [exact Hrun|].
  rewrite (getAllTasks_fresh w1 (writeRows (lastRowOf sh) records sh));
    [| rewrite Hsh1; apply lookup_insert_eq | lia | exact Hc1].
  cbv zeta. rewrite Hlist. subst records. now rewrite map_map.
Qed.

(** X21.  The two listings read the same rows: what [getTasks()] returns
    is what an uncached [getAllTasks] returns, in the same order, with the
    tags and the assignee left out. *)
Theorem getTasks_agrees_with_getAllTasks (w w' : world) (all : list Task) :
  getAllTasks false w = (Ok all, w') ->
  w' = w /\ getTasks JUndefined w = (Ok (map withoutTags all), w).
Proof.
  unfold getAllTasks, getTasks, getTaskSheet, SHEET_NAME, bind, getSheetByName, getValues,
    readSheet, ret, throw.
  destruct (sheets w !! CONFIG.SHEET_NAME) as [sh|] eqn:Hsh; [|discriminate].
  run_on Hsh. intros [= <- <-]. split; [reflexivity|].
  cbn [default strict_eq String.eqb orb].
  assert (Hall : forall l : list Task, List.filter (fun _ => true) l = l)
    by (intros l; apply forallb_filter_id; now apply forallb_forall).
  rewrite Hall, map_map. reflexivity.
Qed.

Lemma lastRowOf_replace (pre : list row) (r r' : row) (post : list row) :
  length pre < lastRowOf (pre ++ r :: post) -> contentWidth r' <> 0 ->
  lastRowOf (pre ++ r' :: post) = lastRowOf (pre ++ r :: post).
Proof.
  intros Hin Hr'. induction pre as [|p pre IH]; simpl in *.
  - destruct (lastRowOf post); [|reflexivity].
    destruct (contentWidth r) eqn:Er; [simpl in Hin; lia|].
    destruct (contentWidth r'); [congruence | reflexivity].
  - destruct (lastRowOf (pre ++ r :: post)) eqn:E.
    + destruct (contentWidth p =? 0); simpl in Hin; lia.
    + now rewrite IH by lia.
Qed.

Lemma contentWidth_cons_le (c : jsval) (a b : row) :
  contentWidth a <= contentWidth b -> contentWidth (c :: a) <= contentWidth (c :: b).
Proof. simpl. destruct (contentWidth a), (contentWidth b), (isBlank c); lia. Qed.

Lemma completed_wider (r : row) : contentWidth r <= contentWidth (completed r).
Proof.
  destruct r as [|c1 [|c2 [|c3 r]]]; unfold completed.
  - simpl. lia.
  - simpl. destruct (isBlank c1); lia.
  - simpl. destruct (isBlank c1), (isBlank c2); lia.
  - change (contentWidth (c1 :: c2 :: c3 :: r)
            <= contentWidth (c1 :: c2 :: JStr "Completed" :: (r ++ []))).
    rewrite app_nil_r. do 2 apply contentWidth_cons_le.
    simpl. destruct (contentWidth r), (isBlank c3); lia.
Qed.

(** X22.  Round trip of [completeTask]: the task with the given ID that
    [getTasks] listed first is listed as Completed afterwards, at the same
    place and with its other values as before; the rest of the list is the
    same. *)
Theorem completeTask_then_getTasks (taskId : jsval) (w : world) (hdr : row)
    (before : list row) (r : row) (after : list row) :
  let sh : sheet := hdr :: before ++ r :: after in
  sheets w !! SHEET_NAME = Some sh ->
  7 <= lastColumnOf sh ->
  S (length before) < lastRowOf sh ->
  Forall (fun r' => loose_eq (idCell r') taskId = false) before ->
  loose_eq (idCell r) taskId = true ->
  exists pre task post w',
    getTasks JUndefined w = (Ok (pre ++ task :: post), w)
    /\ Forall (fun t => loose_eq (tk_id t) taskId = false) pre
    /\ loose_eq (tk_id task) taskId = true
    /\ completeTask taskId w = (Ok tt, w')
    /\ getTasks JUndefined w'
       = (Ok (pre ++ withStatus (JStr "Completed") task :: post), w').
Proof.
  intros sh Hsh Hw Hin Hb Hr.
  pose proof (lastRowOf_replace (hdr :: before) r (completed r) after) as Hlast.
  cbn [length app] in Hlast. specialize (Hlast Hin (completed_content r)).
  assert (Hw' : 7 <= lastColumnOf (hdr :: before ++ completed r :: after)).
  { pose proof (completed_wider r) as Hwide.
    change (hdr :: before ++ completed r :: after)
      with ((hdr :: before) ++ [completed r] ++ after).
    change sh with ((hdr :: before) ++ [r] ++ after) in Hw.
    rewrite !lastColumnOf_app in *. unfold lastColumnOf at 2. unfold lastColumnOf at 2 in Hw.
    simpl in *. lia. }
  rewrite (getTasks_all w sh Hsh Hw).
  rewrite (completeTask_first taskId w hdr before r after Hsh Hin Hb Hr).
  pose proof (getTasks_all
                (set_sheets (insert SHEET_NAME (hdr :: before ++ completed r :: after)) w)
                (hdr :: before ++ completed r :: after)
                (lookup_insert_eq _ _ _) Hw') as Hafter.
  rewrite Hlast in Hafter. fold sh in Hafter.
  destruct (lastRowOf sh) as [|[|n]] eqn:EL; try lia.
  subst sh. cbn [take drop] in *. rewrite !drop_0 in *.
  rewrite !firstn_app in *.
  replace (S n - length before) with (S (n - length before)) in * by lia.
  cbn [take] in *. rewrite (take_ge before) in * by lia. rewrite !map_app in *.
  cbn [map] in *.
  exists (map (fun r0 => simpleTaskOfRow (padRow 7 r0)) before),
    (simpleTaskOfRow (padRow 7 r)),
    (map (fun r0 => simpleTaskOfRow (padRow 7 r0)) (take (n - length before) after)).
  eexists. split; [reflexivity|]. split; [|split; [|split; [reflexivity|]]].
  - apply Forall_map. eapply Forall_impl; [exact Hb|]. intros r0 Hr0.
    rewrite simpleTaskOfRow_padRow by lia. exact Hr0.
  - rewrite simpleTaskOfRow_padRow by lia. exact Hr.
  - etransitivity; [exact Hafter|].
    do 3 f_equal. rewrite !simpleTaskOfRow_padRow by lia.
    unfold withStatus. cbn.
    rewrite ?(completed_other_cells r 0), ?(completed_other_cells r 1),
      (completed_other_cells r 3), (completed_other_cells r 4),
      (completed_other_cells r 5), (completed_other_cells r 6) by lia.
    do 2 f_equal. now destruct r as [|c1 [|c2 [|c3 r]]].
Qed.

(** ** The chunks of a batch *)

Lemma processBatch_run (count totalAdded : nat) (batch : list jsval) (index : nat)
    (w : world) (sh : sheet) :
  sheets w !! CONFIG.SHEET_NAME = Some sh ->
  batch <> [] ->
  forallb wellFormed batch = true ->
  processBatch CONFIG.SHEET_NAME count totalAdded batch index w
  = (Ok (totalAdded + length batch),
     mkWorld (<[CONFIG.SHEET_NAME :=
                  writeRows (lastRowOf sh) (recordsOf (lastRowOf sh) (clock w) batch) sh]>
                (sheets w))
             (cache w) (if index <? count - 1 then (clock w + 100)%Z else clock w)
             (alerts w) (console w)).
Proof.
  intros Hsh Hne Hwf. unfold processBatch, try_catch.
  unfold bind at 1. rewrite (mapM_build_records batch w sh Hsh Hwf).
  unfold bind at 1. unfold getLastRow, readSheet. rewrite Hsh.
  unfold bind at 1. unfold setValues, onSheet. rewrite Hsh.
  change (length CONFIG.HEADERS) with 9.
  rewrite validRange_true, length_map, Nat.eqb_refl
    by (rewrite ?length_map; destruct batch; [contradiction | simpl; lia]).
  assert (Hcols : forallb (fun v : list jsval => length v =? 9)
                    (map (recordOf (lastRowOf sh) (clock w)) batch) = true).
  { apply forallb_forall. intros r Hr. apply in_map_iff in Hr as (t & <- & Ht).
    rewrite forallb_forall in Hwf. now rewrite (proj1 (recordOf_shape _ _ t (Hwf t Ht))). }
  rewrite Hcols. cbn [negb]. rewrite Nat.add_sub, map_map. unfold bind, ret, recordsOf.
  destruct (index <? count - 1); reflexivity.
Qed.

Lemma recordsOf_content (lastRow : nat) (now : Z) (batch : list jsval) :
  forallb wellFormed batch = true ->
  Forall (fun r => contentWidth r <> 0) (recordsOf lastRow now batch).
Proof.
  intros Hwf. unfold recordsOf. apply Forall_map, List.Forall_forall. intros task Ht.
  rewrite forallb_forall in Hwf. apply recordOf_shape, Hwf, Ht.
Qed.

Lemma recordsOf_length (lastRow : nat) (now : Z) (batch : list jsval) :
  length (recordsOf lastRow now batch) = length batch.
Proof. unfold recordsOf. apply length_map. Qed.

Lemma lastRowOf_block (rows : list row) (sh : sheet) (last : nat) :
  lastRowOf sh = last ->
  Forall (fun r => contentWidth r <> 0) rows ->
  lastRowOf (writeRows last rows sh) = last + length rows.
Proof. intros <-. apply lastRowOf_writeRows. Qed.

Lemma splitFrom_S (fuel i : nat) (tasks : list jsval) :
  splitFrom (S fuel) i tasks
  = if i <? length tasks
    then take CONFIG.BATCH_SIZE (drop i tasks) :: splitFrom fuel (i + CONFIG.BATCH_SIZE) tasks
    else [].
Proof. reflexivity. Qed.

Lemma splitBatches_250 (tasks : list jsval) :
  length tasks = 250 ->
  splitBatches tasks = [take 100 tasks; take 100 (drop 100 tasks); drop 200 tasks].
Proof.
  intros Hlen. unfold splitBatches. rewrite Hlen.
  change 250 with (4 + 246). cbn [Nat.add].
  do 4 rewrite splitFrom_S. rewrite Hlen. unfold CONFIG.BATCH_SIZE. cbn [Nat.add].
  change (0 <? 250) with true. change (100 <? 250) with true.
  change (200 <? 250) with true. change (300 <? 250) with false.
  cbv iota. rewrite drop_0. do 2 f_equal. f_equal.
  apply take_ge. rewrite length_drop. lia.
Qed.

(** C5.  An array of 250 task inputs is cut into three chunks, of 100,
    100 and 50 inputs in this order.  When every input is well formed, so
    that no chunk fails, [addTasksBatch] writes the records of the first
    100 inputs below the last row, pauses, writes those of the next 100
    below them, pauses, and writes those of the last 50; it returns 250,
    the sheet has 250 more rows with content, and the cached list is
    removed. *)
Theorem batch_of_250 (tasks : list jsval) (w : world) (sh : sheet) :
  length tasks = 250 ->
  map length (splitBatches tasks) = [100; 100; 50]
  /\ (sheets w !! CONFIG.SHEET_NAME = Some sh ->
      forallb wellFormed tasks = true ->
      let last := lastRowOf sh in
      let now := clock w in
      let sh1 := writeRows last (recordsOf last now (take 100 tasks)) sh in
      let sh2 := writeRows (last + 100)
                   (recordsOf (last + 100) (now + 100)%Z (take 100 (drop 100 tasks))) sh1 in
      let sh3 := writeRows (last + 200)
                   (recordsOf (last + 200) (now + 200)%Z (drop 200 tasks)) sh2 in
      addTasksBatch (JArr tasks) w
      = (Ok 250,
         mkWorld (<[CONFIG.SHEET_NAME := sh3]> (sheets w)) (delete "all_tasks" (cache w))
                 (now + 200)%Z (alerts w) (console w))
      /\ lastRowOf sh3 = last + 250).
Proof.
  intros Hlen. split.
  - unfold splitBatches. rewrite splitFrom_lengths, Hlen. reflexivity.
  - intros Hsh Hwf last now sh1 sh2 sh3.
    apply forallb_Forall in Hwf.
    assert (Hwf1 : forallb wellFormed (take 100 tasks) = true)
      by now apply forallb_Forall, Forall_take.
    assert (Hwf2 : forallb wellFormed (take 100 (drop 100 tasks)) = true)
      by now apply forallb_Forall, Forall_take, Forall_drop.
    assert (Hwf3 : forallb wellFormed (drop 200 tasks) = true)
      by now apply forallb_Forall, Forall_drop.
    assert (Hl1 : length (take 100 tasks) = 100) by (rewrite length_take; lia).
    assert (Hl2 : length (take 100 (drop 100 tasks)) = 100)
      by (rewrite length_take, length_drop; lia).
    assert (Hl3 : length (drop 200 tasks) = 50) by (rewrite length_drop; lia).
    assert (Hlast1 : lastRowOf sh1 = last + 100).
    { subst sh1. rewrite lastRowOf_block, recordsOf_length, Hl1;
        [reflexivity | reflexivity | now apply recordsOf_content]. }
    assert (Hlast2 : lastRowOf sh2 = last + 200).
    { subst sh2. rewrite lastRowOf_block, recordsOf_length, Hl2;
        [lia | exact Hlast1 | now apply recordsOf_content]. }
    assert (Hlast3 : lastRowOf sh3 = last + 250).
    { subst sh3. rewrite lastRowOf_block, recordsOf_length, Hl3;
        [lia | exact Hlast2 | now apply recordsOf_content]. }
    split; [|exact Hlast3].
    unfold addTasksBatch. rewrite Hlen. cbn [Nat.eqb].
    unfold bind at 1. unfold getTaskSheet, bind at 1. unfold getSheetByName, ret.
    rewrite Hsh, (splitBatches_250 tasks Hlen). cbn [forEachBatch length].
    unfold bind at 1. unfold bind at 1.
    rewrite (processBatch_run 3 0 (take 100 tasks) 0 w sh Hsh)
      by (try exact Hwf1; intros E; rewrite E in Hl1; discriminate Hl1).
    change (0 <? 3 - 1) with true. cbv beta iota. fold last now sh1.
    unfold bind at 1.
    rewrite (processBatch_run 3 _ (take 100 (drop 100 tasks)) 1 _ sh1)
      by (try exact Hwf2; try apply lookup_insert_eq;
          intros E; rewrite E in Hl2; discriminate Hl2).
    change (1 <? 3 - 1) with true. cbv beta iota. cbn [sheets cache clock alerts console].
    rewrite Hlast1, insert_insert_eq. fold sh2.
    unfold bind at 1.
    rewrite (processBatch_run 3 _ (drop 200 tasks) 2 _ sh2)
      by (try exact Hwf3; try apply lookup_insert_eq;
          intros E; rewrite E in Hl3; discriminate Hl3).
    change (2 <? 3 - 1) with false. cbv beta iota. cbn [sheets cache clock alerts console].
    rewrite Hlast2, insert_insert_eq.
    replace (now + 100 + 100)%Z with (now + 200)%Z by lia. fold sh3.
    unfold bind, ret, clearTaskCache, cache_remove, set_cache.
    cbn [sheets cache clock alerts console]. rewrite Hl1, Hl2, Hl3. reflexivity.
Qed.

End Coverage.

(** * The theorems on concrete stores *)

Section OnPlainHost.
#[local] Existing Instance plainHost.

Lemma first_match_only_witness :
  let hdr := map JStr CONFIG.HEADERS in
  let r1 := rowOf 1 "first" "Pending" "" in
  let r2 := rowOf 1 "second" "Pending" "" in
  (sheets duplicated !! SHEET_NAME = Some (hdr :: [] ++ r1 :: [r2] : sheet)
   /\ 1 < lastRowOf (hdr :: [] ++ r1 :: [r2])
   /\ loose_eq (idCell r1) (JNum 1) = true
   /\ loose_eq (idCell r2) (JNum 1) = true)
  /\ deleteTask (JNum 1) duplicated
     = (Ok tt, set_sheets (insert SHEET_NAME (hdr :: [] ++ [r2])) duplicated)
  /\ completeTask (JNum 1) duplicated
     = (Ok tt, set_sheets (insert SHEET_NAME (hdr :: [] ++ completed r1 :: [r2])) duplicated).
Proof.
  intros hdr r1 r2.
  assert (Hsh : sheets duplicated !! SHEET_NAME = Some (hdr :: [] ++ r1 :: [r2] : sheet))
    by reflexivity.
  assert (Hin : 1 < lastRowOf (hdr :: [] ++ r1 :: [r2])) by (vm_compute; lia).
  assert (Hr : loose_eq (idCell r1) (JNum 1) = true) by reflexivity.
  assert (Hb : Forall (fun r' => loose_eq (idCell r') (JNum 1) = false) (@nil row))
    by constructor.
  split; [repeat split; assumption|].
  exact (first_match_only (JNum 1) duplicated hdr [] r1 [r2] Hsh Hin Hb Hr).
Defined.

(** C3 as it is stated fails on a store with two rows of the same ID,
    which [addTasksBatch] produces: after [deleteTask(1)] the list still
    has a task with the ID 1, and [completeTask(1)] then changes the store. *)
Lemma delete_leaves_a_copy :
  taskIds (snd (addTasksBatch (JArr [input "first"; input "second"]) headerOnly))
  = taskIds duplicated
  /\ (let '(deleted, w1) := deleteTask (JNum 1) duplicated in
      let '(listed, _) := getTasks JUndefined w1 in
      let '(done, w2) := completeTask (JNum 1) w1 in
      deleted = Ok tt
      /\ (exists tasks, listed = Ok tasks /\ map tk_id tasks = [JNum 1])
      /\ done = Ok tt
      /\ map (fun r => at_ r 2) (taskRows w1) = [JStr "Pending"]
      /\ map (fun r => at_ r 2) (taskRows w2) = [JStr "Completed"]).
Proof.
  split; [vm_compute; reflexivity|].
  vm_compute. repeat split. eexists. split; reflexivity.
Qed.

Lemma delete_then_list_then_complete_witness :
  let hdr := map JStr CONFIG.HEADERS in
  let r1 := rowOf 1 "first" "Pending" "" in
  let r2 := rowOf 2 "second" "Pending" "" in
  (sheets distinct !! SHEET_NAME = Some (hdr :: [] ++ r1 :: [r2] : sheet)
   /\ 1 < lastRowOf (hdr :: [] ++ r1 :: [r2])
   /\ loose_eq (idCell r1) (JNum 1) = true
   /\ loose_eq (idCell r2) (JNum 1) = false)
  /\ exists w1,
       deleteTask (JNum 1) distinct = (Ok tt, w1)
       /\ (exists tasks, getTasks JUndefined w1 = (Ok tasks, w1)
                         /\ Forall (fun t => loose_eq (tk_id t) (JNum 1) = false) tasks)
       /\ completeTask (JNum 1) w1 = (Ok tt, w1).
Proof.
  intros hdr r1 r2.
  assert (Hsh : sheets distinct !! SHEET_NAME = Some (hdr :: [] ++ r1 :: [r2] : sheet))
    by reflexivity.
  assert (Hin : 1 < lastRowOf (hdr :: [] ++ r1 :: [r2])) by (vm_compute; lia).
  assert (Hr1 : loose_eq (idCell r1) (JNum 1) = true) by reflexivity.
  assert (Hr2 : loose_eq (idCell r2) (JNum 1) = false) by reflexivity.
  assert (Hb : Forall (fun r' => loose_eq (idCell r') (JNum 1) = false) (@nil row))
    by constructor.
  assert (Ha : Forall (fun r' => loose_eq (idCell r') (JNum 1) = false) [r2])
    by (constructor; [exact Hr2 | constructor]).
  split; [repeat split; assumption|].
  exact (delete_then_list_then_complete (JNum 1) JUndefined distinct hdr [] r1 [r2]
           Hsh Hin Hb Hr1 Ha).
Defined.

Lemma getTasks_without_sheet_witness :
  sheets noSheet !! SHEET_NAME = None
  /\ getTasks (JStr "Pending") noSheet = (Ok [], noSheet)
  /\ forall hdr : row,
       let w' := set_sheets (insert SHEET_NAME [hdr]) noSheet in
       getTasks (JStr "Pending") w' = (Ok [], w').
Proof.
  split; [reflexivity|].
  exact (getTasks_without_sheet (JStr "Pending") noSheet eq_refl).
Defined.

Lemma addTasksBatch_invalid_input_witness :
  (isArray (JStr "not a list") = false
   /\ addTasksBatch (JStr "not a list") headerOnly
      = (Throw (Error "Invalid tasks array provided"), headerOnly))
  /\ addTasksBatch (JArr []) headerOnly
     = (Throw (Error "Invalid tasks array provided"), headerOnly).
Proof.
  split; [split; [reflexivity|]|].
  - exact (addTasksBatch_invalid_input (JStr "not a list") headerOnly (or_intror eq_refl)).
  - exact (addTasksBatch_invalid_input (JArr []) headerOnly (or_introl eq_refl)).
Defined.

Lemma batch_of_250_witness :
  let tasks := replicate 250 (input "task") in
  let hdr := map JStr CONFIG.HEADERS in
  (length tasks = 250
   /\ sheets headerOnly !! CONFIG.SHEET_NAME = Some ([hdr] : sheet)
   /\ forallb wellFormed tasks = true)
  /\ map length (splitBatches tasks) = [100; 100; 50]
  /\ (let now := clock headerOnly in
      let sh1 := writeRows 1 (recordsOf 1 now (take 100 tasks)) [hdr] in
      let sh2 := writeRows 101 (recordsOf 101 (now + 100) (take 100 (drop 100 tasks))) sh1 in
      let sh3 := writeRows 201 (recordsOf 201 (now + 200) (drop 200 tasks)) sh2 in
      addTasksBatch (JArr tasks) headerOnly
      = (Ok 250,
         mkWorld (<[CONFIG.SHEET_NAME := sh3]> (sheets headerOnly))
                 (delete "all_tasks" (cache headerOnly)) (now + 200) (alerts headerOnly)
                 (console headerOnly))
      /\ lastRowOf sh3 = 251).
Proof.
  intros tasks hdr.
  assert (Hlen : length tasks = 250) by (vm_compute; reflexivity).
  assert (Hsh : sheets headerOnly !! CONFIG.SHEET_NAME = Some ([hdr] : sheet)) by reflexivity.
  assert (Hwf : forallb wellFormed tasks = true) by (vm_compute; reflexivity).
  split; [repeat split; assumption|].
  destruct (batch_of_250 tasks headerOnly [hdr] Hlen) as [Hsizes Hrun].
  split; [exact Hsizes | exact (Hrun Hsh Hwf)].
Defined.

Lemma completion_rate_witness :
  let tasks := map taskOfRow (drop 1 (dataValues (map JStr CONFIG.HEADERS :: taskRows quartet))) in
  let w' := set_cache (insert "all_tasks" (map jsonTask tasks)) quartet in
  (getAllTasks true quartet = (Ok tasks, w')
   /\ length tasks = 4
   /\ completedCount tasks = 1
   /\ Forall (fun task => splittable (tk_tags task) = true) tasks)
  /\ exists a, getTaskAnalytics quartet = (Ok a, w') /\ completionRate a = JStr "25.00".
Proof.
  intros tasks w'.
  assert (Hget : getAllTasks true quartet = (Ok tasks, w')) by reflexivity.
  assert (Hlen : length tasks = 4) by reflexivity.
  assert (Hdone : completedCount tasks = 1) by reflexivity.
  assert (Hall : Forall (fun task => splittable (tk_tags task) = true) tasks)
    by (repeat constructor).
  split; [repeat split; assumption|].
  exact (proj2 (completion_rate quartet w' tasks Hget) Hlen Hdone Hall).
Defined.

Lemma tag_distribution_witness :
  let tasks := map taskOfRow (drop 1 (dataValues (map JStr CONFIG.HEADERS :: taskRows tagged))) in
  let w' := set_cache (insert "all_tasks" (map jsonTask tasks)) tagged in
  (getAllTasks true tagged = (Ok tasks, w')
   /\ Forall (fun task => splittable (tk_tags task) = true) tasks)
  /\ exists a,
       getTaskAnalytics tagged = (Ok a, w')
       /\ tagDistribution a = {[ "a" := Num 1; "b" := Num 2; "c" := Num 1 ]}.
Proof.
  intros tasks w'.
  assert (Hget : getAllTasks true tagged = (Ok tasks, w')) by reflexivity.
  assert (Hall : Forall (fun task => splittable (tk_tags task) = true) tasks)
    by (repeat constructor).
  split; [repeat split; assumption|].
  destruct (tag_distribution tagged w' tasks Hget Hall) as (a & Hrun & _ & Hex).
  exists a. split; [exact Hrun|].
  exact (Hex _ _ eq_refl eq_refl eq_refl).
Defined.

Lemma addTask_twice_witness :
  sheets headerOnly !! SHEET_NAME = Some ([map JStr CONFIG.HEADERS] : sheet)
  /\ exists w1 w2,
       addTask (JStr "first") JUndefined JUndefined JUndefined headerOnly = (Ok (JNum 1), w1)
       /\ addTask (JStr "second") JUndefined JUndefined JUndefined w1 = (Ok (JNum 2), w2)
       /\ getLastRow SHEET_NAME w2 = (Ok 3, w2).
Proof.
  assert (Hsh : sheets headerOnly !! SHEET_NAME = Some ([map JStr CONFIG.HEADERS] : sheet))
    by reflexivity.
  split; [exact Hsh|].
  destruct (addTask_twice (JStr "first") JUndefined JUndefined JUndefined
              (JStr "second") JUndefined JUndefined JUndefined headerOnly _ Hsh)
    as (w1 & w2 & H1 & H2 & H3 & _).
  exists w1, w2. split; [exact H1|]. split; [exact H2 | exact H3].
Defined.

Lemma addTask_then_getTasks_witness :
  let hdr := map JStr CONFIG.HEADERS in
  (sheets headerOnly !! SHEET_NAME = Some ([hdr] : sheet) /\ 7 <= lastColumnOf [hdr])
  /\ exists listed id w',
       getTasks JUndefined headerOnly = (Ok listed, headerOnly)
       /\ addTask (JStr "first") (JStr "High") JUndefined JUndefined headerOnly = (Ok id, w')
       /\ getTasks JUndefined w'
          = (Ok (listed ++ [mkTask id (JStr "first") (JStr "Pending") (JStr "High")
                              (JDate (Some (clock headerOnly))) (JStr "") (JStr "")
                              JUndefined JUndefined]), w').
Proof.
  intros hdr.
  assert (Hsh : sheets headerOnly !! SHEET_NAME = Some ([hdr] : sheet)) by reflexivity.
  assert (Hw : 7 <= lastColumnOf [hdr]) by (vm_compute; lia).
  split; [now split|].
  exact (addTask_then_getTasks (JStr "first") (JStr "High") JUndefined JUndefined
           headerOnly [hdr] Hsh Hw).
Defined.

Lemma addTasksBatch_rows_witness :
  let tasks := [input "first"; JStr "not a task"; input "second"] in
  (sheets headerOnly !! CONFIG.SHEET_NAME = Some ([map JStr CONFIG.HEADERS] : sheet)
   /\ tasks <> [])
  /\ exists w',
       addTasksBatch (JArr tasks) headerOnly = (Ok 0, w')
       /\ getLastRow CONFIG.SHEET_NAME w' = (Ok 1, w').
Proof.
  intros tasks.
  assert (Hsh : sheets headerOnly !! CONFIG.SHEET_NAME
                = Some ([map JStr CONFIG.HEADERS] : sheet)) by reflexivity.
  assert (Hne : tasks <> []) by discriminate.
  split; [now split|].
  destruct (addTasksBatch_rows tasks headerOnly _ Hsh Hne) as (w' & Hrun & Hlast & _).
  exists w'. split; [exact Hrun | exact Hlast].
Defined.

Lemma addTasksBatch_then_getAllTasks_witness :
  let hdr := map JStr CONFIG.HEADERS in
  let tasks := [input "first"; input "second"] in
  (sheets headerOnly !! CONFIG.SHEET_NAME = Some ([hdr] : sheet)
   /\ 9 <= lastColumnOf [hdr]
   /\ tasks <> []
   /\ length tasks <= 100
   /\ forallb wellFormed tasks = true)
  /\ exists listed w1 w2,
       getAllTasks false headerOnly = (Ok listed, headerOnly)
       /\ addTasksBatch (JArr tasks) headerOnly = (Ok 2, w1)
       /\ getAllTasks true w1
          = (Ok (listed
                 ++ map (fun task =>
                           listedTask (map cellValue (recordOf 1 (clock headerOnly) task)))
                      tasks), w2).
Proof.
  intros hdr tasks.
  assert (Hsh : sheets headerOnly !! CONFIG.SHEET_NAME = Some ([hdr] : sheet)) by reflexivity.
  assert (Hw : 9 <= lastColumnOf [hdr]) by (vm_compute; lia).
  assert (Hne : tasks <> []) by discriminate.
  assert (Hlen : length tasks <= 100) by (simpl; lia).
  assert (Hwf : forallb wellFormed tasks = true) by reflexivity.
  split; [repeat split; assumption|].
  exact (addTasksBatch_then_getAllTasks tasks headerOnly [hdr] Hsh Hw Hne Hlen Hwf).
Defined.

Lemma advanced_without_sheet_witness :
  sheets noSheet !! CONFIG.SHEET_NAME = None
  /\ addTasksBatch (JArr [input "first"]) noSheet
     = (Throw (Error "Task sheet not found. Please initialize the Task Manager first."),
        noSheet)
  /\ getAllTasks false noSheet
     = (Throw (Error "Task sheet not found. Please initialize the Task Manager first."),
        noSheet).
Proof.
  split; [reflexivity|].
  destruct (advanced_without_sheet noSheet eq_refl) as (_ & Hbatch & Hall & _).
  split; [apply Hbatch; discriminate | exact Hall].
Defined.

Lemma simple_without_sheet_witness :
  sheets noSheet !! SHEET_NAME = None
  /\ completeTask (JNum 1) noSheet
     = (Ok tt, alerted "Please initialize the Task Manager first!" noSheet)
  /\ deleteTask (JNum 1) noSheet
     = (Ok tt, alerted "Please initialize the Task Manager first!" noSheet).
Proof.
  split; [reflexivity|].
  destruct (simple_without_sheet noSheet eq_refl) as (_ & Hcomplete & Hdelete).
  split; [exact (Hcomplete (JNum 1)) | exact (Hdelete (JNum 1))].
Defined.

Lemma getTasks_filters_witness :
  let sh : sheet :=
    [map JStr CONFIG.HEADERS; rowOf 1 "plan" "Pending" ""; rowOf 2 "draft" "Completed" "";
     rowOf 3 "review" "In Progress" ""; rowOf 4 "ship" "Blocked" ""] in
  let all := map (taskRead (lastColumnOf sh)) (contentRows sh) in
  sheets quartet !! SHEET_NAME = Some sh
  /\ getTasks JUndefined quartet = (Ok all, quartet)
  /\ getTasks (JStr "Completed") quartet
     = (Ok (List.filter (fun task => strict_eq (tk_status task) (JStr "Completed")) all),
        quartet)
  /\ map tk_id (List.filter (fun task => strict_eq (tk_status task) (JStr "Completed")) all)
     = [JNum 2].
Proof.
  intros sh all.
  assert (Hsh : sheets quartet !! SHEET_NAME = Some sh) by reflexivity.
  split; [exact Hsh|].
  destruct (getTasks_filters (JStr "Completed") quartet sh Hsh) as (Hall & _ & Hfilter).
  split; [exact Hall|]. split; [exact (Hfilter eq_refl) | reflexivity].
Defined.

Lemma unknown_id_is_ignored_witness :
  let sh : sheet :=
    [map JStr CONFIG.HEADERS; rowOf 1 "first" "Pending" ""; rowOf 2 "second" "Pending" ""] in
  (sheets distinct !! SHEET_NAME = Some sh
   /\ Forall (fun r => loose_eq (idCell r) (JNum 7) = false) (drop 1 sh))
  /\ deleteTask (JNum 7) distinct = (Ok tt, distinct)
  /\ completeTask (JNum 7) distinct = (Ok tt, distinct).
Proof.
  intros sh.
  assert (Hsh : sheets distinct !! SHEET_NAME = Some sh) by reflexivity.
  assert (Hno : Forall (fun r => loose_eq (idCell r) (JNum 7) = false) (drop 1 sh))
    by (repeat constructor).
  split; [now split|].
  exact (unknown_id_is_ignored (JNum 7) distinct sh Hsh Hno).
Defined.

Lemma completeTask_twice_witness :
  let hdr := map JStr CONFIG.HEADERS in
  let r1 := rowOf 1 "first" "Pending" "" in
  let r2 := rowOf 2 "second" "Pending" "" in
  (sheets distinct !! SHEET_NAME = Some (hdr :: [r1] ++ r2 :: [] : sheet)
   /\ 2 < lastRowOf (hdr :: [r1] ++ r2 :: [])
   /\ loose_eq (idCell r1) (JNum 2) = false
   /\ loose_eq (idCell r2) (JNum 2) = true)
  /\ exists (r' : row) (w' : world),
       completeTask (JNum 2) distinct = (Ok tt, w')
       /\ sheets w' !! SHEET_NAME = Some (hdr :: [r1] ++ r' :: [])
       /\ nth 2 r' blank = JStr "Completed"
       /\ (forall k, k <> 2 -> nth k r' blank = nth k r2 blank)
       /\ completeTask (JNum 2) w' = (Ok tt, w').
Proof.
  intros hdr r1 r2.
  assert (Hsh : sheets distinct !! SHEET_NAME = Some (hdr :: [r1] ++ r2 :: [] : sheet))
    by reflexivity.
  assert (Hin : 2 < lastRowOf (hdr :: [r1] ++ r2 :: [])) by (vm_compute; lia).
  assert (Hr1 : loose_eq (idCell r1) (JNum 2) = false) by reflexivity.
  assert (Hr2 : loose_eq (idCell r2) (JNum 2) = true) by reflexivity.
  assert (Hb : Forall (fun r' => loose_eq (idCell r') (JNum 2) = false) [r1])
    by (constructor; [exact Hr1 | constructor]).
  split; [repeat split; assumption|].
  exact (completeTask_twice (JNum 2) distinct hdr [r1] r2 [] Hsh Hin Hb Hr2).
Defined.

Lemma completeTask_then_getTasks_witness :
  let hdr := map JStr CONFIG.HEADERS in
  let r1 := rowOf 1 "first" "Pending" "" in
  let r2 := rowOf 2 "second" "Pending" "" in
  (sheets distinct !! SHEET_NAME = Some (hdr :: [r1] ++ r2 :: [] : sheet)
   /\ 7 <= lastColumnOf (hdr :: [r1] ++ r2 :: [])
   /\ 2 < lastRowOf (hdr :: [r1] ++ r2 :: [])
   /\ loose_eq (idCell r1) (JNum 2) = false
   /\ loose_eq (idCell r2) (JNum 2) = true)
  /\ exists pre task post w',
       getTasks JUndefined distinct = (Ok (pre ++ task :: post), distinct)
       /\ Forall (fun t => loose_eq (tk_id t) (JNum 2) = false) pre
       /\ loose_eq (tk_id task) (JNum 2) = true
       /\ completeTask (JNum 2) distinct = (Ok tt, w')
       /\ getTasks JUndefined w'
          = (Ok (pre ++ withStatus (JStr "Completed") task :: post), w').
Proof.
  intros hdr r1 r2.
  assert (Hsh : sheets distinct !! SHEET_NAME = Some (hdr :: [r1] ++ r2 :: [] : sheet))
    by reflexivity.
  assert (Hw : 7 <= lastColumnOf (hdr :: [r1] ++ r2 :: [])) by (vm_compute; lia).
  assert (Hin : 2 < lastRowOf (hdr :: [r1] ++ r2 :: [])) by (vm_compute; lia).
  assert (Hr1 : loose_eq (idCell r1) (JNum 2) = false) by reflexivity.
  assert (Hr2 : loose_eq (idCell r2) (JNum 2) = true) by reflexivity.
  assert (Hb : Forall (fun r' => loose_eq (idCell r') (JNum 2) = false) [r1])
    by (constructor; [exact Hr1 | constructor]).
  split; [repeat split; assumption|].
  exact (completeTask_then_getTasks (JNum 2) distinct hdr [r1] r2 [] Hsh Hw Hin Hb Hr2).
Defined.

Lemma cached_list_outlives_changes_witness :
  let tasks := map taskOfRow (drop 1 (dataValues (map JStr CONFIG.HEADERS :: taskRows quartet))) in
  let w1 := set_cache (insert "all_tasks" (map jsonTask tasks)) quartet in
  (cache quartet !! "all_tasks" = None /\ getAllTasks true quartet = (Ok tasks, w1))
  /\ (let w2 := snd (deleteTask (JNum 1) w1) in
      getAllTasks true w2 = (Ok (map jsonTask tasks), w2)).
Proof.
  intros tasks w1.
  assert (Hmiss : cache quartet !! "all_tasks" = None) by reflexivity.
  assert (Hget : getAllTasks true quartet = (Ok tasks, w1)) by reflexivity.
  split; [now split|].
  destruct (cached_list_outlives_changes quartet w1 tasks Hmiss Hget) as (_ & _ & _ & Hdelete).
  exact (Hdelete (JNum 1)).
Defined.

Lemma addTask_133_stores_witness :
  (sheets headerOnly !! CONFIG.SHEET_NAME = Some ([map JStr CONFIG.HEADERS] : sheet)
   /\ allWhitespace "Write report" = false)
  /\ exists w',
       addTask_133 (JStr "Write report") (JStr "Bogus") JUndefined (JStr "") (JStr "") (JStr "")
         headerOnly = (Ok (JNum 1), w')
       /\ getLastRow CONFIG.SHEET_NAME w' = (Ok 2, w')
       /\ cache w' !! "all_tasks" = None.
Proof.
  assert (Hsh : sheets headerOnly !! CONFIG.SHEET_NAME
                = Some ([map JStr CONFIG.HEADERS] : sheet)) by reflexivity.
  assert (Hs : allWhitespace "Write report" = false) by reflexivity.
  split; [now split|].
  destruct (addTask_133_stores "Write report" (JStr "Bogus") JUndefined "" "" "" headerOnly _
              Hsh Hs) as (w' & Hrun & _ & Hlast & Hc & _).
  exists w'. split; [exact Hrun|]. split; [exact Hlast | exact Hc].
Defined.

Lemma analytics_counts_witness :
  let tasks := map taskOfRow (drop 1 (dataValues (map JStr CONFIG.HEADERS :: taskRows quartet))) in
  let w' := set_cache (insert "all_tasks" (map jsonTask tasks)) quartet in
  (getAllTasks true quartet = (Ok tasks, w')
   /\ Forall (fun task => splittable (tk_tags task) = true) tasks)
  /\ exists a,
       getTaskAnalytics quartet = (Ok a, w')
       /\ total a = 4
       /\ byStatus a !! "Completed" = Some (Count 1)
       /\ byPriority a !! "Medium" = Some (Count 4)
       /\ byPriority a !! "High" = Some (Count 0).
Proof.
  intros tasks w'.
  assert (Hget : getAllTasks true quartet = (Ok tasks, w')) by reflexivity.
  assert (Hall : Forall (fun task => splittable (tk_tags task) = true) tasks)
    by (repeat constructor).
  split; [now split|].
  destruct (analytics_counts quartet w' tasks Hget Hall) as (a & Hrun & Ht & Hs & Hp & _).
  exists a. split; [exact Hrun|]. split; [exact Ht|]. split; [|split].
  - apply (Hs "Completed"). simpl. tauto.
  - apply (Hp "Medium"). simpl. tauto.
  - apply (Hp "High"). simpl. tauto.
Defined.

Lemma analytics_unknown_status_witness :
  let task := taskOfRow (rowOf 1 "first" "Done" "") in
  let tasks := [task] in
  let w' := set_cache (insert "all_tasks" (map jsonTask tasks)) oddStatus in
  (getAllTasks true oddStatus = (Ok tasks, w')
   /\ Forall (fun task => splittable (tk_tags task) = true) tasks
   /\ In task tasks
   /\ ~ In (statusOf task) CONFIG.STATUS_OPTIONS)
  /\ exists a, getTaskAnalytics oddStatus = (Ok a, w') /\ byStatus a !! "Done" = Some NaN.
Proof.
  intros task tasks w'.
  assert (Hget : getAllTasks true oddStatus = (Ok tasks, w')) by reflexivity.
  assert (Hall : Forall (fun task => splittable (tk_tags task) = true) tasks)
    by (repeat constructor).
  assert (Hin : In task tasks) by (left; reflexivity).
  assert (Hno : ~ In (statusOf task) CONFIG.STATUS_OPTIONS)
    by (simpl; intros [E | [E | [E | [E | []]]]]; discriminate E).
  split; [repeat split; assumption|].
  exact (analytics_unknown_status oddStatus w' tasks task Hget Hall Hin Hno).
Defined.

Lemma analytics_rejects_other_tags_witness :
  let tasks := map taskOfRow (drop 1 (dataValues (map JStr CONFIG.HEADERS :: taskRows numericTags))) in
  let w' := set_cache (insert "all_tasks" (map jsonTask tasks)) numericTags in
  (getAllTasks true numericTags = (Ok tasks, w')
   /\ Exists (fun task => splittable (tk_tags task) = false) tasks)
  /\ exists msg, getTaskAnalytics numericTags = (Throw (TypeError msg), w').
Proof.
  intros tasks w'.
  assert (Hget : getAllTasks true numericTags = (Ok tasks, w')) by reflexivity.
  assert (Hex : Exists (fun task => splittable (tk_tags task) = false) tasks)
    by (left; reflexivity).
  split; [now split|].
  exact (analytics_rejects_other_tags numericTags w' tasks Hget Hex).
Defined.

Lemma addSampleTasks_rows_witness :
  sheets headerOnly !! SHEET_NAME = Some ([map JStr CONFIG.HEADERS] : sheet)
  /\ exists w',
       addSampleTasks headerOnly = (Ok tt, w')
       /\ getLastRow SHEET_NAME w' = (Ok 5, w').
Proof.
  assert (Hsh : sheets headerOnly !! SHEET_NAME = Some ([map JStr CONFIG.HEADERS] : sheet))
    by reflexivity.
  split; [exact Hsh|].
  destruct (addSampleTasks_rows headerOnly _ Hsh) as (w' & Hrun & _ & Hlast).
  exists w'. split; [exact Hrun | exact Hlast].
Defined.

Lemma getTasks_agrees_with_getAllTasks_witness :
  let tasks := map taskOfRow (drop 1 (dataValues (map JStr CONFIG.HEADERS :: taskRows quartet))) in
  getAllTasks false quartet = (Ok tasks, quartet)
  /\ getTasks JUndefined quartet = (Ok (map withoutTags tasks), quartet).
Proof.
  intros tasks.
  assert (Hget : getAllTasks false quartet = (Ok tasks, quartet)) by reflexivity.
  split; [exact Hget|].
  exact (proj2 (getTasks_agrees_with_getAllTasks quartet quartet tasks Hget)).
Defined.

End OnPlainHost.
